(** * FutEnglish: session store, onboarding restart and the audio pipeline

    A shallow embedding of [src/user_state.py] and [src/audio_manager.py],
    and of the lesson tables of [src/content.py], the conversation history
    and command detection of [src/ai_handler.py] and the session handling
    of [src/bot_final.py].

    Conventions of the embedding:
    - a Python [str] is represented by its UTF-8 encoding, a Rocq [string]
      (one [ascii] per byte), so [str.encode()] is the identity on it;
    - a [datetime] is an integer number of microseconds ([Z]), a
      [timedelta] likewise; [datetime.now()] reads the clock of the world;
    - a [dict] is a [gmap]; the file system is the finite set of the paths
      that exist;
    - a Python exception (an instance of [Exception]) is a value of [exn],
      and a call that may raise returns a [result];
    - a coroutine runs to its end without another one in between, and the
      clock does not move during a call, only between calls. *)

From Stdlib Require Import ZArith QArith List Ascii String.
From stdpp Require Import base option list strings pretty gmap fin_maps fin_sets.

Local Open Scope string_scope.
Local Open Scope Z_scope.

(** ** [hashlib.md5]: RFC 1321 over the bytes of a string *)

Module hashlib.

Definition mask32 (x : Z) : Z := Z.land x 0xffffffff.

Definition rotl32 (x : Z) (c : Z) : Z :=
  mask32 (Z.lor (Z.shiftl x c) (Z.shiftr (mask32 x) (32 - c))).

Definition not32 (x : Z) : Z := Z.lxor (mask32 x) 0xffffffff.

Definition shifts : list Z :=
  [7; 12; 17; 22; 7; 12; 17; 22; 7; 12; 17; 22; 7; 12; 17; 22;
   5; 9; 14; 20; 5; 9; 14; 20; 5; 9; 14; 20; 5; 9; 14; 20;
   4; 11; 16; 23; 4; 11; 16; 23; 4; 11; 16; 23; 4; 11; 16; 23;
   6; 10; 15; 21; 6; 10; 15; 21; 6; 10; 15; 21; 6; 10; 15; 21].

Definition sines : list Z :=
  [0xd76aa478; 0xe8c7b756; 0x242070db; 0xc1bdceee;
   0xf57c0faf; 0x4787c62a; 0xa8304613; 0xfd469501;
   0x698098d8; 0x8b44f7af; 0xffff5bb1; 0x895cd7be;
   0x6b901122; 0xfd987193; 0xa679438e; 0x49b40821;
   0xf61e2562; 0xc040b340; 0x265e5a51; 0xe9b6c7aa;
   0xd62f105d; 0x02441453; 0xd8a1e681; 0xe7d3fbc8;
   0x21e1cde6; 0xc33707d6; 0xf4d50d87; 0x455a14ed;
   0xa9e3e905; 0xfcefa3f8; 0x676f02d9; 0x8d2a4c8a;
   0xfffa3942; 0x8771f681; 0x6d9d6122; 0xfde5380c;
   0xa4beea44; 0x4bdecfa9; 0xf6bb4b60; 0xbebfbc70;
   0x289b7ec6; 0xeaa127fa; 0xd4ef3085; 0x04881d05;
   0xd9d4d039; 0xe6db99e5; 0x1fa27cf8; 0xc4ac5665;
   0xf4292244; 0x432aff97; 0xab9423a7; 0xfc93a039;
   0x655b59c3; 0x8f0ccc92; 0xffeff47d; 0x85845dd1;
   0x6fa87e4f; 0xfe2ce6e0; 0xa3014314; 0x4e0811a1;
   0xf7537e82; 0xbd3af235; 0x2ad7d2bb; 0xeb86d391].

Definition bytes_of (s : string) : list Z :=
  (fun c => Z.of_N (N_of_ascii c)) <$> list_ascii_of_string s.

(** [n] as [k] little-endian bytes. *)
Fixpoint le_bytes (k : nat) (n : Z) : list Z :=
  match k with
  | O => []
  | S k' => Z.land n 0xff :: le_bytes k' (Z.shiftr n 8)
  end.

Fixpoint le_word (bs : list Z) : Z :=
  match bs with
  | [] => 0
  | b :: bs' => Z.lor b (Z.shiftl (le_word bs') 8)
  end.

Definition pad (msg : list Z) : list Z :=
  let len := Z.of_nat (length msg) in
  let zeros := Z.to_nat ((55 - len) mod 64) in
  msg ++ 0x80 :: List.repeat 0 zeros ++ le_bytes 8 (8 * len).

Fixpoint words (n : nat) (bs : list Z) : list Z :=
  match n with
  | O => []
  | S n' => le_word (take 4 bs) :: words n' (drop 4 bs)
  end.

Definition state : Type := Z * Z * Z * Z.

Definition round (M : list Z) (st : state) (i : nat) : state :=
  let '(A, B, C, D) := st in
  let iz := Z.of_nat i in
  let '(F, g) :=
    if iz <? 16 then (Z.lor (Z.land B C) (Z.land (not32 B) D), iz)
    else if iz <? 32 then
      (Z.lor (Z.land D B) (Z.land (not32 D) C), (5 * iz + 1) mod 16)
    else if iz <? 48 then (Z.lxor (Z.lxor B C) D, (3 * iz + 5) mod 16)
    else (Z.lxor C (Z.lor B (not32 D)), (7 * iz) mod 16) in
  let F' := mask32 (F + A + nth i sines 0 + nth (Z.to_nat g) M 0) in
  (D, mask32 (B + rotl32 F' (nth i shifts 0)), B, C).

Definition block (st : state) (chunk : list Z) : state :=
  let '(a0, b0, c0, d0) := st in
  let '(A, B, C, D) := fold_left (round (words 16 chunk)) (seq 0 64) st in
  (mask32 (a0 + A), mask32 (b0 + B), mask32 (c0 + C), mask32 (d0 + D)).

Fixpoint blocks (n : nat) (st : state) (bs : list Z) : state :=
  match n with
  | O => st
  | S n' => blocks n' (block st (take 64 bs)) (drop 64 bs)
  end.

Definition digest (msg : list Z) : list Z :=
  let p := pad msg in
  let '(a, b, c, d) :=
    blocks (length p / 64)%nat
           (0x67452301, 0xefcdab89, 0x98badcfe, 0x10325476) p in
  le_bytes 4 a ++ le_bytes 4 b ++ le_bytes 4 c ++ le_bytes 4 d.

Definition hex_digit (n : Z) : ascii :=
  nth (Z.to_nat n) (list_ascii_of_string "0123456789abcdef") "0"%char.

Fixpoint hex (bs : list Z) : string :=
  match bs with
  | [] => ""
  | b :: bs' =>
      String (hex_digit (Z.shiftr b 4))
             (String (hex_digit (Z.land b 0xf)) (hex bs'))
  end.

(** [hashlib.md5(s.encode()).hexdigest()] *)
Definition md5_hexdigest (s : string) : string := hex (digest (bytes_of s)).

End hashlib.

(** ** Python values shared by the two files *)

(** Instances of [Exception] that the modelled calls raise. *)
Inductive exn : Type :=
  | ValueError (msg : string)
  | GoogleAPIError (msg : string)
  | OSError (msg : string)
  | OtherError (msg : string).

Inductive result (A : Type) : Type :=
  | Ok (a : A)
  | Raise (e : exn).
Arguments Ok {A} a.
Arguments Raise {A} e.

(** Truth value of a [str] and of an [Optional[str]]. *)
Definition truthy (s : string) : bool :=
  match s with EmptyString => false | String _ _ => true end.

Definition truthy_opt (o : option string) : bool :=
  match o with Some s => truthy s | None => false end.

(** [str.strip()]: the characters of [str.isspace], on the UTF-8 bytes.
    One-byte: U+0009..U+000D, U+001C..U+0020; two-byte: U+0085, U+00A0;
    three-byte: U+1680, U+2000..U+200A, U+2028, U+2029, U+202F, U+205F,
    U+3000. *)
Module pystr.

Definition space1 (b : Z) : bool :=
  ((9 <=? b) && (b <=? 13)) || ((28 <=? b) && (b <=? 32)).

Definition space2 (b1 b2 : Z) : bool :=
  (b1 =? 0xC2) && ((b2 =? 0x85) || (b2 =? 0xA0)).

Definition space3 (b1 b2 b3 : Z) : bool :=
  ((b1 =? 0xE1) && (b2 =? 0x9A) && (b3 =? 0x80))
  || ((b1 =? 0xE2) && (b2 =? 0x80)
      && (((0x80 <=? b3) && (b3 <=? 0x8A))
          || (b3 =? 0xA8) || (b3 =? 0xA9) || (b3 =? 0xAF)))
  || ((b1 =? 0xE2) && (b2 =? 0x81) && (b3 =? 0x9F))
  || ((b1 =? 0xE3) && (b2 =? 0x80) && (b3 =? 0x80)).

Definition code (c : ascii) : Z := Z.of_N (N_of_ascii c).

(** Drops the leading white space. *)
Fixpoint lstrip_bytes (bs : list ascii) : list ascii :=
  match bs with
  | c1 :: bs1 =>
      if space1 (code c1) then lstrip_bytes bs1
      else
        match bs1 with
        | c2 :: bs2 =>
            if space2 (code c1) (code c2) then lstrip_bytes bs2
            else
              match bs2 with
              | c3 :: bs3 =>
                  if space3 (code c1) (code c2) (code c3)
                  then lstrip_bytes bs3 else bs
              | [] => bs
              end
        | [] => bs
        end
  | [] => bs
  end.

(** The same from the right end, on the reversed bytes. *)
Fixpoint rstrip_rev (bs : list ascii) : list ascii :=
  match bs with
  | c1 :: bs1 =>
      if space1 (code c1) then rstrip_rev bs1
      else
        match bs1 with
        | c2 :: bs2 =>
            if space2 (code c2) (code c1) then rstrip_rev bs2
            else
              match bs2 with
              | c3 :: bs3 =>
                  if space3 (code c3) (code c2) (code c1)
                  then rstrip_rev bs3 else bs
              | [] => bs
              end
        | [] => bs
        end
  | [] => bs
  end.

Definition strip (s : string) : string :=
  string_of_list_ascii
    (rev (rstrip_rev (rev (lstrip_bytes (list_ascii_of_string s))))).

(** A continuation byte of UTF-8, [10xxxxxx]: every other byte starts a
    character. *)
Definition is_continuation (c : ascii) : bool :=
  (0x80 <=? code c) && (code c <=? 0xBF).

(** [len(s)]: the number of characters. *)
Definition len (s : string) : nat :=
  length (List.filter (fun c => negb (is_continuation c))
                      (list_ascii_of_string s)).

Fixpoint take_chars (n : nat) (bs : list ascii) : list ascii :=
  match bs with
  | [] => []
  | c :: bs' =>
      if is_continuation c then c :: take_chars n bs'
      else
        match n with
        | O => []
        | S n' => c :: take_chars n' bs'
        end
  end.

(** [s[:n]]: the first [n] characters. *)
Definition slice_to (n : nat) (s : string) : string :=
  string_of_list_ascii (take_chars n (list_ascii_of_string s)).

(** [s.replace(old, new)] for two one-byte characters. *)
Definition replace_char (old new : ascii) (s : string) : string :=
  string_of_list_ascii
    ((fun c => if Ascii.eqb c old then new else c)
       <$> list_ascii_of_string s).

(** [needle in hay] *)
Fixpoint contains (needle hay : string) : bool :=
  String.prefix needle hay
  || match hay with
     | EmptyString => false
     | String _ hay' => contains needle hay'
     end.

Definition LF : ascii := ascii_of_nat 10.
Definition CR : ascii := ascii_of_nat 13.

(** [sep.join(parts)] *)
Fixpoint join (sep : string) (parts : list string) : string :=
  match parts with
  | [] => ""
  | [x] => x
  | x :: rest => (x ++ sep ++ join sep rest)%string
  end.

End pystr.

(** The builtins [int], on a string ([None] stands for [ValueError]), and
    [str.lower]. Their behaviour on the whole of Unicode is not fixed
    here: the functions that call them take it as given. *)
Record Builtins : Type := MkBuiltins {
  py_int : string -> option Z;
  py_lower : string -> string
}.

(** ** The world outside the process: clock, disk, remote service *)

Module Config.

(** [TTS_PT_CONFIG] and [TTS_EN_CONFIG]; the decimal literals are kept
    as exact rationals. *)
Record voice_config : Type := VoiceConfig {
  language_code : string;
  name : string;
  ssml_gender : string;
  speaking_rate : Q;
  pitch : Q;
  volume_gain_db : Q
}.

Definition TTS_PT_CONFIG : voice_config :=
  VoiceConfig "pt-BR" "pt-BR-Wavenet-B" "MALE" (9 # 10) 0 0.

Definition TTS_EN_CONFIG : voice_config :=
  VoiceConfig "en-US" "en-US-Wavenet-D" "MALE" (85 # 100) 0 0.

Record audio_config : Type := AudioConfig {
  audio_encoding : string;
  sample_rate_hertz : Z;
  effects_profile_id : list string
}.

Definition AUDIO_CONFIG : audio_config :=
  AudioConfig "OGG_OPUS" 48000 ["telephony-class-application"].

End Config.

(** One [client.synthesize_speech] request. *)
Record request : Type := Request {
  req_text : string;
  req_voice : Config.voice_config;
  req_audio : Config.audio_config
}.

(** [tempfile.NamedTemporaryFile(delete=False, ...)] followed by
    [write]: the name of the file written, or the exception raised, with
    the file that the failed attempt may leave behind. *)
Inductive tmp_outcome : Type :=
  | Written (path : string)
  | Failed (e : exn) (leftover : option string).

Record World : Type := MkWorld {
  now : Z;                     (* datetime.now(), microseconds *)
  files : gset string;         (* paths for which os.path.exists holds *)
  undeletable : gset string;   (* paths on which os.unlink raises OSError *)
  requests : list request      (* remote calls issued so far, oldest first *)
}.

(** What the collaborators answer; nothing in the pipeline fixes it.
    [clean_text_for_tts] is [ContentHelper.clean_text_for_tts], a pure
    regular-expression clean-up of the text. *)
Record Services : Type := MkServices {
  clean_text_for_tts : string -> string;
  synthesize_speech : list request -> request -> result string;
  named_temporary_file : gset string -> string -> Z -> string -> tmp_outcome
}.

Definition set_now (t : Z) (w : World) : World :=
  MkWorld t (files w) (undeletable w) (requests w).

Definition set_files (fs : gset string) (w : World) : World :=
  MkWorld (now w) fs (undeletable w) (requests w).

Definition log_request (r : request) (w : World) : World :=
  MkWorld (now w) (files w) (undeletable w) (requests w ++ [r])%list.

(** [os.path.exists]: false on the empty path. *)
Definition os_path_exists (p : string) (w : World) : bool :=
  truthy p && bool_decide (p ∈ files w).

(** [os.unlink]: raises [OSError] on a missing or protected path. *)
Definition os_unlink (p : string) (w : World) : result unit * World :=
  if os_path_exists p w && negb (bool_decide (p ∈ undeletable w))
  then (Ok tt, set_files (files w ∖ {[p]}) w)
  else (Raise (OSError p), w).

(** [timedelta(hours=h)] and [timedelta(minutes=m)] *)
Definition timedelta_hours (h : Z) : Z := h * 3600000000.
Definition timedelta_minutes (m : Z) : Z := m * 60000000.

(** ** [audio_manager.py] *)

Module AudioCache.

Record entry : Type := Entry {
  file_path : string;
  timestamp : Z
}.

Record t : Type := Build {
  cache : gmap string entry;
  max_size : Z;
  ttl : Z
}.

Definition __init__ (max_size ttl_hours : Z) : t :=
  Build ∅ max_size (timedelta_hours ttl_hours).

Definition with_cache (c : gmap string entry) (self : t) : t :=
  Build c (max_size self) (ttl self).

Definition _generate_key (text language : string) : string :=
  hashlib.md5_hexdigest (text ++ "_" ++ language).

Definition get (text language : string) (w : World) (self : t)
  : option string * t :=
  let key := _generate_key text language in
  match cache self !! key with
  | Some entry =>
      if bool_decide (now w - timestamp entry < ttl self) then
        if os_path_exists (file_path entry) w then
          (Some (file_path entry), self)
        else
          (None, with_cache (delete key (cache self)) self)
      else (None, self)
  | None => (None, self)
  end.

(** [now - entry['timestamp'] > self.ttl] *)
Definition expired (self : t) (now : Z) (e : entry) : Prop :=
  ttl self < now - timestamp e.

#[global] Instance expired_dec self now e : Decision (expired self now e).
Proof. unfold expired. apply _. Defined.

Definition _cleanup_old_entries (w : World) (self : t) : t * World :=
  let expired_entries :=
    filter (fun kv : string * entry => expired self (now w) kv.2)
           (cache self) in
  let w' :=
    map_fold
      (fun _ e w =>
         if os_path_exists (file_path e) w
         then (os_unlink (file_path e) w).2   (* except OSError: pass *)
         else w)
      w expired_entries in
  (with_cache
     (filter (fun kv : string * entry => ¬ expired self (now w) kv.2)
             (cache self))
     self,
   w').

Definition set (text language file_path : string) (w : World) (self : t)
  : t * World :=
  let key := _generate_key text language in
  let '(self1, w1) :=
    if bool_decide (max_size self <= Z.of_nat (size (cache self)))
    then _cleanup_old_entries w self
    else (self, w) in
  (with_cache (<[key := Entry file_path (now w1)]> (cache self1)) self1, w1).

End AudioCache.

Module TTSEngine.

(** [client] is [false] when [_initialize_client] left it [None]. *)
Record t : Type := Build {
  client : bool;
  cache : AudioCache.t
}.

Definition __init__ (client_ok : bool) : t :=
  Build client_ok (AudioCache.__init__ 100 1).

Definition with_cache (c : AudioCache.t) (self : t) : t :=
  Build (client self) c.

Definition _get_voice_config (language : string)
  : result Config.voice_config :=
  if String.eqb language "pt-BR" then Ok Config.TTS_PT_CONFIG
  else if String.eqb language "en-US" then Ok Config.TTS_EN_CONFIG
  else Raise (ValueError ("Idioma não suportado: " ++ language)).

Definition _save_audio_file (sv : Services) (audio_content language : string)
    (w : World) : option string * World :=
  match named_temporary_file sv (files w) language (now w) audio_content with
  | Written path => (Some path, set_files (files w ∪ {[path]}) w)
  | Failed _ (Some path) => (None, set_files (files w ∪ {[path]}) w)
  | Failed _ None => (None, w)
  end.

(** The body of the [try] of [generate_audio]; [Ok None] when it runs to
    its end without reaching [return file_path]. *)
Definition try_synthesis (sv : Services) (text language : string)
    (self : t) (w : World) : result (option string) * t * World :=
  let clean_text := clean_text_for_tts sv text in
  match _get_voice_config language with
  | Raise e => (Raise e, self, w)
  | Ok voice_config =>
      let req := Request clean_text voice_config Config.AUDIO_CONFIG in
      match synthesize_speech sv (requests w) req with
      | Raise e => (Raise e, self, log_request req w)
      | Ok audio_content =>
          let '(file_path, w1) :=
            _save_audio_file sv audio_content language (log_request req w) in
          if truthy_opt file_path then
            let path := default "" file_path in
            let '(c, w2) := AudioCache.set text language path w1 (cache self) in
            (Ok (Some path), with_cache c self, w2)
          else (Ok None, self, w1)
      end
  end.

Definition generate_audio (sv : Services) (text language : string)
    (self : t) (w : World) : result (option string) * t * World :=
  if negb (client self) then (Ok None, self, w)
  else if negb (truthy (pystr.strip text)) then (Ok None, self, w)
  else
    let '(cached_file, c) := AudioCache.get text language w (cache self) in
    let self1 := with_cache c self in
    if truthy_opt cached_file then (Ok cached_file, self1, w)
    else
      match try_synthesis sv text language self1 w with
      | (Ok (Some file_path), self2, w2) => (Ok (Some file_path), self2, w2)
      | (Ok None, self2, w2) => (Ok None, self2, w2)
      | (Raise (GoogleAPIError _), self2, w2) => (Ok None, self2, w2)
      | (Raise _, self2, w2) => (Ok None, self2, w2)
      end.

End TTSEngine.

Module DualLanguageAudioManager.

(** One value of [last_audio_files]: the dict with keys ['pt'], ['en'],
    ['pt_text'] and ['en_text']. *)
Record last_audio : Type := LastAudio {
  pt : option string;
  en : option string;
  pt_text : string;
  en_text : option string
}.

Record t : Type := Build {
  tts_engine : TTSEngine.t;
  last_audio_files : gmap Z last_audio
}.

Definition __init__ (client_ok : bool) : t :=
  Build (TTSEngine.__init__ client_ok) ∅.

Definition with_engine (e : TTSEngine.t) (self : t) : t :=
  Build e (last_audio_files self).

Definition with_last (m : gmap Z last_audio) (self : t) : t :=
  Build (tts_engine self) m.

(** [asyncio.gather] of the two [generate_audio] coroutines, taken in
    the order of the task list (pt-BR, then en-US). *)
Definition generate_lesson_audio (sv : Services) (user_id : Z)
    (pt_text en_text : string) (self : t) (w : World)
  : result (option string * option string) * t * World :=
  match TTSEngine.generate_audio sv pt_text "pt-BR" (tts_engine self) w with
  | (Raise _, e1, w1) => (Ok (None, None), with_engine e1 self, w1)
  | (Ok pt_path, e1, w1) =>
      match TTSEngine.generate_audio sv en_text "en-US" e1 w1 with
      | (Raise _, e2, w2) => (Ok (None, None), with_engine e2 self, w2)
      | (Ok en_path, e2, w2) =>
          let record := LastAudio pt_path en_path pt_text (Some en_text) in
          (Ok (pt_path, en_path),
           Build e2 (<[user_id := record]> (last_audio_files self)),
           w2)
      end
  end.

Definition generate_professor_audio (sv : Services) (user_id : Z)
    (text : string) (self : t) (w : World)
  : result (option string) * t * World :=
  match TTSEngine.generate_audio sv text "pt-BR" (tts_engine self) w with
  | (Raise e, e1, w1) => (Raise e, with_engine e1 self, w1)
  | (Ok pt_path, e1, w1) =>
      if truthy_opt pt_path then
        let record := LastAudio pt_path None text None in
        (Ok pt_path,
         Build e1 (<[user_id := record]> (last_audio_files self)),
         w1)
      else (Ok pt_path, with_engine e1 self, w1)
  end.

(** [path and os.path.exists(path)], as a truth value. *)
Definition exists_on_disk (path : option string) (w : World) : bool :=
  truthy_opt path && os_path_exists (default "" path) w.

Definition repeat_last_audio (sv : Services) (user_id : Z)
    (self : t) (w : World)
  : result (option string * option string) * t * World :=
  match last_audio_files self !! user_id with
  | None => (Ok (None, None), self, w)
  | Some last_audio =>
      let pt_path := pt last_audio in
      let en_path := en last_audio in
      let pt_exists := exists_on_disk pt_path w in
      let en_exists := exists_on_disk en_path w in
      let kept :=
        (Ok (if pt_exists then pt_path else None,
             if en_exists then en_path else None), self, w) in
      if negb pt_exists || (truthy_opt en_path && negb en_exists) then
        let pt_text := pt_text last_audio in
        let en_text := en_text last_audio in
        if truthy pt_text && truthy_opt en_text then
          generate_lesson_audio sv user_id pt_text (default "" en_text) self w
        else if truthy pt_text then
          match generate_professor_audio sv user_id pt_text self w with
          | (Raise e, self1, w1) => (Raise e, self1, w1)
          | (Ok pt_new, self1, w1) => (Ok (pt_new, None), self1, w1)
          end
        else kept
      else kept
  end.

Definition cleanup_user_audio (user_id : Z) (self : t) (w : World)
  : t * World :=
  match last_audio_files self !! user_id with
  | None => (self, w)
  | Some last_audio =>
      let remove (path : option string) (w : World) :=
        if exists_on_disk path w
        then (os_unlink (default "" path) w).2   (* except OSError: warn *)
        else w in
      (with_last (delete user_id (last_audio_files self)) self,
       remove (en last_audio) (remove (pt last_audio) w))
  end.

End DualLanguageAudioManager.

(** ** [user_state.py] *)

(** A keyword-argument value of [update_session]. *)
Inductive value : Type :=
  | VStr (s : string)
  | VInt (n : Z)
  | VBool (b : bool)
  | VTime (t : Z)
  | VList (l : list Z).

Module UserSession.

Record t : Type := Build {
  user_id : Z;
  name : string;
  position : string;
  english_level : string;
  current_step : string;
  current_lesson_id : Z;
  last_audio_text : string;
  last_interaction : Z;
  lessons_completed : list Z;
  total_interactions : Z;
  session_start : Z;
  waiting_for_name : bool;
  waiting_for_position : bool;
  waiting_for_level : bool;
  onboarding_complete : bool;
  message_timestamps : list Z
}.

(** [UserSession(user_id=user_id)]: the dataclass defaults, the two
    [default_factory=datetime.now] fields read at construction. *)
Definition __init__ (user_id now : Z) : t :=
  Build user_id "" "" "Intermediário" "onboarding" 1 "" now [] 0 now
        false false false false [].

Definition update_last_interaction (now : Z) (self : t) : t :=
  Build (user_id self) (name self) (position self) (english_level self)
        (current_step self) (current_lesson_id self) (last_audio_text self)
        now (lessons_completed self) (total_interactions self + 1)
        (session_start self) (waiting_for_name self)
        (waiting_for_position self) (waiting_for_level self)
        (onboarding_complete self) (message_timestamps self).

Definition with_message_timestamps (l : list Z) (self : t) : t :=
  Build (user_id self) (name self) (position self) (english_level self)
        (current_step self) (current_lesson_id self) (last_audio_text self)
        (last_interaction self) (lessons_completed self)
        (total_interactions self) (session_start self)
        (waiting_for_name self) (waiting_for_position self)
        (waiting_for_level self) (onboarding_complete self) l.

Definition add_message_timestamp (now : Z) (self : t) : t :=
  let appended := (message_timestamps self ++ [now])%list in
  let cutoff := now - timedelta_minutes 1 in
  with_message_timestamps
    (List.filter (fun ts => cutoff <? ts) appended) self.

Definition is_rate_limited (now : Z) (max_messages : Z) (self : t)
  : bool * t :=
  let self1 := add_message_timestamp now self in
  (max_messages <? Z.of_nat (length (message_timestamps self1)), self1).

(** [hasattr(session, key)]: the keys are taken among the names of data,
    for which it holds exactly on the dataclass fields (the names of the
    methods of the class are left out of the embedding). *)
Definition fields : list string :=
  ["user_id"; "name"; "position"; "english_level"; "current_step";
   "current_lesson_id"; "last_audio_text"; "last_interaction";
   "lessons_completed"; "total_interactions"; "session_start";
   "waiting_for_name"; "waiting_for_position"; "waiting_for_level";
   "onboarding_complete"; "message_timestamps"].

Definition hasattr (key : string) : bool :=
  existsb (String.eqb key) fields.

(** [setattr(session, key, value)] for a value of the field's declared
    type; a value of another type is left out of the embedding and the
    field keeps its content. *)
Definition setattr (self : t) (key : string) (v : value) : t :=
  let 'Build uid nm pos lvl step lesson audio last done total start
             wname wpos wlvl complete stamps := self in
  match v with
  | VStr s =>
      if String.eqb key "name" then
        Build uid s pos lvl step lesson audio last done total start
              wname wpos wlvl complete stamps
      else if String.eqb key "position" then
        Build uid nm s lvl step lesson audio last done total start
              wname wpos wlvl complete stamps
      else if String.eqb key "english_level" then
        Build uid nm pos s step lesson audio last done total start
              wname wpos wlvl complete stamps
      else if String.eqb key "current_step" then
        Build uid nm pos lvl s lesson audio last done total start
              wname wpos wlvl complete stamps
      else if String.eqb key "last_audio_text" then
        Build uid nm pos lvl step lesson s last done total start
              wname wpos wlvl complete stamps
      else self
  | VInt n =>
      if String.eqb key "user_id" then
        Build n nm pos lvl step lesson audio last done total start
              wname wpos wlvl complete stamps
      else if String.eqb key "current_lesson_id" then
        Build uid nm pos lvl step n audio last done total start
              wname wpos wlvl complete stamps
      else if String.eqb key "total_interactions" then
        Build uid nm pos lvl step lesson audio last done n start
              wname wpos wlvl complete stamps
      else self
  | VBool b =>
      if String.eqb key "waiting_for_name" then
        Build uid nm pos lvl step lesson audio last done total start
              b wpos wlvl complete stamps
      else if String.eqb key "waiting_for_position" then
        Build uid nm pos lvl step lesson audio last done total start
              wname b wlvl complete stamps
      else if String.eqb key "waiting_for_level" then
        Build uid nm pos lvl step lesson audio last done total start
              wname wpos b complete stamps
      else if String.eqb key "onboarding_complete" then
        Build uid nm pos lvl step lesson audio last done total start
              wname wpos wlvl b stamps
      else self
  | VTime ts =>
      if String.eqb key "last_interaction" then
        Build uid nm pos lvl step lesson audio ts done total start
              wname wpos wlvl complete stamps
      else if String.eqb key "session_start" then
        Build uid nm pos lvl step lesson audio last done total ts
              wname wpos wlvl complete stamps
      else self
  | VList l =>
      if String.eqb key "lessons_completed" then
        Build uid nm pos lvl step lesson audio last l total start
              wname wpos wlvl complete stamps
      else if String.eqb key "message_timestamps" then
        Build uid nm pos lvl step lesson audio last done total start
              wname wpos wlvl complete l
      else self
  end.

End UserSession.

Module UserStateManager.

(** [lock_held]: whether [self.lock], a [threading.Lock], is taken. *)
Record t : Type := Build {
  sessions : gmap Z UserSession.t;
  lock_held : bool
}.

Definition __init__ : t := Build ∅ false.

(** A call either returns, or waits for ever in [lock.acquire()]. *)
Inductive outcome (A : Type) : Type :=
  | Returns (a : A) (m : t)
  | Blocks (m : t).
Arguments Returns {A} a m.
Arguments Blocks {A} m.

(** [with self.lock: body]. A [threading.Lock] is not reentrant: taking
    it while it is held waits until it is released, and nothing in the
    module releases a lock outside the [with] that took it. *)
Definition with_lock {A : Type} (body : t -> outcome A) (self : t)
  : outcome A :=
  if lock_held self then Blocks self
  else
    match body (Build (sessions self) true) with
    | Returns a m => Returns a (Build (sessions m) false)
    | Blocks m => Blocks m
    end.

Definition store (user_id : Z) (s : UserSession.t) (self : t) : t :=
  Build (<[user_id := s]> (sessions self)) (lock_held self).

Definition get_or_create_session (user_id now : Z) (self : t)
  : outcome UserSession.t :=
  with_lock
    (fun m =>
       match sessions m !! user_id with
       | None =>
           let s := UserSession.__init__ user_id now in
           Returns s (store user_id s m)
       | Some s =>
           let s' := UserSession.update_last_interaction now s in
           Returns s' (store user_id s' m)
       end)
    self.

(** The [for key, value in kwargs.items()] loop of [update_session]. *)
Definition apply_kwargs (kwargs : list (string * value))
    (session : UserSession.t) : UserSession.t :=
  fold_left
    (fun s kv =>
       if UserSession.hasattr kv.1 then UserSession.setattr s kv.1 kv.2
       else s)
    kwargs session.

Definition update_session (user_id : Z) (kwargs : list (string * value))
    (now : Z) (self : t) : outcome UserSession.t :=
  with_lock
    (fun m =>
       match get_or_create_session user_id now m with
       | Blocks m1 => Blocks m1
       | Returns session m1 =>
           let session1 := apply_kwargs kwargs session in
           let session2 := UserSession.update_last_interaction now session1 in
           Returns session2 (store user_id session2 m1)
       end)
    self.

Definition get_session (user_id : Z) (self : t)
  : outcome (option UserSession.t) :=
  with_lock (fun m => Returns (sessions m !! user_id) m) self.

Definition delete_session (user_id : Z) (self : t) : outcome bool :=
  with_lock
    (fun m =>
       match sessions m !! user_id with
       | Some _ => Returns true (Build (delete user_id (sessions m)) (lock_held m))
       | None => Returns false m
       end)
    self.

Definition is_user_rate_limited (user_id now : Z) (self : t)
  : outcome bool :=
  match get_or_create_session user_id now self with
  | Blocks m => Blocks m
  | Returns session m =>
      let '(limited, session1) := UserSession.is_rate_limited now 10 session in
      Returns limited (store user_id session1 m)
  end.

Definition get_all_sessions_count (self : t) : outcome nat :=
  with_lock (fun m => Returns (size (sessions m)) m) self.

(** [session.last_interaction < cutoff_time] *)
Definition inactive (cutoff_time : Z) (s : UserSession.t) : Prop :=
  UserSession.last_interaction s < cutoff_time.

#[global] Instance inactive_dec cutoff_time s : Decision (inactive cutoff_time s).
Proof. unfold inactive. apply _. Defined.

(** Returns the number of sessions removed, which the code prints. *)
Definition _cleanup_old_sessions (now : Z) (self : t) : outcome nat :=
  let cutoff_time := now - timedelta_hours 1 in
  with_lock
    (fun m =>
       let inactive_users :=
         filter (fun kv : Z * UserSession.t => inactive cutoff_time kv.2)
                (sessions m) in
       Returns (size inactive_users)
         (Build
            (filter (fun kv : Z * UserSession.t => ¬ inactive cutoff_time kv.2)
                    (sessions m))
            (lock_held m)))
    self.

End UserStateManager.

Module OnboardingFlow.

Definition welcome_text : string := "
🔥 Eaí, futuro craque! Sou o Professor Bola Gringa! ⚽

Vou te ensinar inglês usando o que você mais ama: FUTEBOL! 
Aqui você vai aprender vocabulário, gírias e tudo sobre o beautiful game em inglês!

Vamos começar se conhecendo melhor? 

**Qual é o seu nome?** 😎
".

(** The keyword arguments that [start_onboarding] passes on. *)
Definition start_onboarding_kwargs : list (string * value) :=
  [("current_step", VStr "onboarding");
   ("waiting_for_name", VBool true);
   ("onboarding_complete", VBool false)].

Definition start_onboarding (user_id now : Z) (m : UserStateManager.t)
  : UserStateManager.outcome string :=
  match UserStateManager.update_session user_id start_onboarding_kwargs now m with
  | UserStateManager.Returns _ m1 => UserStateManager.Returns welcome_text m1
  | UserStateManager.Blocks m1 => UserStateManager.Blocks m1
  end.

Definition POSITIONS : list string :=
  ["Goleiro"; "Zagueiro"; "Lateral"; "Volante";
   "Meio-campo"; "Atacante"; "Não jogo, só assisto"].

Definition ENGLISH_LEVELS : list string :=
  ["Iniciante"; "Intermediário"; "Avançado"].

(** ["\n".join([f"{i+1}. {pos}" for i, pos in enumerate(options)])] *)
Definition numbered (options : list string) : string :=
  pystr.join (String pystr.LF "")
    (imap (fun i pos => (pretty (S i) ++ ". " ++ pos)%string) options).

(** [int(input) - 1] used as an index of [options], inside the
    [try ... except ValueError: pass]. *)
Definition by_number (py : Builtins) (options : list string)
    (input : string) : option string :=
  match py_int py input with
  | Some n =>
      let index := n - 1 in
      if (0 <=? index) && (index <? Z.of_nat (length options))
      then options !! Z.to_nat index
      else None
  | None => None
  end.

(** The [for pos in options: if ...: break] search by name. *)
Definition by_name (py : Builtins) (options : list string)
    (input : string) : option string :=
  let input_lower := py_lower py input in
  List.find
    (fun pos =>
       pystr.contains (py_lower py pos) input_lower
       || pystr.contains input_lower (py_lower py pos))
    options.

Definition name_reply (name : string) : string :=
  ("
Prazer em te conhecer, " ++ name ++ "! 🤝

Agora me conta: **qual posição você joga?**
(ou qual você mais gosta de assistir)

"
   ++ numbered POSITIONS ++ "

Digite o número ou o nome da posição:
")%string.

Definition position_retry : string :=
  ("
Não entendi a posição. Escolha uma das opções:

" ++ numbered POSITIONS ++ "

Digite o número ou nome:
")%string.

Definition position_reply (position : string) : string :=
  ("
Que massa! " ++ position ++ " é uma posição importante! ⚽

Agora me conta: **qual seu nível de inglês?**

"
   ++ numbered ENGLISH_LEVELS ++ "

Digite o número ou nome do nível:
")%string.

Definition level_retry : string :=
  ("
Não entendi o nível. Escolha uma das opções:

" ++ numbered ENGLISH_LEVELS ++ "

Digite o número ou nome:
")%string.

Definition level_reply (session : UserSession.t) : string :=
  ("
Perfeito, " ++ UserSession.name session ++ "! 🎉

**Seu Perfil:**
👤 Nome: "
   ++ UserSession.name session ++ "
⚽ Posição: "
   ++ UserSession.position session ++ "  
📚 Nível: "
   ++ UserSession.english_level session ++ "

Agora vamos começar a aprender inglês com futebol! 
Use /próxima para começar sua primeira lição, ou conversе comigo livremente sobre futebol!

Bora que bora! 🚀⚽
")%string.

Definition _handle_name_input (user_id : Z) (name : string) (now : Z)
    (m : UserStateManager.t) : UserStateManager.outcome (string * bool) :=
  let name := pystr.strip name in
  if (pystr.len name <? 2)%nat then
    UserStateManager.Returns ("Por favor, digite um nome válido:", false) m
  else
    match UserStateManager.update_session user_id
            [("name", VStr name);
             ("waiting_for_name", VBool false);
             ("waiting_for_position", VBool true)] now m with
    | UserStateManager.Blocks m1 => UserStateManager.Blocks m1
    | UserStateManager.Returns _ m1 =>
        UserStateManager.Returns (name_reply name, false) m1
    end.

Definition _handle_position_input (py : Builtins) (user_id : Z)
    (position_input : string) (now : Z) (m : UserStateManager.t)
  : UserStateManager.outcome (string * bool) :=
  let position_input := pystr.strip position_input in
  let position := by_number py POSITIONS position_input in
  let position :=
    if truthy_opt position then position
    else by_name py POSITIONS position_input in
  if negb (truthy_opt position) then
    UserStateManager.Returns (position_retry, false) m
  else
    match UserStateManager.update_session user_id
            [("position", VStr (default "" position));
             ("waiting_for_position", VBool false);
             ("waiting_for_level", VBool true)] now m with
    | UserStateManager.Blocks m1 => UserStateManager.Blocks m1
    | UserStateManager.Returns _ m1 =>
        UserStateManager.Returns
          (position_reply (default "" position), false) m1
    end.

Definition _handle_level_input (py : Builtins) (user_id : Z)
    (level_input : string) (now : Z) (m : UserStateManager.t)
  : UserStateManager.outcome (string * bool) :=
  let level_input := pystr.strip level_input in
  let level := by_number py ENGLISH_LEVELS level_input in
  let level :=
    if truthy_opt level then level
    else by_name py ENGLISH_LEVELS level_input in
  if negb (truthy_opt level) then
    UserStateManager.Returns (level_retry, false) m
  else
    match UserStateManager.update_session user_id
            [("english_level", VStr (default "" level));
             ("waiting_for_level", VBool false);
             ("onboarding_complete", VBool true);
             ("current_step", VStr "lesson")] now m with
    | UserStateManager.Blocks m1 => UserStateManager.Blocks m1
    | UserStateManager.Returns session m1 =>
        UserStateManager.Returns (level_reply session, true) m1
    end.

Definition process_onboarding_input (py : Builtins) (user_id : Z)
    (message : string) (now : Z) (m : UserStateManager.t)
  : UserStateManager.outcome (string * bool) :=
  match UserStateManager.get_session user_id m with
  | UserStateManager.Blocks m1 => UserStateManager.Blocks m1
  | UserStateManager.Returns None m1 =>
      match start_onboarding user_id now m1 with
      | UserStateManager.Blocks m2 => UserStateManager.Blocks m2
      | UserStateManager.Returns text m2 =>
          UserStateManager.Returns (text, false) m2
      end
  | UserStateManager.Returns (Some session) m1 =>
      if UserSession.waiting_for_name session then
        _handle_name_input user_id message now m1
      else if UserSession.waiting_for_position session then
        _handle_position_input py user_id message now m1
      else if UserSession.waiting_for_level session then
        _handle_level_input py user_id message now m1
      else
        UserStateManager.Returns
          ("Algo deu errado no onboarding. Vamos recomeçar!", false) m1
  end.

End OnboardingFlow.

Module StateValidator.

(** [session] is [None] or a [UserSession], which is always true as a
    condition. The second component is the session after the call. *)
Definition validate_session (session : option UserSession.t)
  : bool * option UserSession.t :=
  match session with
  | None => (false, None)
  | Some s =>
      if UserSession.user_id s <=? 0 then (false, Some s)
      else if UserSession.onboarding_complete s
              && (negb (truthy (UserSession.name s))
                  || negb (truthy (UserSession.position s))
                  || negb (truthy (UserSession.english_level s)))
      then (false, Some s)
      else if UserSession.current_lesson_id s <? 1 then
        (true, Some (UserSession.setattr s "current_lesson_id" (VInt 1)))
      else (true, Some s)
  end.

Definition sanitize_user_input (text : string) : string :=
  if negb (truthy text) then ""
  else
    let text := pystr.strip text in
    let text :=
      pystr.replace_char pystr.CR " "
        (pystr.replace_char pystr.LF " " text) in
    if (500 <? pystr.len text)%nat then pystr.slice_to 500 text else text.

End StateValidator.

(** ** [content.py] *)

Module FootballContent.

(** A lesson: a dict whose key ["id"], where it has one, holds an integer
    and whose other keys hold strings, in the order of the source. Every
    entry of the two vocabularies has an ["id"]. *)
Record lesson : Type := MkLesson {
  id : option Z;
  attrs : list (string * string)
}.

(** [lesson.get(key)] *)
Definition get (key : string) (l : lesson) : option string :=
  snd <$> List.find (fun kv => String.eqb kv.1 key) (attrs l).

Definition VOCABULARY_BASIC : list lesson :=
  [MkLesson (Some 1)
    [("pt", "Goleiro");
     ("en", "Goalkeeper");
     ("pronunciation", "GOAL-kee-per");
     ("category", "positions");
     ("explanation", "O jogador que defende o gol e pode usar as mãos dentro da área");
     ("example_pt", "O goleiro fez uma defesa incrível");
     ("example_en", "The goalkeeper made an incredible save");
     ("tips", "Também pode ser chamado de 'keeper' ou 'goalie'")];
   MkLesson (Some 2)
    [("pt", "Zagueiro");
     ("en", "Defender");
     ("pronunciation", "dih-FEN-der");
     ("category", "positions");
     ("explanation", "Jogador que atua na defesa para proteger o gol");
     ("example_pt", "O zagueiro cortou o ataque adversário");
     ("example_en", "The defender stopped the opponent's attack");
     ("tips", "Pode ser 'center-back' (zagueiro central) ou 'full-back' (lateral)")];
   MkLesson (Some 3)
    [("pt", "Atacante");
     ("en", "Striker");
     ("pronunciation", "STRAI-ker");
     ("category", "positions");
     ("explanation", "Jogador responsável por marcar gols");
     ("example_pt", "O atacante balançou as redes");
     ("example_en", "The striker scored a goal");
     ("tips", "Também chamado de 'forward' ou 'center-forward'")];
   MkLesson (Some 4)
    [("pt", "Meio-campo");
     ("en", "Midfielder");
     ("pronunciation", "MID-feel-der");
     ("category", "positions");
     ("explanation", "Jogador que atua entre a defesa e o ataque");
     ("example_pt", "O meio-campo distribuiu bem o jogo");
     ("example_en", "The midfielder distributed the ball well");
     ("tips", "Pode ser defensivo, central ou ofensivo")];
   MkLesson (Some 5)
    [("pt", "Bola");
     ("en", "Ball");
     ("pronunciation", "BAWL");
     ("category", "equipment");
     ("explanation", "A esfera usada para jogar futebol");
     ("example_pt", "A bola saiu pela linha de fundo");
     ("example_en", "The ball went out over the goal line");
     ("tips", "Sempre use 'the ball', nunca apenas 'ball'")];
   MkLesson (Some 6)
    [("pt", "Gol");
     ("en", "Goal");
     ("pronunciation", "GOHL");
     ("category", "actions");
     ("explanation", "Quando a bola entra completamente no gol adversário");
     ("example_pt", "Foi um gol de placa!");
     ("example_en", "It was a spectacular goal!");
     ("tips", "Pode ser usado para o ato de marcar ou a estrutura física")];
   MkLesson (Some 7)
    [("pt", "Passe");
     ("en", "Pass");
     ("pronunciation", "PAAS");
     ("category", "actions");
     ("explanation", "Ação de enviar a bola para um companheiro");
     ("example_pt", "Que passe espetacular!");
     ("example_en", "What a spectacular pass!");
     ("tips", "Pode ser 'short pass' (passe curto) ou 'long pass' (passe longo)")];
   MkLesson (Some 8)
    [("pt", "Chute");
     ("en", "Shot");
     ("pronunciation", "SHAHT");
     ("category", "actions");
     ("explanation", "Ação de chutar a bola em direção ao gol");
     ("example_pt", "O chute foi para fora");
     ("example_en", "The shot went wide");
     ("tips", "Também pode ser 'kick' para chute em geral")];
   MkLesson (Some 9)
    [("pt", "Campo");
     ("en", "Field");
     ("pronunciation", "FEELD");
     ("category", "field");
     ("explanation", "O terreno onde se joga futebol");
     ("example_pt", "O campo estava molhado");
     ("example_en", "The field was wet");
     ("tips", "Também chamado de 'pitch' no inglês britânico")];
   MkLesson (Some 10)
    [("pt", "Árbitro");
     ("en", "Referee");
     ("pronunciation", "REF-uh-ree");
     ("category", "officials");
     ("explanation", "O responsável por aplicar as regras do jogo");
     ("example_pt", "O árbitro marcou pênalti");
     ("example_en", "The referee awarded a penalty");
     ("tips", "Informalmente chamado de 'ref'")]].

Definition VOCABULARY_PHRASES : list lesson :=
  [MkLesson (Some 11)
    [("pt", "O goleiro fez uma defesa");
     ("en", "The goalkeeper made a save");
     ("category", "game_actions");
     ("context", "Quando o goleiro impede um gol");
     ("alternative", "The keeper stopped the shot")];
   MkLesson (Some 12)
    [("pt", "O atacante marcou um gol");
     ("en", "The striker scored a goal");
     ("category", "game_actions");
     ("context", "Quando um jogador marca");
     ("alternative", "The forward found the net")];
   MkLesson (Some 13)
    [("pt", "Foi um passe perfeito");
     ("en", "It was a perfect pass");
     ("category", "game_actions");
     ("context", "Elogiando um passe bem executado");
     ("alternative", "That was an excellent pass")];
   MkLesson (Some 14)
    [("pt", "A bola bateu na trave");
     ("en", "The ball hit the post");
     ("category", "game_events");
     ("context", "Quando a bola acerta a trave");
     ("alternative", "The shot struck the goalpost")];
   MkLesson (Some 15)
    [("pt", "O time está atacando");
     ("en", "The team is attacking");
     ("category", "game_tactics");
     ("context", "Descrevendo ação ofensiva");
     ("alternative", "The team is on the attack")]].

(** [level -> (step, max_lesson)] *)
Definition DIFFICULTY_LEVELS : list (string * (Z * Z)) :=
  [("Iniciante", (1, 5));
   ("Intermediário", (1, 10));
   ("Avançado", (2, 15))].

End FootballContent.

(** [seq[:n]] for an integer [n] of either sign. *)
Definition py_slice_to {A} (n : Z) (l : list A) : list A :=
  if 0 <=? n then take (Z.to_nat n) l
  else take (length l - Z.to_nat (- n)) l.

(** [seq[-n:]] for [n >= 0]: with [n = 0] it is [seq[0:]], the whole
    sequence. *)
Definition py_last_n {A} (n : nat) (l : list A) : list A :=
  match n with
  | O => l
  | S _ => drop (length l - n) l
  end.

(** [random.choice(seq)] on a sequence that is not empty: [pick] is the
    number drawn. *)
Definition random_choice {A} (pick : nat) (l : list A) : option A :=
  l !! (pick mod length l)%nat.

Module LessonManager.

Import FootballContent.

Definition get_lesson_by_id (lesson_id : Z) : option lesson :=
  let all_content := (VOCABULARY_BASIC ++ VOCABULARY_PHRASES)%list in
  List.find (fun item => bool_decide (id item = Some lesson_id)) all_content.

Definition level_config (level : string) : Z * Z :=
  default (1, 5)
    (snd <$> List.find (fun kv => String.eqb kv.1 level) DIFFICULTY_LEVELS).

Definition get_lessons_by_level (level : string) : list lesson :=
  let config := level_config level in
  if config.1 =? 1 then py_slice_to config.2 VOCABULARY_BASIC
  else
    let basic := VOCABULARY_BASIC in
    let phrases :=
      py_slice_to (config.2 - Z.of_nat (length basic)) VOCABULARY_PHRASES in
    (basic ++ phrases)%list.

Definition get_random_lesson (pick : nat) (level : string) : option lesson :=
  let lessons := get_lessons_by_level level in
  match lessons with
  | [] => None
  | _ => random_choice pick lessons
  end.

(** The index of the first lesson of the list with that id. *)
Fixpoint index_of (current_id : Z) (lessons : list lesson) : option nat :=
  match lessons with
  | [] => None
  | lesson :: rest =>
      if bool_decide (id lesson = Some current_id) then Some O
      else S <$> index_of current_id rest
  end.

Definition get_next_lesson (pick : nat) (current_id : Z) (level : string)
  : option lesson :=
  let lessons := get_lessons_by_level level in
  let restart :=
    match lessons with
    | first :: _ => Some first
    | [] => get_random_lesson pick level
    end in
  match index_of current_id lessons with
  | Some current_index =>
      if (current_index + 1 <? length lessons)%nat
      then lessons !! (current_index + 1)%nat
      else restart
  | None => restart
  end.

End LessonManager.

(** ** [bot_final.py]: the bot's own sessions and its handlers

    A handler is given by its effect on [user_sessions] and by the texts it
    passes to [reply_text], in order; the replies are taken to be delivered.
    The audio tasks that a handler starts with [asyncio.create_task] run
    after it and touch no session: they are left out. *)

Module FutEnglishBot.

Import FootballContent.

Record simple_session : Type := MkSession {
  user_id : Z;
  name : string;
  position : string;
  level : string;
  step : string;
  lesson_id : Z;
  onboarding_complete : bool
}.

Definition positions : list string :=
  ["Goleiro"; "Zagueiro"; "Lateral"; "Volante"; "Meio-campo"; "Atacante";
   "Não jogo, só assisto"].

Definition levels : list string :=
  ["Iniciante"; "Intermediário"; "Avançado"].

Definition with_name (s : simple_session) (v : string) : simple_session :=
  MkSession (user_id s) v (position s) (level s) (step s) (lesson_id s)
            (onboarding_complete s).

Definition with_position (s : simple_session) (v : string) : simple_session :=
  MkSession (user_id s) (name s) v (level s) (step s) (lesson_id s)
            (onboarding_complete s).

Definition with_level (s : simple_session) (v : string) : simple_session :=
  MkSession (user_id s) (name s) (position s) v (step s) (lesson_id s)
            (onboarding_complete s).

Definition with_step (s : simple_session) (v : string) : simple_session :=
  MkSession (user_id s) (name s) (position s) (level s) v (lesson_id s)
            (onboarding_complete s).

Definition with_lesson_id (s : simple_session) (v : Z) : simple_session :=
  MkSession (user_id s) (name s) (position s) (level s) (step s) v
            (onboarding_complete s).

Definition with_onboarding_complete (s : simple_session) (v : bool) : simple_session :=
  MkSession (user_id s) (name s) (position s) (level s) (step s)
            (lesson_id s) v.

(** The dict that [get_or_create_simple_session] builds. *)
Definition new_session (user_id : Z) (name : string) : simple_session :=
  MkSession user_id name "" "" "ask_name" 1 false.

Definition get_or_create_simple_session (user_id : Z) (name : string)
    (user_sessions : gmap Z simple_session) : simple_session * gmap Z simple_session :=
  match user_sessions !! user_id with
  | Some s => (s, user_sessions)
  | None =>
      let s := new_session user_id name in
      (s, <[user_id := s]> user_sessions)
  end.

Definition numbered (options : list string) : string :=
  pystr.join (String pystr.LF "")
    (imap (fun i pos => (pretty (S i) ++ ". " ++ pos)%string) options).

Definition _parse_position (py : Builtins) (input_text : string)
  : option string :=
  let input_text := pystr.strip input_text in
  match OnboardingFlow.by_number py positions input_text with
  | Some pos => Some pos
  | None => OnboardingFlow.by_name py positions input_text
  end.

Definition _parse_level (py : Builtins) (input_text : string)
  : option string :=
  let input_text := pystr.strip input_text in
  match OnboardingFlow.by_number py levels input_text with
  | Some lv => Some lv
  | None => OnboardingFlow.by_name py levels input_text
  end.

Definition greetings : list string := ["oi"; "hey"; "hello"; "hi"].

Definition name_retry : string :=
  "Digite um nome válido (pelo menos 2 letras):".

Definition greeting_reply : string :=
  "
Oi! Que legal! 😊

Mas preciso saber seu nome de verdade para personalizar as lições!

**Qual é o seu nome?**
".

Definition name_reply (message : string) : string :=
  ("
Prazer, "
   ++ message
   ++ "! 🤝

**Qual posição você joga?** (ou gosta de assistir)

"
   ++ numbered positions
   ++ "

Digite o número ou nome:
")%string.

Definition position_retry : string :=
  ("Escolha uma das opções:

"
   ++ numbered positions)%string.

Definition position_reply (position : string) : string :=
  ("
Legal! "
   ++ position
   ++ " é uma posição importante! ⚽

**Qual seu nível de inglês?**

"
   ++ numbered levels
   ++ "

Digite o número ou nome:
")%string.

Definition level_retry : string :=
  ("Escolha uma das opções:

"
   ++ numbered levels)%string.

Definition profile_reply (session : simple_session) : string :=
  ("
Perfeito, "
   ++ name session
   ++ "! 🎉

**Seu Perfil:**
👤 Nome: "
   ++ name session
   ++ "
⚽ Posição: "
   ++ position session
   ++ "
📚 Nível: "
   ++ level session
   ++ "

Agora vamos aprender inglês com futebol! 
Use /proxima para sua primeira lição!

Bora que bora! 🚀⚽
")%string.

(** The session after the call and the replies sent. The session is the
    dict stored in [user_sessions], changed in place. *)
Definition _handle_onboarding (py : Builtins) (session : simple_session)
    (message : string) : simple_session * list string :=
  let message := pystr.strip message in
  if String.eqb (step session) "ask_name" then
    if (pystr.len message <? 2)%nat then (session, [name_retry])
    else if bool_decide (py_lower py message ∈ greetings)
    then (session, [greeting_reply])
    else
      let session := with_name session message in
      let session := with_step session "ask_position" in
      (session, [name_reply message])
  else if String.eqb (step session) "ask_position" then
    let position := _parse_position py message in
    if negb (truthy_opt position) then (session, [position_retry])
    else
      let position := default "" position in
      let session := with_position session position in
      let session := with_step session "ask_level" in
      (session, [position_reply position])
  else if String.eqb (step session) "ask_level" then
    let level := _parse_level py message in
    if negb (truthy_opt level) then (session, [level_retry])
    else
      let level := default "" level in
      let session := with_level session level in
      let session := with_onboarding_complete session true in
      (session, [profile_reply session])
  else (session, []).

(** [KeyError] when the lesson has no ["pt"] or no ["en"]. *)
Definition _format_lesson (lesson : lesson) (session : simple_session)
  : result string :=
  match get "pt" lesson, get "en" lesson with
  | Some pt, Some en =>
      let text := ("
⚽ **Lição "
   ++ pretty (lesson_id session)
   ++ " - Nova Palavra:**

🇧🇷 **Português:** "
   ++ pt
   ++ "
🇺🇸 **Inglês:** "
   ++ en
   ++ "

💡 **Explicação:** "
   ++ default "Palavra importante do futebol!" (get "explanation" lesson)
   ++ "
")%string in
      let text :=
        match get "example_pt" lesson, get "example_en" lesson with
        | Some example_pt, Some example_en =>
            if truthy example_pt && truthy example_en
            then (text ++ ("
📝 **Exemplo:**
🇧🇷 "
   ++ example_pt
   ++ "
🇺🇸 "
   ++ example_en
   ++ "
")%string)%string
            else text
        | _, _ => text
        end in
      let text :=
        match get "tips" lesson with
        | Some tips =>
            if truthy tips then (text ++ ("
🎯 **Dica:** "
   ++ tips)%string)%string else text
        | None => text
        end in
      Ok (text ++ ("

Ótimo, "
   ++ name session
   ++ "! Use /proxima para continuar! ⚽")%string)%string
  | _, _ => Raise (OtherError "KeyError")
  end.

Definition fallback_lessons : list lesson :=
  [MkLesson None
     [("pt", "Goleiro"); ("en", "Goalkeeper"); ("explanation", "Jogador que defende o gol")];
   MkLesson None
     [("pt", "Bola"); ("en", "Ball"); ("explanation", "Esfera usada no jogo")];
   MkLesson None
     [("pt", "Gol"); ("en", "Goal"); ("explanation", "Quando a bola entra na rede")];
   MkLesson None
     [("pt", "Passe"); ("en", "Pass"); ("explanation", "Enviar bola para companheiro")];
   MkLesson None
     [("pt", "Chute"); ("en", "Shot"); ("explanation", "Ação de chutar a bola")]].

(** [(session['lesson_id'] - 1) % len(lessons)] is an index of the list:
    the remainder of Python has the sign of the divisor. An exception of
    [_format_lesson] leaves the handler. *)
Definition _send_fallback_lesson (session : simple_session)
  : result (simple_session * list string) :=
  let lesson_index :=
    (lesson_id session - 1) mod Z.of_nat (length fallback_lessons) in
  match fallback_lessons !! Z.to_nat lesson_index with
  | None => Raise (OtherError "IndexError")
  | Some lesson =>
      match _format_lesson lesson session with
      | Raise e => Raise e
      | Ok lesson_text =>
          Ok (with_lesson_id session (lesson_id session + 1), [lesson_text])
      end
  end.

(** [full_features] is the module's flag [FULL_FEATURES]. *)
Definition proxima_command (full_features : bool) (user_id : Z)
    (user_sessions : gmap Z simple_session)
  : result (gmap Z simple_session * list string) :=
  let '(session, user_sessions) :=
    get_or_create_simple_session user_id "" user_sessions in
  let fallback :=
    match _send_fallback_lesson session with
    | Raise e => Raise e
    | Ok (session, replies) =>
        Ok (<[user_id := session]> user_sessions, replies)
    end in
  if negb (onboarding_complete session) then
    Ok (user_sessions, ["Use /start primeiro para nos conhecermos! 😊"])
  else if full_features then
    match LessonManager.get_lesson_by_id (lesson_id session) with
    | Some lesson =>
        match _format_lesson lesson session with
        | Raise _ => fallback
        | Ok lesson_text =>
            let session :=
              with_lesson_id session (lesson_id session + 1) in
            let session :=
              if 10 <? lesson_id session then with_lesson_id session 1
              else session in
            Ok (<[user_id := session]> user_sessions, [lesson_text])
        end
    | None =>
        Ok (user_sessions,
            ["Não encontrei mais lições! Use /start para recomeçar!"])
    end
  else fallback.

End FutEnglishBot.

(** ** [ai_handler.py]: [ConversationManager] and [CommandDetector] *)

Module ConversationManager.

Record interaction : Type := MkInteraction {
  timestamp : Z;
  user : string;
  ai : string
}.

Record t : Type := Build {
  conversation_history : gmap Z (list interaction);
  max_history_length : nat
}.

Definition __init__ : t := Build ∅ 10.

Definition add_interaction (user_id : Z) (user_message ai_response : string)
    (now : Z) (self : t) : t :=
  let history := default [] (conversation_history self !! user_id) in
  let history :=
    (history ++ [MkInteraction now user_message ai_response])%list in
  let history :=
    if (max_history_length self <? length history)%nat
    then py_last_n (max_history_length self) history
    else history in
  Build (<[user_id := history]> (conversation_history self))
        (max_history_length self).

Definition interaction_text (i : nat) (x : interaction) : string :=
  ("Interação " ++ pretty (S i) ++ ":" ++ String pystr.LF ""
   ++ "Usuário: " ++ pystr.slice_to 100 (user x) ++ "..."
   ++ String pystr.LF ""
   ++ "Professor: " ++ pystr.slice_to 100 (ai x) ++ "..."
   ++ String pystr.LF (String pystr.LF ""))%string.

Definition get_context_summary (user_id : Z) (self : t) : string :=
  match conversation_history self !! user_id with
  | None => ""
  | Some history =>
      let recent_interactions := py_last_n 3 history in
      match recent_interactions with
      | [] => ""
      | _ =>
          ("CONTEXTO DA CONVERSA RECENTE:" ++ String pystr.LF ""
           ++ String.concat "" (imap interaction_text recent_interactions))%string
      end
  end.

Definition clear_history (user_id : Z) (self : t) : t :=
  Build (delete user_id (conversation_history self))
        (max_history_length self).

End ConversationManager.

Module CommandDetector.

Definition COMMAND_PATTERNS : list (string * list string) :=
  [("próxima",
    ["próxima"; "proximo"; "próximo"; "next"; "continuar"; "avançar"; "próxima lição"; "próxima palavra"; "vamos continuar"]);
   ("áudio",
    ["áudio"; "audio"; "som"; "repetir"; "repeat"; "escutar"; "repetir áudio"; "tocar de novo"; "quero ouvir"]);
   ("progresso",
    ["progresso"; "progress"; "estatísticas"; "stats"; "como estou"; "meu progresso"; "minhas estatísticas"]);
   ("ajuda",
    ["ajuda"; "help"; "comandos"; "o que posso fazer"; "como funciona"; "manual"])].

(** The two loops of [detect_command] on the lowered message. *)
Definition detect_in (table : list (string * list string))
    (message_lower : string) : option string :=
  fst <$>
    List.find
      (fun entry =>
         existsb (fun pattern => pystr.contains pattern message_lower)
                 entry.2)
      table.

Definition detect_command (py : Builtins) (message : string)
  : option string :=
  let message_lower := pystr.strip (py_lower py message) in
  detect_in COMMAND_PATTERNS message_lower.

End CommandDetector.

(** ** Fixtures: concrete collaborators and worlds for the examples *)

(** A remote service that always answers and a disk that always accepts
    the write; the artifact name counts the files already present. *)
Definition services_up : Services :=
  MkServices
    (fun text => text)
    (fun _ req => Ok ("OggS:" ++ req_text req))
    (fun fs language _ _ =>
       Written ("./temp_audio/tmp" ++ pretty (size fs) ++ "_" ++ language ++ ".ogg")).

(** The remote service is down. *)
Definition services_down : Services :=
  MkServices
    (fun text => text)
    (fun _ _ => Raise (GoogleAPIError "503 unavailable"))
    (fun fs language _ _ =>
       Written ("./temp_audio/tmp" ++ pretty (size fs) ++ "_" ++ language ++ ".ogg")).

(** The remote service answers but the artifact cannot be written. *)
Definition services_disk_full : Services :=
  MkServices
    (fun text => text)
    (fun _ req => Ok ("OggS:" ++ req_text req))
    (fun _ _ _ _ => Failed (OSError "No space left on device") None).

Definition world_at (t : Z) (fs : gset string) : World := MkWorld t fs ∅ [].

(** ** Definitions used to state the properties *)

(** What the specification calls regeneration from the recorded source
    texts: the pair delivery on the two recorded texts when a foreign text
    is recorded, the single delivery on the native text otherwise. *)
Definition regenerate_from_record (sv : Services) (user_id : Z)
    (r : DualLanguageAudioManager.last_audio)
    (self : DualLanguageAudioManager.t) (w : World)
  : result (option string * option string) * DualLanguageAudioManager.t * World :=
  if truthy_opt (DualLanguageAudioManager.en_text r) then
    DualLanguageAudioManager.generate_lesson_audio
      sv user_id (DualLanguageAudioManager.pt_text r)
      (default "" (DualLanguageAudioManager.en_text r)) self w
  else
    let '(pt_new, self1, w1) :=
      DualLanguageAudioManager.generate_professor_audio
        sv user_id (DualLanguageAudioManager.pt_text r) self w in
    (match pt_new with Ok p => Ok (p, None) | Raise e => Raise e end,
     self1, w1).

(** The states of the manager: from the initial one by its delivery, replay
    and clean-up operations, the world changing freely in between. *)
Inductive reachable (sv : Services) : DualLanguageAudioManager.t → Prop :=
  | reach_init client_ok :
      reachable sv (DualLanguageAudioManager.__init__ client_ok)
  | reach_lesson self w user_id pt_text en_text :
      reachable sv self →
      reachable sv
        (DualLanguageAudioManager.generate_lesson_audio
           sv user_id pt_text en_text self w).1.2
  | reach_professor self w user_id text :
      reachable sv self →
      reachable sv
        (DualLanguageAudioManager.generate_professor_audio
           sv user_id text self w).1.2
  | reach_repeat self w user_id :
      reachable sv self →
      reachable sv
        (DualLanguageAudioManager.repeat_last_audio sv user_id self w).1.2
  | reach_cleanup self w user_id :
      reachable sv self →
      reachable sv
        (DualLanguageAudioManager.cleanup_user_audio user_id self w).1.

(** A recorded native artifact comes with a native text that is not empty. *)
Definition record_ok (r : DualLanguageAudioManager.last_audio) : Prop :=
  truthy_opt (DualLanguageAudioManager.pt r) = true →
  truthy (DualLanguageAudioManager.pt_text r) = true.

(** A caller that asks [is_rate_limited()] (threshold 10) at each of the
    given clock readings in turn, and collects the answers. *)
Fixpoint run_calls (times : list Z) (s : UserSession.t)
  : list bool * UserSession.t :=
  match times with
  | [] => ([], s)
  | now :: rest =>
      let '(limited, s1) := UserSession.is_rate_limited now 10 s in
      let '(answers, s2) := run_calls rest s1 in
      (limited :: answers, s2)
  end.

(** The time stamps younger than one minute at [now]. *)
Definition recent (now : Z) (stamps : list Z) : list Z :=
  List.filter (fun ts => now - timedelta_minutes 1 <? ts) stamps.

(** ** Concrete states for the examples *)

Definition cache_with_goal : AudioCache.t :=
  (AudioCache.set "Goal" "en-US" "/tmp/a.ogg" (world_at 0 {["/tmp/a.ogg"]})
                  (AudioCache.__init__ 100 1)).1.

Definition cache_of_one : AudioCache.t :=
  (AudioCache.set "Goal" "en-US" "/tmp/a.ogg"
     (world_at 0 {["/tmp/a.ogg"; "/tmp/b.ogg"]}) (AudioCache.__init__ 1 1)).1.

Definition engine_warm : TTSEngine.t :=
  (TTSEngine.generate_audio services_up "Goal" "en-US"
     (TTSEngine.__init__ true) (world_at 0 ∅)).1.2.

Definition world_warm : World :=
  (TTSEngine.generate_audio services_up "Goal" "en-US"
     (TTSEngine.__init__ true) (world_at 0 ∅)).2.



Definition manager_after_lesson : DualLanguageAudioManager.t :=
  (DualLanguageAudioManager.generate_lesson_audio
     services_up 7 "Vamos aprender a palavra Gol" "Goal"
     (DualLanguageAudioManager.__init__ true) (world_at 0 ∅)).1.2.

Definition world_after_lesson : World :=
  (DualLanguageAudioManager.generate_lesson_audio
     services_up 7 "Vamos aprender a palavra Gol" "Goal"
     (DualLanguageAudioManager.__init__ true) (world_at 0 ∅)).2.

Definition manager_en_only : DualLanguageAudioManager.t :=
  (DualLanguageAudioManager.generate_lesson_audio
     services_up 7 "" "Goal"
     (DualLanguageAudioManager.__init__ true) (world_at 0 ∅)).1.2.

Definition world_en_only : World :=
  (DualLanguageAudioManager.generate_lesson_audio
     services_up 7 "" "Goal"
     (DualLanguageAudioManager.__init__ true) (world_at 0 ∅)).2.

Definition eleven_calls : list Z :=
  [0; 400000; 800000; 1200000; 1600000; 2000000;
   2400000; 2800000; 3200000; 3600000; 4000000].

Definition session_ana : UserSession.t :=
  UserSession.Build 7 "Ana" "Zagueiro" "Avançado" "lesson" 3 "" 500 [1; 2] 12
                    0 false false false true [].

(** A user who calls [get_or_create_session] at each of the given clock
    readings in turn; the store after the last call, if every call
    returns. *)
Fixpoint touch_all (user_id : Z) (times : list Z) (m : UserStateManager.t)
  : option UserStateManager.t :=
  match times with
  | [] => Some m
  | now :: rest =>
      match UserStateManager.get_or_create_session user_id now m with
      | UserStateManager.Returns _ m1 => touch_all user_id rest m1
      | UserStateManager.Blocks _ => None
      end
  end.

Definition session_idle : UserSession.t :=
  UserSession.Build 8 "Bia" "" "Intermediário" "onboarding" 1 "" 100 [] 4
                    0 true false false false [].

Definition store_two : gmap Z UserSession.t :=
  {[7 := session_ana; 8 := session_idle]}.

(** An instance of the builtins for the examples: [int] on a numeral of
    the digits 0 to 9 with an optional sign, [lower] on the letters A to
    Z. *)
Definition digit (c : ascii) : option Z :=
  let n := pystr.code c in
  if (48 <=? n) && (n <=? 57) then Some (n - 48) else None.

Fixpoint digits (acc : Z) (s : string) : option Z :=
  match s with
  | EmptyString => Some acc
  | String c s' =>
      match digit c with
      | Some d => digits (10 * acc + d) s'
      | None => None
      end
  end.

Definition ascii_int (s : string) : option Z :=
  match s with
  | EmptyString => None
  | String c s' =>
      if Ascii.eqb c "-" then
        if truthy s' then Z.opp <$> digits 0 s' else None
      else if Ascii.eqb c "+" then
        if truthy s' then digits 0 s' else None
      else digits 0 s
  end.

Definition ascii_lower (s : string) : string :=
  string_of_list_ascii
    ((fun c =>
        let n := pystr.code c in
        if (65 <=? n) && (n <=? 90) then ascii_of_N (Z.to_N (n + 32)) else c)
       <$> list_ascii_of_string s).

Definition builtins_ascii : Builtins := MkBuiltins ascii_int ascii_lower.

(** The messages of a user, one after the other: [message_handler] hands
    a message to [_handle_onboarding] as long as the onboarding of the
    session is not complete. *)
Definition chat (py : Builtins) (messages : list string)
    (s : FutEnglishBot.simple_session) : FutEnglishBot.simple_session :=
  foldl (fun s message =>
           if FutEnglishBot.onboarding_complete s then s
           else (FutEnglishBot._handle_onboarding py s message).1)
        s messages.

(** What is known of a bot session after [n] onboarding messages. *)
Definition name_given (py : Builtins) (s : FutEnglishBot.simple_session)
  : Prop :=
  (2 ≤ pystr.len (FutEnglishBot.name s))%nat
  ∧ py_lower py (FutEnglishBot.name s) ∉ FutEnglishBot.greetings.

Definition onboarding_inv (py : Builtins) (n : nat)
    (s : FutEnglishBot.simple_session) : Prop :=
  (FutEnglishBot.step s = "ask_name"
   ∧ FutEnglishBot.onboarding_complete s = false)
  ∨ (FutEnglishBot.step s = "ask_position"
     ∧ FutEnglishBot.onboarding_complete s = false
     ∧ name_given py s ∧ (1 ≤ n)%nat)
  ∨ (FutEnglishBot.step s = "ask_level"
     ∧ FutEnglishBot.onboarding_complete s = false
     ∧ name_given py s
     ∧ FutEnglishBot.position s ∈ FutEnglishBot.positions ∧ (2 ≤ n)%nat)
  ∨ (FutEnglishBot.step s = "ask_level"
     ∧ FutEnglishBot.onboarding_complete s = true
     ∧ name_given py s
     ∧ FutEnglishBot.position s ∈ FutEnglishBot.positions
     ∧ FutEnglishBot.level s ∈ FutEnglishBot.levels ∧ (3 ≤ n)%nat).

(** The ids of the lessons [l] are [a], [a + 1], ... in this order. *)
Definition consecutive (a : nat) (l : list FootballContent.lesson) : Prop :=
  FootballContent.id <$> l
  = (fun i : nat => Some (Z.of_nat i)) <$> seq a (length l).

(** A bot session after onboarding, at lesson 10, and its store. *)
Definition bot_session_ana : FutEnglishBot.simple_session :=
  FutEnglishBot.MkSession 7 "Ana" "Zagueiro" "Avançado" "ask_level" 10 true.

Definition bot_store : gmap Z FutEnglishBot.simple_session :=
  {[7 := bot_session_ana]}.

(** The patterns of [COMMAND_PATTERNS] that do not contain another
    pattern of their command. *)
Definition effective_patterns : list (string * list string) :=
  [("próxima",
    ["próxima"; "proximo"; "próximo"; "next"; "continuar"; "avançar"]);
   ("áudio",
    ["áudio"; "audio"; "som"; "repetir"; "repeat"; "escutar";
     "tocar de novo"; "quero ouvir"]);
   ("progresso", ["progress"; "estatísticas"; "stats"; "como estou"]);
   ("ajuda",
    ["ajuda"; "help"; "comandos"; "o que posso fazer"; "como funciona";
     "manual"])].

(** * Properties *)

(** ** [hashlib.md5] against the test suite of RFC 1321 *)

Example md5_empty :
  hashlib.md5_hexdigest "" = "d41d8cd98f00b204e9800998ecf8427e".
Proof. vm_compute. reflexivity. Qed.

Example md5_abc :
  hashlib.md5_hexdigest "abc" = "900150983cd24fb0d6963f7d28e17f72".
Proof. vm_compute. reflexivity. Qed.

Example md5_two_blocks :
  hashlib.md5_hexdigest
    "12345678901234567890123456789012345678901234567890123456789012345678901234567890"
  = "57edf4a22be3c955ac49da2e2107b67a".
Proof. vm_compute. reflexivity. Qed.

Example strip_both_ends : pystr.strip "  a b  " = "a b".
Proof. vm_compute. reflexivity. Qed.

Example strip_blank : pystr.strip "   " = "".
Proof. vm_compute. reflexivity. Qed.

(** ** Properties of [AudioCache] *)

Section AudioCacheFacts.

Import AudioCache.

Implicit Types (self : AudioCache.t) (w : World) (e : entry).

Lemma get_params text language w self :
  max_size (get text language w self).2 = max_size self
  ∧ ttl (get text language w self).2 = ttl self.
Proof.
  unfold get. destruct (cache self !! _) as [e|]; [|done].
  repeat case_match; done.
Qed.

(** A hit is exactly a present, fresh entry whose file exists. *)
Lemma get_Some text language w self p :
  (get text language w self).1 = Some p
  ↔ ∃ e, cache self !! _generate_key text language = Some e
         ∧ file_path e = p
         ∧ now w - timestamp e < ttl self
         ∧ os_path_exists p w = true.
Proof.
  unfold get. split.
  - destruct (cache self !! _) as [e|] eqn:He; [|done].
    case_bool_decide; [|done].
    destruct (os_path_exists (file_path e) w) eqn:Hfile; [|done].
    intros [= <-]. eauto.
  - intros (e & -> & <- & Hfresh & ->).
    by rewrite bool_decide_eq_true_2.
Qed.

Lemma get_hit_keeps text language w self p :
  (get text language w self).1 = Some p →
  (get text language w self).2 = self.
Proof.
  unfold get. destruct (cache self !! _) as [e|]; [|done].
  repeat case_match; done.
Qed.

Lemma get_missing_file text language w self e :
  cache self !! _generate_key text language = Some e →
  now w - timestamp e < ttl self →
  os_path_exists (file_path e) w = false →
  get text language w self
  = (None, with_cache (delete (_generate_key text language) (cache self)) self).
Proof.
  intros He Hfresh Hfile. unfold get. rewrite He, Hfile.
  by rewrite bool_decide_eq_true_2.
Qed.

Lemma get_stale text language w self e :
  cache self !! _generate_key text language = Some e →
  ¬ (now w - timestamp e < ttl self) →
  get text language w self = (None, self).
Proof.
  intros He Hstale. unfold get. rewrite He.
  rewrite bool_decide_eq_false_2 by done. done.
Qed.

Lemma get_absent text language w self :
  cache self !! _generate_key text language = None →
  get text language w self = (None, self).
Proof. intros He. unfold get. by rewrite He. Qed.

End AudioCacheFacts.

(** C1 (as amended). [AudioCache.get] returns an artifact exactly when an
    entry is stored under the fingerprint of (text, language), the entry is
    younger than the TTL and its file exists, and then leaves the cache as
    it is. A fresh entry whose file is missing gives a miss and is deleted
    from the map. An entry that has reached the TTL gives a miss and stays
    in the map: the lookup does not remove it. *)
Theorem C1_get_hits_fresh_existing_only
    (text language : string) (w : World) (self : AudioCache.t) :
  let key := AudioCache._generate_key text language in
  let r := AudioCache.get text language w self in
  (∀ p, r.1 = Some p
        ↔ ∃ e, AudioCache.cache self !! key = Some e
               ∧ AudioCache.file_path e = p
               ∧ now w - AudioCache.timestamp e < AudioCache.ttl self
               ∧ os_path_exists p w = true)
  ∧ (∀ p, r.1 = Some p → r.2 = self)
  ∧ (∀ e, AudioCache.cache self !! key = Some e →
          now w - AudioCache.timestamp e < AudioCache.ttl self →
          os_path_exists (AudioCache.file_path e) w = false →
          r.1 = None
          ∧ AudioCache.cache r.2 = delete key (AudioCache.cache self))
  ∧ (∀ e, AudioCache.cache self !! key = Some e →
          AudioCache.ttl self <= now w - AudioCache.timestamp e →
          r.1 = None ∧ r.2 = self)
  ∧ (AudioCache.cache self !! key = None → r.1 = None ∧ r.2 = self).
Proof.
  intros key r. subst key r. split; [|split; [|split; [|split]]].
  - intros p. apply get_Some.
  - intros p. apply get_hit_keeps.
  - intros e He Hfresh Hfile.
    rewrite (get_missing_file _ _ _ _ _ He Hfresh Hfile). done.
  - intros e He Hstale.
    rewrite (get_stale _ _ _ _ _ He); [done | lia].
  - intros He. by rewrite (get_absent _ _ _ _ He).
Qed.

(** C1, witness: an entry stored at time 0 and looked up exactly one hour
    later, its file still on disk. *)
Lemma C1_get_hits_fresh_existing_only_witness :
  (AudioCache.get "Goal" "en-US" (world_at 3600000000 {["/tmp/a.ogg"]})
                  cache_with_goal).1 = None
  ∧ (AudioCache.get "Goal" "en-US" (world_at 3600000000 {["/tmp/a.ogg"]})
                    cache_with_goal).2 = cache_with_goal.
Proof.
  pose proof (C1_get_hits_fresh_existing_only
                "Goal" "en-US" (world_at 3600000000 {["/tmp/a.ogg"]})
                cache_with_goal) as (_ & _ & _ & Hstale & _).
  apply (Hstale (AudioCache.Entry "/tmp/a.ogg" 0)).
  - vm_compute. reflexivity.
  - vm_compute. discriminate.
Defined.

(** C1, counterexample: an entry older than the TTL, file still present.
    The lookup misses, and the entry is still in the cache map afterwards. *)
Lemma C1_expired_entry_not_removed :
  let w := world_at 3600000001 {["/tmp/a.ogg"]} in
  let r := AudioCache.get "Goal" "en-US" w cache_with_goal in
  AudioCache.ttl cache_with_goal < now w - 0
  ∧ r.1 = None
  ∧ AudioCache.cache r.2 !! AudioCache._generate_key "Goal" "en-US"
    = Some (AudioCache.Entry "/tmp/a.ogg" 0).
Proof. vm_compute. repeat split; reflexivity. Qed.

Section AudioCacheStore.

Import AudioCache.

Implicit Types (self : AudioCache.t) (w : World) (e : entry).

Lemma os_unlink_now p w : now (os_unlink p w).2 = now w.
Proof. unfold os_unlink. by case_match. Qed.

Lemma os_path_exists_spec p w :
  os_path_exists p w = true ↔ truthy p = true ∧ p ∈ files w.
Proof.
  unfold os_path_exists. rewrite andb_true_iff, bool_decide_eq_true. done.
Qed.

Lemma os_unlink_files p w : files (os_unlink p w).2 ⊆ files w.
Proof.
  unfold os_unlink. destruct (_ && _); simpl; [|done].
  intros x Hx. by apply elem_of_difference in Hx as [? _].
Qed.

(** A property of the world that holds before the purge and that every
    [os.unlink] of the loop keeps, holds after it. The goal left is the
    step for one unlinked entry, with the hypothesis [IH] on the world
    before it. *)
Ltac purge_loop P :=
  unfold _cleanup_old_entries; simpl;
  apply (map_fold_weak_ind (fun w' _ => P w')); [done|];
  intros ? ? ? ? _ IH; case_match; [|done].

Lemma cleanup_now w self : now (_cleanup_old_entries w self).2 = now w.
Proof.
  purge_loop (fun w' => now w' = now w). by rewrite os_unlink_now.
Qed.

Lemma cleanup_files w self : files (_cleanup_old_entries w self).2 ⊆ files w.
Proof.
  purge_loop (fun w' => files w' ⊆ files w).
  etrans; [apply os_unlink_files | done].
Qed.

Lemma cleanup_requests w self :
  requests (_cleanup_old_entries w self).2 = requests w.
Proof.
  purge_loop (fun w' => requests w' = requests w).
  unfold os_unlink. by destruct (_ && _).
Qed.

Lemma set_requests text language file_path w self :
  requests (set text language file_path w self).2 = requests w.
Proof.
  unfold set. case_bool_decide; [|done].
  pose proof (cleanup_requests w self) as Hreq.
  destruct (_cleanup_old_entries w self) as [self1 w1]. done.
Qed.

(** The purge deletes only files that an expired entry names. *)
Lemma cleanup_keeps_file w self p :
  p ∈ files w →
  (∀ k e, cache self !! k = Some e → expired self (now w) e →
          file_path e ≠ p) →
  p ∈ files (_cleanup_old_entries w self).2.
Proof.
  intros Hp. unfold _cleanup_old_entries. simpl.
  set (old := filter _ (cache self)). intros Hother.
  assert (∀ k e, old !! k = Some e → file_path e ≠ p) as Hold.
  { intros k e Hk. apply map_lookup_filter_Some in Hk as [Hk Hexp].
    by apply (Hother k e). }
  clear Hother. revert Hold.
  apply (map_fold_weak_ind
           (fun w' (m : gmap string entry) =>
              (∀ k e, m !! k = Some e → file_path e ≠ p) → p ∈ files w'));
    [done|].
  intros k e m w' Hfresh IH Hall.
  assert (p ∈ files w') as Hw'.
  { apply IH. intros k' e' Hk'. apply (Hall k' e').
    rewrite lookup_insert_ne; [done|]. intros ->. congruence. }
  case_match; [|done]. unfold os_unlink. destruct (_ && _); [|done].
  simpl. apply elem_of_difference. split; [done|].
  intros Heq%elem_of_singleton. apply (Hall k e); [|done].
  apply lookup_insert_eq.
Qed.

Lemma set_keeps_file text language file_path w self p :
  p ∈ files w →
  (∀ k e, cache self !! k = Some e → expired self (now w) e →
          AudioCache.file_path e ≠ p) →
  p ∈ files (set text language file_path w self).2.
Proof.
  intros Hp Hother. unfold set. case_bool_decide; [|done].
  pose proof (cleanup_keeps_file w self p Hp Hother) as Hkeep.
  destruct (_cleanup_old_entries w self) as [self1 w1]. done.
Qed.

Lemma cleanup_cache w self :
  cache (_cleanup_old_entries w self).1
  = filter (fun kv : string * entry => ¬ expired self (now w) kv.2)
           (cache self).
Proof. done. Qed.

Lemma set_now_same text language file_path w self :
  now (set text language file_path w self).2 = now w.
Proof.
  unfold set. case_bool_decide; [|done].
  pose proof (cleanup_now w self) as Hnow.
  destruct (_cleanup_old_entries w self) as [self1 w1]. done.
Qed.

Lemma set_params text language file_path w self :
  max_size (set text language file_path w self).1 = max_size self
  ∧ ttl (set text language file_path w self).1 = ttl self.
Proof.
  unfold set. case_bool_decide; [|done].
  unfold _cleanup_old_entries. done.
Qed.

(** The cache map after a store, below the bound and at it. *)
Lemma set_cache text language file_path w self :
  cache (set text language file_path w self).1
  = <[_generate_key text language := Entry file_path (now w)]>
      (if bool_decide (max_size self <= Z.of_nat (size (cache self)))
       then filter (fun kv : string * entry => ¬ expired self (now w) kv.2)
                   (cache self)
       else cache self).
Proof.
  unfold set. case_bool_decide; [|done].
  pose proof (cleanup_now w self) as Hnow.
  pose proof (cleanup_cache w self) as Hcache.
  destruct (_cleanup_old_entries w self) as [self1 w1]. simpl in *.
  by rewrite Hnow, Hcache.
Qed.

Lemma set_lookup_key text language file_path w self :
  cache (set text language file_path w self).1 !! _generate_key text language
  = Some (Entry file_path (now w)).
Proof. rewrite set_cache. apply lookup_insert_eq. Qed.

Lemma size_filter_le (P : string * entry → Prop) `{!∀ x, Decision (P x)}
    (m : gmap string entry) :
  (size (filter P m) ≤ size m)%nat.
Proof. apply map_subseteq_size, map_filter_subseteq. Qed.

Lemma size_filter_lt (P : string * entry → Prop) `{!∀ x, Decision (P x)}
    (m : gmap string entry) k e :
  m !! k = Some e → ¬ P (k, e) → (size (filter P m) < size m)%nat.
Proof.
  intros Hk HP. apply map_subset_size. split; [apply map_filter_subseteq|].
  intros Hsub. apply HP.
  pose proof (lookup_weaken _ _ _ _ Hk Hsub) as Hf.
  by apply map_lookup_filter_Some in Hf as [_ ?].
Qed.

Lemma size_insert_le (m : gmap string entry) k e :
  (size (<[k := e]> m) ≤ S (size m))%nat.
Proof.
  destruct (m !! k) eqn:Hk.
  - rewrite map_size_insert_Some; [lia | eauto].
  - rewrite map_size_insert_None; [lia | done].
Qed.

End AudioCacheStore.

(** C2. A lookup that follows [set text language file_path] within the TTL,
    the file existing when the lookup runs, returns [file_path], and leaves
    the cache as the store made it. The file exists for a lookup that sees
    the disk as the store left it whenever it existed before the store and
    no expired entry of the cache names it. *)
Theorem C2_lookup_after_store
    (text language file_path : string) (w1 w2 : World) (self : AudioCache.t) :
  let stored := AudioCache.set text language file_path w1 self in
  now w2 - now w1 < AudioCache.ttl self →
  (os_path_exists file_path w2 = true →
   AudioCache.get text language w2 stored.1 = (Some file_path, stored.1))
  ∧ (os_path_exists file_path w1 = true →
     files w2 = files stored.2 →
     (∀ k e, AudioCache.cache self !! k = Some e →
             AudioCache.expired self (now w1) e →
             AudioCache.file_path e ≠ file_path) →
     AudioCache.get text language w2 stored.1 = (Some file_path, stored.1)).
Proof.
  intros stored Hfresh.
  assert (os_path_exists file_path w2 = true →
          AudioCache.get text language w2 stored.1
          = (Some file_path, stored.1)) as Hmain.
  { intros Hfile. subst stored.
    pose proof (set_lookup_key text language file_path w1 self) as Hkey.
    pose proof (set_params text language file_path w1 self) as [_ Httl].
    assert ((AudioCache.get text language w2
               (AudioCache.set text language file_path w1 self).1).1
            = Some file_path) as Hhit.
    { apply get_Some. eexists. split; [exact Hkey|]. simpl.
      rewrite Httl. done. }
    pose proof (get_hit_keeps _ _ _ _ _ Hhit) as Hkeep.
    destruct (AudioCache.get _ _ _ _) as [r c]. simpl in *. congruence. }
  split; [exact Hmain|].
  intros Hbefore Hdisk Hother. apply Hmain.
  apply os_path_exists_spec in Hbefore as [Hname Hbefore].
  apply os_path_exists_spec. split; [done|]. rewrite Hdisk.
  by apply set_keeps_file.
Qed.

(** C2, witness: stored at time 5, looked up 59 minutes later. *)
Lemma C2_lookup_after_store_witness :
  AudioCache.get "Goal" "en-US" (world_at 3540000005 {["/tmp/a.ogg"]})
    (AudioCache.set "Goal" "en-US" "/tmp/a.ogg"
       (world_at 5 {["/tmp/a.ogg"]}) (AudioCache.__init__ 100 1)).1
  = (Some "/tmp/a.ogg",
     (AudioCache.set "Goal" "en-US" "/tmp/a.ogg"
        (world_at 5 {["/tmp/a.ogg"]}) (AudioCache.__init__ 100 1)).1).
Proof.
  destruct (C2_lookup_after_store "Goal" "en-US" "/tmp/a.ogg"
              (world_at 5 {["/tmp/a.ogg"]})
              (world_at 3540000005 {["/tmp/a.ogg"]})
              (AudioCache.__init__ 100 1)) as [Hlookup _].
  - vm_compute. reflexivity.
  - apply Hlookup. vm_compute. reflexivity.
Defined.

(** The same round trip on the disk as the store left it, one second
    after the store. *)
Example lookup_right_after_store :
  let stored :=
    AudioCache.set "Goal" "en-US" "/tmp/a.ogg"
      (world_at 5 {["/tmp/a.ogg"]}) (AudioCache.__init__ 100 1) in
  AudioCache.get "Goal" "en-US" (set_now 1000005 stored.2) stored.1
  = (Some "/tmp/a.ogg", stored.1).
Proof. vm_compute. reflexivity. Qed.

(** C3 (as amended). [AudioCache.set] at the size bound first removes the
    entries older than the TTL and then inserts; it removes no entry that
    has not expired. So a store adds at most one entry, keeps every
    unexpired entry stored under another key, stays within the maximum when
    the cache was below the bound, and also when the cache was exactly at
    the bound and held an expired entry. *)
Theorem C3_store_purges_expired_only
    (text language file_path : string) (w : World) (self : AudioCache.t) :
  let key := AudioCache._generate_key text language in
  let unexpired (kv : string * AudioCache.entry) :=
    ¬ AudioCache.expired self (now w) kv.2 in
  let self' := (AudioCache.set text language file_path w self).1 in
  (size (AudioCache.cache self') ≤ S (size (AudioCache.cache self)))%nat
  ∧ (Z.of_nat (size (AudioCache.cache self)) < AudioCache.max_size self →
     AudioCache.cache self'
     = <[key := AudioCache.Entry file_path (now w)]> (AudioCache.cache self)
     ∧ Z.of_nat (size (AudioCache.cache self')) <= AudioCache.max_size self)
  ∧ (AudioCache.max_size self <= Z.of_nat (size (AudioCache.cache self)) →
     AudioCache.cache self'
     = <[key := AudioCache.Entry file_path (now w)]>
         (filter unexpired (AudioCache.cache self)))
  ∧ (∀ k e, k ≠ key → AudioCache.cache self !! k = Some e →
            ¬ AudioCache.expired self (now w) e →
            AudioCache.cache self' !! k = Some e)
  ∧ (Z.of_nat (size (AudioCache.cache self)) = AudioCache.max_size self →
     (∃ k e, AudioCache.cache self !! k = Some e
             ∧ AudioCache.expired self (now w) e) →
     Z.of_nat (size (AudioCache.cache self')) <= AudioCache.max_size self).
Proof.
  intros key unexpired self'. subst self'.
  rewrite set_cache. fold key. fold unexpired.
  split; [|split; [|split; [|split]]].
  - etrans; [apply size_insert_le|]. apply le_n_S.
    case_bool_decide; [apply size_filter_le | done].
  - intros Hlt. rewrite bool_decide_eq_false_2 by lia. split; [done|].
    pose proof (size_insert_le (AudioCache.cache self) key
                  (AudioCache.Entry file_path (now w))). lia.
  - intros Hge. by rewrite bool_decide_eq_true_2.
  - intros k e Hk He Hfresh. rewrite lookup_insert_ne by done.
    case_bool_decide; [|done].
    apply map_lookup_filter_Some. done.
  - intros Heq (k & e & Hk & Hexp).
    rewrite bool_decide_eq_true_2 by lia.
    pose proof (size_insert_le (filter unexpired (AudioCache.cache self)) key
                  (AudioCache.Entry file_path (now w))) as Hins.
    assert (size (filter unexpired (AudioCache.cache self))
            < size (AudioCache.cache self))%nat as Hlt.
    { apply (size_filter_lt unexpired _ k e Hk). unfold unexpired. simpl. tauto. }
    lia.
Qed.

(** C3, witness: a cache of capacity one whose only entry is two hours old. *)
Lemma C3_store_purges_expired_only_witness :
  Z.of_nat (size (AudioCache.cache
     (AudioCache.set "Gol" "pt-BR" "/tmp/b.ogg"
        (world_at 7200000000 {["/tmp/a.ogg"; "/tmp/b.ogg"]}) cache_of_one).1))
  <= AudioCache.max_size cache_of_one.
Proof.
  pose proof (C3_store_purges_expired_only "Gol" "pt-BR" "/tmp/b.ogg"
                (world_at 7200000000 {["/tmp/a.ogg"; "/tmp/b.ogg"]})
                cache_of_one) as (_ & _ & _ & _ & Hroom).
  apply Hroom.
  - vm_compute. reflexivity.
  - exists (AudioCache._generate_key "Goal" "en-US"),
           (AudioCache.Entry "/tmp/a.ogg" 0).
    split; vm_compute; reflexivity.
Defined.

(** C3, counterexample: a cache of capacity one holding one entry that has
    not expired. A store under another key leaves two entries. *)
Lemma C3_cache_exceeds_max_size :
  let w := world_at 1000000 {["/tmp/a.ogg"; "/tmp/b.ogg"]} in
  let self' := (AudioCache.set "Gol" "pt-BR" "/tmp/b.ogg" w cache_of_one).1 in
  Z.of_nat (size (AudioCache.cache cache_of_one)) = AudioCache.max_size cache_of_one
  ∧ AudioCache.max_size self' = 1
  ∧ Z.of_nat (size (AudioCache.cache self')) = 2.
Proof. vm_compute. repeat split; reflexivity. Qed.

(** ** Properties of [TTSEngine] *)

Section TTSEngineFacts.

Import TTSEngine.

Variable sv : Services.

Implicit Types (self : TTSEngine.t) (w : World) (text language : string).

Lemma generate_audio_no_client text language self w :
  client self = false →
  generate_audio sv text language self w = (Ok None, self, w).
Proof. intros H. unfold generate_audio. by rewrite H. Qed.

Lemma generate_audio_blank text language self w :
  truthy (pystr.strip text) = false →
  generate_audio sv text language self w = (Ok None, self, w).
Proof.
  intros H. unfold generate_audio. rewrite H. by destruct (client self).
Qed.

(** Past the two guards the cache is consulted: a hit is returned. *)
Lemma generate_audio_hit text language self w p :
  client self = true →
  truthy (pystr.strip text) = true →
  (AudioCache.get text language w (cache self)).1 = Some p →
  truthy p = true →
  generate_audio sv text language self w
  = (Ok (Some p),
     with_cache (AudioCache.get text language w (cache self)).2 self, w).
Proof.
  intros Hc Ht Hget Hp. unfold generate_audio. rewrite Hc, Ht. simpl.
  destruct (AudioCache.get text language w (cache self)) as [o c].
  simpl in *. subst o. simpl. by rewrite Hp.
Qed.

(** On a miss the outcome is that of the [try] block, an exception of
    either handler turned into [None]. *)
Lemma generate_audio_miss text language self w :
  client self = true →
  truthy (pystr.strip text) = true →
  truthy_opt (AudioCache.get text language w (cache self)).1 = false →
  generate_audio sv text language self w
  = let self1 :=
      with_cache (AudioCache.get text language w (cache self)).2 self in
    match try_synthesis sv text language self1 w with
    | (Ok r, self2, w2) => (Ok r, self2, w2)
    | (Raise _, self2, w2) => (Ok None, self2, w2)
    end.
Proof.
  intros Hc Ht Hget. unfold generate_audio. rewrite Hc, Ht. simpl.
  destruct (AudioCache.get text language w (cache self)) as [o c].
  simpl in *. rewrite Hget.
  destruct (try_synthesis _ _ _ _ _) as [[[[p|]|[]] self2] w2]; done.
Qed.




Lemma try_synthesis_success text language self w vc audio path :
  _get_voice_config language = Ok vc →
  synthesize_speech sv (requests w)
    (Request (clean_text_for_tts sv text) vc Config.AUDIO_CONFIG) = Ok audio →
  named_temporary_file sv (files w) language (now w) audio = Written path →
  truthy path = true →
  let req := Request (clean_text_for_tts sv text) vc Config.AUDIO_CONFIG in
  let w1 := set_files (files w ∪ {[path]}) (log_request req w) in
  let stored := AudioCache.set text language path w1 (cache self) in
  try_synthesis sv text language self w
  = (Ok (Some path), with_cache stored.1 self, stored.2).
Proof.
  intros Hv Hr Hf Hp. unfold try_synthesis, _save_audio_file.
  rewrite Hv, Hr. simpl. rewrite Hf. simpl. rewrite Hp.
  by destruct (AudioCache.set _ _ _ _ _).
Qed.

(** The [try] block issues at most the one request it logs. *)
Lemma try_synthesis_requests text language self w :
  requests (try_synthesis sv text language self w).2 = requests w
  ∨ ∃ vc, _get_voice_config language = Ok vc
          ∧ requests (try_synthesis sv text language self w).2
            = (requests w
               ++ [Request (clean_text_for_tts sv text) vc Config.AUDIO_CONFIG])%list.
Proof.
  unfold try_synthesis.
  destruct (_get_voice_config language) as [vc|e]; [|by left].
  right. exists vc. split; [done|].
  destruct (synthesize_speech sv _ _) as [audio|e]; [|done].
  unfold _save_audio_file.
  destruct (named_temporary_file sv _ _ _ _) as [path|e [left|]]; simpl;
    try done.
  destruct (truthy path); [|done].
  pose proof (set_requests text language path
                (set_files (files w ∪ {[path]})
                   (log_request
                      (Request (clean_text_for_tts sv text) vc
                               Config.AUDIO_CONFIG) w))
                (cache self)) as Hreq.
  destruct (AudioCache.set _ _ _ _ _) as [c w2]. done.
Qed.

Lemma generate_audio_never_raises text language self w :
  ∃ r, (generate_audio sv text language self w).1.1 = Ok r.
Proof.
  unfold generate_audio.
  destruct (client self); simpl; [|by eexists].
  destruct (truthy (pystr.strip text)); simpl; [|by eexists].
  destruct (AudioCache.get text language w (cache self)) as [o c].
  destruct (truthy_opt o); [by eexists|].
  destruct (try_synthesis _ _ _ _ _) as [[[[p|]|[]] self2] w2];
    by eexists.
Qed.

End TTSEngineFacts.

Example remote_down_gives_none :
  TTSEngine.generate_audio services_down "Goal" "en-US"
    (TTSEngine.__init__ true) (world_at 0 ∅)
  = (Ok None, TTSEngine.__init__ true,
     log_request (Request "Goal" Config.TTS_EN_CONFIG Config.AUDIO_CONFIG)
                 (world_at 0 ∅)).
Proof. vm_compute. reflexivity. Qed.

Example disk_full_gives_none :
  (TTSEngine.generate_audio services_disk_full "Goal" "en-US"
     (TTSEngine.__init__ true) (world_at 0 ∅)).1
  = (Ok None, TTSEngine.__init__ true).
Proof. vm_compute. reflexivity. Qed.

Example no_client_gives_none :
  TTSEngine.generate_audio services_up "Goal" "en-US"
    (TTSEngine.__init__ false) (world_at 0 ∅)
  = (Ok None, TTSEngine.__init__ false, world_at 0 ∅).
Proof. reflexivity. Qed.

Example blank_text_gives_none :
  TTSEngine.generate_audio services_up "   " "en-US"
    (TTSEngine.__init__ true) (world_at 0 ∅)
  = (Ok None, TTSEngine.__init__ true, world_at 0 ∅).
Proof. reflexivity. Qed.

(** C4 (as amended). The synthesis engine owns the cache and consults it
    itself. With a client and a text that is not blank, [generate_audio]
    looks (text, language) up in its cache: on a hit it returns the cached
    artifact and issues no remote request; on a miss followed by a
    successful synthesis and write it stores the new artifact in the cache.
    The caller [generate_lesson_audio] makes no lookup of its own: without
    a client it returns both slots absent whatever the cache holds. *)
Theorem C4_engine_consults_its_cache
    (sv : Services) (text language : string) (self : TTSEngine.t) (w : World)
    (user_id : Z) (pt_text en_text : string)
    (m : DualLanguageAudioManager.t) :
  let lookup := AudioCache.get text language w (TTSEngine.cache self) in
  (TTSEngine.client self = true →
   truthy (pystr.strip text) = true →
   (∀ p, lookup.1 = Some p → truthy p = true →
         TTSEngine.generate_audio sv text language self w
         = (Ok (Some p), TTSEngine.with_cache lookup.2 self, w))
   ∧ (truthy_opt lookup.1 = false →
      ∀ vc audio path,
        TTSEngine._get_voice_config language = Ok vc →
        synthesize_speech sv (requests w)
          (Request (clean_text_for_tts sv text) vc Config.AUDIO_CONFIG)
        = Ok audio →
        named_temporary_file sv (files w) language (now w) audio
        = Written path →
        truthy path = true →
        let req := Request (clean_text_for_tts sv text) vc Config.AUDIO_CONFIG in
        let w1 := set_files (files w ∪ {[path]}) (log_request req w) in
        let stored := AudioCache.set text language path w1 lookup.2 in
        TTSEngine.generate_audio sv text language self w
        = (Ok (Some path), TTSEngine.with_cache stored.1 self, stored.2)))
  ∧ (TTSEngine.client (DualLanguageAudioManager.tts_engine m) = false →
     DualLanguageAudioManager.generate_lesson_audio
       sv user_id pt_text en_text m w
     = (Ok (None, None),
        DualLanguageAudioManager.Build
          (DualLanguageAudioManager.tts_engine m)
          (<[user_id := DualLanguageAudioManager.LastAudio
                          None None pt_text (Some en_text)]>
             (DualLanguageAudioManager.last_audio_files m)),
        w)).
Proof.
  intros lookup. split.
  - intros Hc Ht. split.
    + intros p Hget Hp. by apply generate_audio_hit.
    + intros Hmiss vc audio path Hv Hr Hf Hp req w1 stored.
      rewrite generate_audio_miss by done. simpl.
      rewrite (try_synthesis_success sv text language _ w vc audio path)
        by done.
      done.
  - intros Hc. unfold DualLanguageAudioManager.generate_lesson_audio.
    rewrite !generate_audio_no_client by done. done.
Qed.

(** C4, witness: the warmed engine serves "Goal" from its cache while the
    remote service is down. *)
Lemma C4_engine_consults_its_cache_witness :
  TTSEngine.generate_audio services_down "Goal" "en-US" engine_warm world_warm
  = (Ok (Some "./temp_audio/tmp0_en-US.ogg"),
     TTSEngine.with_cache
       (AudioCache.get "Goal" "en-US" world_warm
                       (TTSEngine.cache engine_warm)).2 engine_warm,
     world_warm).
Proof.
  pose proof (C4_engine_consults_its_cache
                services_down "Goal" "en-US" engine_warm world_warm
                1 "" "" (DualLanguageAudioManager.__init__ true))
    as [Hengine _].
  destruct Hengine as [Hhit _]; [reflexivity | reflexivity |].
  apply Hhit; vm_compute; reflexivity.
Defined.

(** C4, counterexample: one call of the engine changes the cache, and its
    result for the same input and world differs with the cache alone. *)
Lemma C4_engine_reads_and_writes_cache :
  TTSEngine.cache engine_warm ≠ TTSEngine.cache (TTSEngine.__init__ true)
  ∧ TTSEngine.client engine_warm = TTSEngine.client (TTSEngine.__init__ true)
  ∧ (TTSEngine.generate_audio services_down "Goal" "en-US"
       engine_warm world_warm).1.1
    = Ok (Some "./temp_audio/tmp0_en-US.ogg")
  ∧ (TTSEngine.generate_audio services_down "Goal" "en-US"
       (TTSEngine.__init__ true) world_warm).1.1
    = Ok None.
Proof.
  split; [|vm_compute; repeat split; reflexivity].
  intros Heq. apply (f_equal (fun c => size (AudioCache.cache c))) in Heq.
  vm_compute in Heq. discriminate.
Qed.




(** ** Properties of [DualLanguageAudioManager] *)

Section ManagerFacts.

Import DualLanguageAudioManager.

Variable sv : Services.

Implicit Types (self : DualLanguageAudioManager.t) (w : World).

Lemma truthy_strip text :
  truthy (pystr.strip text) = true → truthy text = true.
Proof. by destruct text. Qed.

Lemma generate_audio_Some text language (e : TTSEngine.t) w p :
  (TTSEngine.generate_audio sv text language e w).1.1 = Ok (Some p) →
  truthy text = true.
Proof.
  intros H. apply truthy_strip.
  destruct (truthy (pystr.strip text)) eqn:Ht; [done|].
  by rewrite generate_audio_blank in H.
Qed.

Lemma generate_professor_audio_never_raises user_id text self w :
  ∃ pt_new, (generate_professor_audio sv user_id text self w).1.1 = Ok pt_new.
Proof.
  unfold generate_professor_audio.
  destruct (generate_audio_never_raises sv text "pt-BR" (tts_engine self) w)
    as [r Hr].
  destruct (TTSEngine.generate_audio _ _ _ _ _) as [[o e1] w1].
  simpl in Hr. subst o. exists r. by destruct (truthy_opt r).
Qed.

Lemma repeat_no_record user_id self w :
  last_audio_files self !! user_id = None →
  repeat_last_audio sv user_id self w = (Ok (None, None), self, w).
Proof. intros H. unfold repeat_last_audio. by rewrite H. Qed.

Lemma repeat_regenerates user_id self w r :
  last_audio_files self !! user_id = Some r →
  truthy (pt_text r) = true →
  negb (exists_on_disk (pt r) w)
  || (truthy_opt (en r) && negb (exists_on_disk (en r) w)) = true →
  repeat_last_audio sv user_id self w
  = regenerate_from_record sv user_id r self w.
Proof.
  intros Hr Hpt Hmiss. unfold repeat_last_audio, regenerate_from_record.
  rewrite Hr. simpl. rewrite Hmiss, Hpt. simpl.
  destruct (truthy_opt (en_text r)); [done|].
  by destruct (generate_professor_audio _ _ _ _ _) as [[[?|?] ?] ?].
Qed.

Lemma repeat_empty_native_text user_id self w r :
  last_audio_files self !! user_id = Some r →
  truthy (pt_text r) = false →
  repeat_last_audio sv user_id self w
  = (Ok (if exists_on_disk (pt r) w then pt r else None,
         if exists_on_disk (en r) w then en r else None), self, w).
Proof.
  intros Hr Hpt. unfold repeat_last_audio. rewrite Hr. simpl.
  rewrite Hpt. simpl. by destruct (_ || _).
Qed.

Lemma lesson_records user_id pt_text en_text self w :
  map_Forall (fun _ => record_ok) (last_audio_files self) →
  map_Forall (fun _ => record_ok)
    (last_audio_files
       (generate_lesson_audio sv user_id pt_text en_text self w).1.2).
Proof.
  intros Hok. unfold generate_lesson_audio.
  destruct (TTSEngine.generate_audio sv pt_text _ _ _) as [[[o1|?] e1] w1]
    eqn:H1; [|done].
  destruct (TTSEngine.generate_audio sv en_text _ _ _) as [[[o2|?] e2] w2];
    [|done].
  simpl. apply map_Forall_insert_2; [|done].
  intros Hp. simpl in *. destruct o1 as [p|]; [|done].
  apply (generate_audio_Some pt_text "pt-BR" (tts_engine self) w p).
  by rewrite H1.
Qed.

Lemma professor_records user_id text self w :
  map_Forall (fun _ => record_ok) (last_audio_files self) →
  map_Forall (fun _ => record_ok)
    (last_audio_files (generate_professor_audio sv user_id text self w).1.2).
Proof.
  intros Hok. unfold generate_professor_audio.
  destruct (TTSEngine.generate_audio sv text _ _ _) as [[[o1|?] e1] w1]
    eqn:H1; [|done].
  destruct (truthy_opt o1) eqn:Ho; [|done].
  simpl. apply map_Forall_insert_2; [|done].
  intros _. simpl. destruct o1 as [p|]; [|done].
  apply (generate_audio_Some text "pt-BR" (tts_engine self) w p).
  by rewrite H1.
Qed.

Lemma repeat_records user_id self w :
  map_Forall (fun _ => record_ok) (last_audio_files self) →
  map_Forall (fun _ => record_ok)
    (last_audio_files (repeat_last_audio sv user_id self w).1.2).
Proof.
  intros Hok. unfold repeat_last_audio.
  destruct (last_audio_files self !! user_id) as [r|]; [|done].
  simpl. destruct (_ || _); [|done].
  destruct (truthy (pt_text r)); simpl; [|done].
  destruct (truthy_opt (en_text r)).
  - by apply lesson_records.
  - pose proof (professor_records user_id (pt_text r) self w Hok) as Hp.
    by destruct (generate_professor_audio _ _ _ _ _) as [[[?|?] ?] ?].
Qed.

Lemma cleanup_records user_id self w :
  map_Forall (fun _ => record_ok) (last_audio_files self) →
  map_Forall (fun _ => record_ok)
    (last_audio_files (cleanup_user_audio user_id self w).1).
Proof.
  intros Hok. unfold cleanup_user_audio.
  destruct (last_audio_files self !! user_id) as [r|]; [|done].
  simpl. by apply map_Forall_delete.
Qed.

Lemma reachable_records self :
  reachable sv self → map_Forall (fun _ => record_ok) (last_audio_files self).
Proof.
  induction 1 as [b|self w u p e _ IH|self w u t _ IH|self w u _ IH
                  |self w u _ IH].
  - apply map_Forall_empty.
  - by apply lesson_records.
  - by apply professor_records.
  - by apply repeat_records.
  - by apply cleanup_records.
Qed.

End ManagerFacts.

(** C6 (as amended). Without a record for the user [repeat_last_audio]
    returns both slots absent. With a record whose native source text is
    not empty and a recorded artifact that is missing on disk, it returns
    what the delivery operation returns on the recorded texts, and on
    nothing else. In every state the manager reaches, a recorded native
    artifact has such a text, so its loss is always repaired. With an empty
    native text nothing is regenerated: the slots still on disk are
    returned and manager and world stay as they were. *)
Theorem C6_replay_regenerates_from_record
    (sv : Services) (user_id : Z) (self : DualLanguageAudioManager.t)
    (w : World) :
  let out := DualLanguageAudioManager.repeat_last_audio sv user_id self w in
  let lost r :=
    negb (DualLanguageAudioManager.exists_on_disk
            (DualLanguageAudioManager.pt r) w)
    || (truthy_opt (DualLanguageAudioManager.en r)
        && negb (DualLanguageAudioManager.exists_on_disk
                   (DualLanguageAudioManager.en r) w)) in
  (DualLanguageAudioManager.last_audio_files self !! user_id = None →
   out = (Ok (None, None), self, w))
  ∧ (∀ r, DualLanguageAudioManager.last_audio_files self !! user_id = Some r →
          truthy (DualLanguageAudioManager.pt_text r) = true →
          lost r = true →
          out = regenerate_from_record sv user_id r self w)
  ∧ (∀ r, reachable sv self →
          DualLanguageAudioManager.last_audio_files self !! user_id = Some r →
          truthy_opt (DualLanguageAudioManager.pt r) = true →
          DualLanguageAudioManager.exists_on_disk
            (DualLanguageAudioManager.pt r) w = false →
          out = regenerate_from_record sv user_id r self w)
  ∧ (∀ r, DualLanguageAudioManager.last_audio_files self !! user_id = Some r →
          truthy (DualLanguageAudioManager.pt_text r) = false →
          out = (Ok (if DualLanguageAudioManager.exists_on_disk
                          (DualLanguageAudioManager.pt r) w
                     then DualLanguageAudioManager.pt r else None,
                     if DualLanguageAudioManager.exists_on_disk
                          (DualLanguageAudioManager.en r) w
                     then DualLanguageAudioManager.en r else None),
                 self, w)).
Proof.
  intros out lost. subst out lost. split; [|split; [|split]].
  - apply repeat_no_record.
  - intros r Hr Hpt Hlost. by apply repeat_regenerates.
  - intros r Hreach Hr Hpt Hgone. apply repeat_regenerates; [done| |].
    + apply (reachable_records sv self Hreach user_id r Hr Hpt).
    + by rewrite Hgone.
  - intros r Hr Hpt. by apply repeat_empty_native_text.
Qed.

(** C6, witness: both artifacts of a lesson are deleted from the disk; the
    replay synthesises the two recorded texts again. *)
Lemma C6_replay_regenerates_from_record_witness :
  (DualLanguageAudioManager.repeat_last_audio
     services_up 7 manager_after_lesson (set_files ∅ world_after_lesson)).1.1
  = Ok (Some "./temp_audio/tmp0_pt-BR.ogg", Some "./temp_audio/tmp1_en-US.ogg")
  ∧ (req_text <$> requests
       (DualLanguageAudioManager.repeat_last_audio
          services_up 7 manager_after_lesson
          (set_files ∅ world_after_lesson)).2)
    = ["Vamos aprender a palavra Gol"; "Goal";
       "Vamos aprender a palavra Gol"; "Goal"].
Proof.
  pose proof (C6_replay_regenerates_from_record
                services_up 7 manager_after_lesson
                (set_files ∅ world_after_lesson)) as (_ & _ & Hreach & _).
  rewrite (Hreach (DualLanguageAudioManager.LastAudio
                     (Some "./temp_audio/tmp0_pt-BR.ogg")
                     (Some "./temp_audio/tmp1_en-US.ogg")
                     "Vamos aprender a palavra Gol" (Some "Goal"))).
  - vm_compute. split; reflexivity.
  - apply reach_lesson, reach_init.
  - vm_compute. reflexivity.
  - reflexivity.
  - vm_compute. reflexivity.
Defined.

(** C6, counterexample: a pair delivered with an empty native text records
    the foreign artifact alone. Once that file is deleted, the replay
    returns both slots absent and issues no request, although the recorded
    foreign text "Goal" can be synthesised. *)
Lemma C6_foreign_artifact_not_regenerated :
  let w := set_files ∅ world_en_only in
  let out :=
    DualLanguageAudioManager.repeat_last_audio services_up 7 manager_en_only w in
  DualLanguageAudioManager.last_audio_files manager_en_only !! 7
  = Some (DualLanguageAudioManager.LastAudio
            None (Some "./temp_audio/tmp0_en-US.ogg") "" (Some "Goal"))
  ∧ out.1.1 = Ok (None, None)
  ∧ requests out.2 = requests w
  ∧ (TTSEngine.generate_audio services_up "Goal" "en-US"
       (DualLanguageAudioManager.tts_engine manager_en_only) w).1.1
    = Ok (Some "./temp_audio/tmp0_en-US.ogg").
Proof. vm_compute. repeat split; reflexivity. Qed.

(** ** Properties of [UserSession] and [UserStateManager] *)

Section RateLimit.

Import UserSession.

Implicit Types (s : UserSession.t) (now : Z) (times : list Z).

Lemma stamps_after_call now max s :
  message_timestamps (is_rate_limited now max s).2
  = (recent now (message_timestamps s) ++ [now])%list.
Proof.
  unfold is_rate_limited, add_message_timestamp, recent. simpl.
  rewrite List.filter_app. simpl.
  replace (now - timedelta_minutes 1 <? now) with true; [done|].
  symmetry. apply Z.ltb_lt. unfold timedelta_minutes. lia.
Qed.

Lemma answer_of_call now max s :
  (is_rate_limited now max s).1
  = (max <? Z.of_nat (length (message_timestamps (is_rate_limited now max s).2))).
Proof. done. Qed.

Lemma recent_young now stamps ts :
  In ts (recent now stamps) → now - ts < 60000000.
Proof.
  unfold recent. rewrite List.filter_In. intros [_ H].
  apply Z.ltb_lt in H. unfold timedelta_minutes in H. lia.
Qed.

Lemma recent_all now stamps :
  (∀ ts, In ts stamps → now - ts < 60000000) → recent now stamps = stamps.
Proof.
  intros H. unfold recent. induction stamps as [|a l IH]; [done|].
  simpl. replace (now - timedelta_minutes 1 <? a) with true.
  - f_equal. apply IH. intros ts Hts. apply H. by right.
  - symmetry. apply Z.ltb_lt. unfold timedelta_minutes.
    specialize (H a (or_introl eq_refl)). lia.
Qed.

Lemma recent_none now stamps :
  (∀ ts, In ts stamps → 60000000 <= now - ts) → recent now stamps = [].
Proof.
  intros H. unfold recent. induction stamps as [|a l IH]; [done|].
  simpl. replace (now - timedelta_minutes 1 <? a) with false.
  - apply IH. intros ts Hts. apply H. by right.
  - symmetry. apply Z.ltb_ge. unfold timedelta_minutes.
    specialize (H a (or_introl eq_refl)). lia.
Qed.

Lemma run_calls_cons t rest s :
  run_calls (t :: rest) s
  = ((is_rate_limited t 10 s).1
       :: (run_calls rest (is_rate_limited t 10 s).2).1,
     (run_calls rest (is_rate_limited t 10 s).2).2).
Proof.
  cbn [run_calls]. destruct (is_rate_limited t 10 s) as [b s1].
  cbn [fst snd]. by destruct (run_calls rest s1).
Qed.

(** Calls that lie within a minute of one another prune none of the
    time stamps they add. *)
Lemma run_calls_keeps times : ∀ s pre keep,
  message_timestamps s = (pre ++ keep)%list →
  (∀ a b, In a (keep ++ times)%list → In b times → b - a < 60000000) →
  ∃ pre', message_timestamps (run_calls times s).2
          = (pre' ++ keep ++ times)%list.
Proof.
  induction times as [|t rest IH]; intros s pre keep Hs Hnear.
  - exists pre. cbn [run_calls snd]. by rewrite app_nil_r.
  - rewrite run_calls_cons. cbn [snd].
    destruct (IH (is_rate_limited t 10 s).2 (recent t pre)
                 (keep ++ [t])%list) as [pre' Hpre'].
    + rewrite stamps_after_call, Hs.
      unfold recent at 1. rewrite List.filter_app. fold (recent t pre).
      fold (recent t keep). rewrite (recent_all t keep).
      * by rewrite <- app_assoc.
      * intros ts Hts. apply Hnear; [|by left].
        apply in_or_app. by left.
    + intros a c Ha Hc. apply Hnear; [|by right].
      rewrite <- app_assoc in Ha. exact Ha.
    + exists pre'. rewrite Hpre'. by rewrite <- !app_assoc.
Qed.

Lemma run_calls_last times : ∀ s,
  times ≠ [] →
  List.last (run_calls times s).1 false
  = (10 <? Z.of_nat (length (message_timestamps (run_calls times s).2))).
Proof.
  induction times as [|t rest IH]; intros s Hne; [done|].
  rewrite run_calls_cons. cbn [fst snd].
  destruct rest as [|t' rest'].
  - cbn [run_calls fst snd List.last]. apply answer_of_call.
  - rewrite <- IH by done.
    rewrite (run_calls_cons t' rest'). cbn [fst]. done.
Qed.

(** The answers when no earlier time stamp is in the way. *)
Lemma run_calls_answers times : ∀ s keep,
  message_timestamps s = keep →
  (∀ a b, In a (keep ++ times)%list → In b times → b - a < 60000000) →
  (run_calls times s).1
  = (fun i => 10 <? Z.of_nat (length keep + S i)) <$> seq 0 (length times).
Proof.
  induction times as [|t rest IH]; intros s keep Hs Hnear; [done|].
  rewrite run_calls_cons. cbn [fst length seq fmap list_fmap].
  assert (message_timestamps (is_rate_limited t 10 s).2
          = (keep ++ [t])%list) as Hs1.
  { rewrite stamps_after_call, Hs. rewrite recent_all; [done|].
    intros ts Hts. apply Hnear; [|by left]. apply in_or_app. by left. }
  f_equal.
  - rewrite answer_of_call, Hs1, length_app. done.
  - rewrite (IH _ (keep ++ [t])%list Hs1).
    + rewrite <- seq_shift.
      change (map S (seq 0 (length rest))) with (S <$> seq 0 (length rest)).
      rewrite <- list_fmap_compose.
      apply list_fmap_ext. intros i x _. cbn.
      rewrite length_app. cbn [length]. do 2 f_equal; lia.
    + intros a c Ha Hc. apply Hnear; [|by right].
      rewrite <- app_assoc in Ha. exact Ha.
Qed.

End RateLimit.

Section SessionStore.

Import UserStateManager.

Implicit Types (m : UserStateManager.t) (user_id now : Z).

Lemma with_lock_held {A} (body : UserStateManager.t → outcome A) m :
  lock_held m = true → with_lock body m = Blocks m.
Proof. intros H. unfold with_lock. by rewrite H. Qed.

Lemma get_or_create_free user_id now (ss : gmap Z UserSession.t) :
  get_or_create_session user_id now (Build ss false)
  = match ss !! user_id with
    | Some s =>
        Returns (UserSession.update_last_interaction now s)
          (Build (<[user_id := UserSession.update_last_interaction now s]> ss)
                 false)
    | None =>
        Returns (UserSession.__init__ user_id now)
          (Build (<[user_id := UserSession.__init__ user_id now]> ss) false)
    end.
Proof.
  unfold get_or_create_session, with_lock. simpl.
  by destruct (ss !! user_id).
Qed.

Lemma get_or_create_held user_id now (ss : gmap Z UserSession.t) :
  get_or_create_session user_id now (Build ss true) = Blocks (Build ss true).
Proof. by apply with_lock_held. Qed.

Lemma is_user_rate_limited_free user_id now (ss : gmap Z UserSession.t) :
  let session :=
    match ss !! user_id with
    | Some s => UserSession.update_last_interaction now s
    | None => UserSession.__init__ user_id now
    end in
  is_user_rate_limited user_id now (Build ss false)
  = Returns (UserSession.is_rate_limited now 10 session).1
      (Build (<[user_id := (UserSession.is_rate_limited now 10 session).2]> ss)
             false).
Proof.
  unfold is_user_rate_limited. rewrite get_or_create_free.
  destruct (ss !! user_id) as [s|];
    unfold UserSession.is_rate_limited, store;
    cbn [fst snd sessions lock_held]; by rewrite insert_insert_eq.
Qed.

End SessionStore.

(** C7. A call of [is_rate_limited] appends the current time stamp, keeps
    the time stamps younger than 60 seconds, and answers whether more than
    the threshold remain; the store's [is_user_rate_limited] does so with
    the threshold 10 on the session of the user. With the threshold 10, the
    eleventh of eleven calls made within 5 seconds answers true (and, on a
    session without earlier time stamps, the first ten answer false); a
    call made when every recorded time stamp is at least 61 seconds old
    answers false. *)
Theorem C7_rate_limit_window
    (s : UserSession.t) (now max_messages : Z) (times : list Z)
    (user_id : Z) (ss : gmap Z UserSession.t) :
  let out := UserSession.is_rate_limited now max_messages s in
  let kept := (recent now (UserSession.message_timestamps s) ++ [now])%list in
  (out.2 = UserSession.with_message_timestamps kept s
   ∧ (∀ ts, In ts kept → now - ts < 60000000)
   ∧ out.1 = (max_messages <? Z.of_nat (length kept)))
  ∧ (ss !! user_id = Some s →
     ∃ s', UserStateManager.is_user_rate_limited
             user_id now (UserStateManager.Build ss false)
           = UserStateManager.Returns
               (10 <? Z.of_nat (length kept))
               (UserStateManager.Build (<[user_id := s']> ss) false)
           ∧ UserSession.message_timestamps s' = kept)
  ∧ (length times = 11%nat →
     (∀ a b, In a times → In b times → b - a <= 5000000) →
     List.last (run_calls times s).1 false = true
     ∧ (UserSession.message_timestamps s = [] →
        (run_calls times s).1 = (repeat false 10 ++ [true])%list))
  ∧ ((∀ ts, In ts (UserSession.message_timestamps s) → 61000000 <= now - ts) →
     UserSession.is_rate_limited now 10 s
     = (false, UserSession.with_message_timestamps [now] s)).
Proof.
  intros out kept. subst out.
  assert (UserSession.message_timestamps
            (UserSession.is_rate_limited now max_messages s).2 = kept)
    as Hkept by apply stamps_after_call.
  split; [|split; [|split]].
  - split; [|split].
    + unfold UserSession.is_rate_limited, UserSession.add_message_timestamp
        in *. simpl in *. by rewrite Hkept.
    + intros ts Hts. subst kept. apply in_app_or in Hts as [Hts|[<-|[]]].
      * by apply (recent_young now (UserSession.message_timestamps s)).
      * lia.
    + by rewrite answer_of_call, Hkept.
  - intros Hs. rewrite is_user_rate_limited_free, Hs. cbn zeta.
    eexists. split.
    + f_equal. rewrite answer_of_call, stamps_after_call. done.
    + by rewrite stamps_after_call.
  - intros Hlen Hnear.
    assert (∀ keep a b, In a (keep ++ times)%list → In b times →
                        keep = [] → b - a < 60000000) as Hnear'.
    { intros keep a b Ha Hb ->. specialize (Hnear a b Ha Hb). lia. }
    split.
    + rewrite run_calls_last by (by destruct times).
      destruct (run_calls_keeps times s (UserSession.message_timestamps s) [])
        as [pre' Hpre'].
      * by rewrite app_nil_r.
      * intros a b Ha Hb. by apply (Hnear' [] a b).
      * rewrite Hpre'. simpl. rewrite length_app, Hlen.
        apply Z.ltb_lt. lia.
    + intros Hfresh.
      rewrite (run_calls_answers times s [] Hfresh).
      * rewrite Hlen. reflexivity.
      * intros a b Ha Hb. by apply (Hnear' [] a b).
  - intros Hold.
    assert (UserSession.message_timestamps (UserSession.is_rate_limited now 10 s).2
            = [now]) as Hnow.
    { rewrite stamps_after_call, recent_none; [done|].
      intros ts Hts. specialize (Hold ts Hts). lia. }
    unfold UserSession.is_rate_limited, UserSession.add_message_timestamp in *.
    simpl in *. by rewrite Hnow.
Qed.

(** C7, witness: eleven calls 0.4 s apart on a new session, then one more
    call 61 s after the last of them. *)
Lemma C7_rate_limit_window_witness :
  (run_calls eleven_calls (UserSession.__init__ 7 0)).1
  = [false; false; false; false; false; false; false; false; false; false;
     true]
  ∧ (UserSession.is_rate_limited 65000000 10
       (run_calls eleven_calls (UserSession.__init__ 7 0)).2).1 = false.
Proof.
  split.
  - pose proof (C7_rate_limit_window
                  (UserSession.__init__ 7 0) 0 10 eleven_calls 7 ∅)
      as (_ & _ & Hburst & _).
    apply Hburst; [reflexivity | | reflexivity].
    intros a b Ha Hb. simpl in Ha, Hb. lia.
  - pose proof (C7_rate_limit_window
                  (run_calls eleven_calls (UserSession.__init__ 7 0)).2
                  65000000 10 [] 7 ∅) as (_ & _ & _ & Hquiet).
    rewrite Hquiet; [reflexivity|].
    intros ts Hts. vm_compute in Hts.
    repeat (destruct Hts as [<-|Hts]; [lia|]). destruct Hts.
Defined.

(** C8 (as amended). With the lock free, [get_or_create_session] returns
    the record that it stores for the user, and changes the store nowhere
    else. For a user who has a session it is the stored one with
    [last_interaction] set to now and [total_interactions] increased by
    one. For a new user it is the record of defaults, created now, whose
    [total_interactions] is 0: creating does not count an interaction. *)
Theorem C8_get_or_create_session
    (user_id now : Z) (ss : gmap Z UserSession.t) :
  ∃ s ss',
    UserStateManager.get_or_create_session
      user_id now (UserStateManager.Build ss false)
    = UserStateManager.Returns s (UserStateManager.Build ss' false)
    ∧ ss' = <[user_id := s]> ss
    ∧ UserSession.last_interaction s = now
    ∧ match ss !! user_id with
      | Some old =>
          s = UserSession.update_last_interaction now old
          ∧ UserSession.total_interactions s
            = UserSession.total_interactions old + 1
      | None =>
          s = UserSession.__init__ user_id now
          ∧ UserSession.total_interactions s = 0
      end.
Proof.
  rewrite get_or_create_free.
  destruct (ss !! user_id) as [old|] eqn:Hold.
  - eexists _, _. by repeat split.
  - eexists _, _. by repeat split.
Qed.

(** C8, counterexample: the first contact of user 7. The call returns the
    new session with the interaction counter at 0, not incremented. *)
Lemma C8_creation_does_not_count :
  ∃ s m,
    UserStateManager.get_or_create_session 7 1000 UserStateManager.__init__
    = UserStateManager.Returns s m
    ∧ UserSession.total_interactions s = 0
    ∧ UserSession.total_interactions (UserSession.__init__ 7 1000) = 0.
Proof. eexists _, _. vm_compute. repeat split; reflexivity. Qed.



(** C10. [update_session] takes the store's lock and, holding it, calls
    [get_or_create_session], which takes the same lock: the call waits for
    ever, creates no session, applies no field and returns nothing. The
    lock stays taken, so every later operation of the store waits too. *)
Theorem C10_update_session_blocks
    (user_id now : Z) (kwargs : list (string * value))
    (ss : gmap Z UserSession.t) (held : bool) :
  UserStateManager.update_session
    user_id kwargs now (UserStateManager.Build ss held)
  = UserStateManager.Blocks (UserStateManager.Build ss true)
  ∧ UserStateManager.get_or_create_session
      user_id now (UserStateManager.Build ss true)
    = UserStateManager.Blocks (UserStateManager.Build ss true).
Proof.
  split; [|apply get_or_create_held].
  unfold UserStateManager.update_session.
  destruct held; [by apply with_lock_held|].
  unfold UserStateManager.with_lock.
  cbn [UserStateManager.lock_held UserStateManager.sessions].
  by rewrite get_or_create_held.
Qed.

(** The failing call of C10 on the new store: user 42, [name="Ana"]. *)
Example update_session_on_new_store :
  UserStateManager.update_session 42 [("name", VStr "Ana")] 1000
    UserStateManager.__init__
  = UserStateManager.Blocks (UserStateManager.Build ∅ true).
Proof. reflexivity. Qed.

(** * Further properties of the code *)

(** ** [user_state.py]: the session store *)

Section StoreLifecycle.

Import UserStateManager.

Implicit Types (ss : gmap Z UserSession.t) (user_id now : Z).

Lemma get_session_free user_id ss :
  get_session user_id (Build ss false)
  = Returns (ss !! user_id) (Build ss false).
Proof. done. Qed.

Lemma delete_session_free user_id ss :
  delete_session user_id (Build ss false)
  = Returns (bool_decide (is_Some (ss !! user_id)))
      (Build (delete user_id ss) false).
Proof.
  unfold delete_session, with_lock. simpl.
  destruct (ss !! user_id) as [s|] eqn:Hs.
  - by rewrite bool_decide_eq_true_2.
  - rewrite bool_decide_eq_false_2 by (by intros [? ?]).
    by rewrite delete_id.
Qed.

Lemma cleanup_sessions_free now ss :
  _cleanup_old_sessions now (Build ss false)
  = Returns
      (size (filter (fun kv : Z * UserSession.t =>
                       inactive (now - timedelta_hours 1) kv.2) ss))
      (Build (filter (fun kv : Z * UserSession.t =>
                        ¬ inactive (now - timedelta_hours 1) kv.2) ss)
             false).
Proof. done. Qed.

Lemma size_filter_split (P : Z * UserSession.t → Prop)
    `{!∀ x, Decision (P x)} ss :
  (size (filter P ss) + size (filter (fun kv => ¬ P kv) ss) = size ss)%nat.
Proof.
  rewrite <- map_size_disj_union by apply map_disjoint_filter_complement.
  by rewrite map_filter_union_complement.
Qed.

Lemma last_cons_default (l : list Z) : ∀ a d d',
  List.last (a :: l) d = List.last (a :: l) d'.
Proof.
  induction l as [|b l IH]; intros a d d'; [done|].
  change (List.last (b :: l) d = List.last (b :: l) d'). apply IH.
Qed.

Lemma touch_all_counts user_id times : ∀ ss s,
  ss !! user_id = Some s →
  ∃ ss' s',
    touch_all user_id times (Build ss false) = Some (Build ss' false)
    ∧ ss' !! user_id = Some s'
    ∧ UserSession.total_interactions s'
      = UserSession.total_interactions s + Z.of_nat (length times)
    ∧ UserSession.last_interaction s'
      = List.last times (UserSession.last_interaction s)
    ∧ UserSession.session_start s' = UserSession.session_start s
    ∧ ∀ other, other ≠ user_id → ss' !! other = ss !! other.
Proof.
  induction times as [|t rest IH]; intros ss s Hs.
  - exists ss, s. simpl. repeat split; try done. lia.
  - cbn [touch_all]. rewrite get_or_create_free, Hs.
    destruct (IH (<[user_id := UserSession.update_last_interaction t s]> ss)
                 (UserSession.update_last_interaction t s))
      as (ss' & s' & Hrun & Hs' & Hcount & Hlast & Hstart & Hother).
    { apply lookup_insert_eq. }
    exists ss', s'. split; [done|]. split; [done|].
    split; [|split; [|split]].
    + rewrite Hcount. simpl. lia.
    + rewrite Hlast. simpl. destruct rest; [done|]. apply last_cons_default.
    + by rewrite Hstart.
    + intros other Hne. rewrite Hother by done. by apply lookup_insert_ne.
Qed.

Lemma get_or_create_shape user_id now ss :
  ∃ s, get_or_create_session user_id now (Build ss false)
       = Returns s (Build (<[user_id := s]> ss) false)
       ∧ UserSession.last_interaction s = now.
Proof.
  rewrite get_or_create_free. destruct (ss !! user_id); by eexists.
Qed.

End StoreLifecycle.

(** X1. The idle sweep, run with the lock free, returns and leaves the lock
    free. It removes exactly the sessions whose last interaction is more
    than one hour old and reports their number; the sessions it keeps are
    unchanged. A removed user is then absent for [get_session], which does
    not create a session, and a second sweep at the same time removes
    nothing. *)
Theorem X1_idle_sweep (now : Z) (ss : gmap Z UserSession.t) :
  ∃ ss',
    UserStateManager._cleanup_old_sessions now (UserStateManager.Build ss false)
    = UserStateManager.Returns (size ss - size ss')%nat
        (UserStateManager.Build ss' false)
    ∧ (∀ user_id s,
         ss' !! user_id = Some s
         ↔ ss !! user_id = Some s
           ∧ now - 3600000000 <= UserSession.last_interaction s)
    ∧ (∀ user_id s,
         ss !! user_id = Some s →
         UserSession.last_interaction s < now - 3600000000 →
         UserStateManager.get_session user_id (UserStateManager.Build ss' false)
         = UserStateManager.Returns None (UserStateManager.Build ss' false))
    ∧ UserStateManager._cleanup_old_sessions now
        (UserStateManager.Build ss' false)
      = UserStateManager.Returns 0%nat (UserStateManager.Build ss' false).
Proof.
  set (old := fun kv : Z * UserSession.t =>
                UserStateManager.inactive (now - timedelta_hours 1) kv.2).
  exists (filter (fun kv => ¬ old kv) ss).
  assert (∀ user_id s,
            filter (fun kv => ¬ old kv) ss !! user_id = Some s
            ↔ ss !! user_id = Some s
              ∧ now - 3600000000 <= UserSession.last_interaction s) as Hkeep.
  { intros user_id s. rewrite map_lookup_filter_Some.
    unfold old, UserStateManager.inactive, timedelta_hours. simpl.
    split; intros [? ?]; split; try done; lia. }
  split; [|split; [exact Hkeep|split]].
  - rewrite cleanup_sessions_free. fold old. do 2 f_equal.
    pose proof (size_filter_split old ss). lia.
  - intros user_id s Hs Hidle. rewrite get_session_free. f_equal.
    destruct (filter (fun kv => ¬ old kv) ss !! user_id) as [s'|] eqn:Hs';
      [|done].
    apply Hkeep in Hs' as [Hs' ?]. assert (s' = s) as -> by congruence. lia.
  - rewrite cleanup_sessions_free. fold old.
    assert (filter old (filter (fun kv => ¬ old kv) ss) = ∅) as ->.
    { apply map_empty_filter. intros k x Hk Hold.
      by apply map_lookup_filter_Some in Hk as [_ ?]. }
    rewrite map_size_empty. do 2 f_equal.
    apply map_filter_id. intros k x Hk.
    by apply map_lookup_filter_Some in Hk as [_ ?].
Qed.

(** X1, witness: Ana was active at 500 and Bia at 100 microseconds; the
    sweep runs one hour and 200 microseconds after time 0. *)
Lemma X1_idle_sweep_witness :
  ∃ ss',
    UserStateManager._cleanup_old_sessions 3600000200
      (UserStateManager.Build store_two false)
    = UserStateManager.Returns (2 - size ss')%nat
        (UserStateManager.Build ss' false)
    ∧ ss' !! 7 = Some session_ana
    ∧ UserStateManager.get_session 8 (UserStateManager.Build ss' false)
      = UserStateManager.Returns None (UserStateManager.Build ss' false).
Proof.
  destruct (X1_idle_sweep 3600000200 store_two)
    as (ss' & Hrun & Hkeep & Hgone & _).
  exists ss'. split; [exact Hrun|]. split.
  - apply Hkeep. split; [reflexivity | vm_compute; discriminate].
  - apply (Hgone 8 session_idle); reflexivity.
Defined.

(** X2. The life of a session on a store whose lock is free:
    [get_session] after [get_or_create_session] returns the session that
    was returned and changes nothing; [delete_session] then returns true
    and removes that user's session only; after it [get_session] returns
    [None] and a second [delete_session] returns false, changing nothing.
    For a user who had no session, creating and deleting gives the store
    back as it was. *)
Theorem X2_session_lifecycle
    (user_id now : Z) (ss : gmap Z UserSession.t) :
  ∃ s ss1,
    UserStateManager.get_or_create_session
      user_id now (UserStateManager.Build ss false)
    = UserStateManager.Returns s (UserStateManager.Build ss1 false)
    ∧ UserStateManager.get_session user_id (UserStateManager.Build ss1 false)
      = UserStateManager.Returns (Some s) (UserStateManager.Build ss1 false)
    ∧ UserStateManager.delete_session user_id
        (UserStateManager.Build ss1 false)
      = UserStateManager.Returns true
          (UserStateManager.Build (delete user_id ss) false)
    ∧ UserStateManager.get_session user_id
        (UserStateManager.Build (delete user_id ss) false)
      = UserStateManager.Returns None
          (UserStateManager.Build (delete user_id ss) false)
    ∧ UserStateManager.delete_session user_id
        (UserStateManager.Build (delete user_id ss) false)
      = UserStateManager.Returns false
          (UserStateManager.Build (delete user_id ss) false)
    ∧ (ss !! user_id = None → delete user_id ss = ss).
Proof.
  rewrite get_or_create_free.
  assert (∀ s, UserStateManager.delete_session user_id
                 (UserStateManager.Build (<[user_id := s]> ss) false)
               = UserStateManager.Returns true
                   (UserStateManager.Build (delete user_id ss) false)) as Hdel.
  { intros s. rewrite delete_session_free, lookup_insert_eq.
    rewrite bool_decide_eq_true_2 by eauto. by rewrite delete_insert_eq. }
  assert (UserStateManager.delete_session user_id
            (UserStateManager.Build (delete user_id ss) false)
          = UserStateManager.Returns false
              (UserStateManager.Build (delete user_id ss) false)) as Hagain.
  { rewrite delete_session_free, lookup_delete_eq.
    rewrite bool_decide_eq_false_2 by (by intros [? ?]).
    by rewrite delete_delete_eq. }
  destruct (ss !! user_id) as [s0|] eqn:Hs; eexists _, _;
    (split; [reflexivity|]);
    rewrite !get_session_free, lookup_insert_eq, lookup_delete_eq, Hdel, Hagain;
    repeat split; try done.
  intros _. by apply delete_id.
Qed.

(** X2, witness: user 9 is new to the store of Ana and Bia. *)
Lemma X2_session_lifecycle_witness : delete 9 store_two = store_two.
Proof.
  destruct (X2_session_lifecycle 9 1000 store_two)
    as (s & ss1 & _ & _ & _ & _ & _ & Hback).
  apply Hback. reflexivity.
Defined.

(** X3. After [get_or_create_session] has been called for one user at the
    clock readings [t :: rest], nothing else touching the store, the
    session of a user who was new records [length rest] interactions (the
    creating call is not counted), its start is [t] and its last
    interaction is the last reading; the sessions of the others are as
    before. *)
Theorem X3_interactions_counted
    (user_id t : Z) (rest : list Z) (ss : gmap Z UserSession.t) :
  ss !! user_id = None →
  ∃ ss' s',
    touch_all user_id (t :: rest) (UserStateManager.Build ss false)
    = Some (UserStateManager.Build ss' false)
    ∧ ss' !! user_id = Some s'
    ∧ UserSession.total_interactions s' = Z.of_nat (length rest)
    ∧ UserSession.session_start s' = t
    ∧ UserSession.last_interaction s' = List.last rest t
    ∧ ∀ other, other ≠ user_id → ss' !! other = ss !! other.
Proof.
  intros Hnew. cbn [touch_all]. rewrite get_or_create_free, Hnew.
  destruct (touch_all_counts user_id rest
              (<[user_id := UserSession.__init__ user_id t]> ss)
              (UserSession.__init__ user_id t))
    as (ss' & s' & Hrun & Hs' & Hcount & Hlast & Hstart & Hother).
  { apply lookup_insert_eq. }
  exists ss', s'. split; [done|]. split; [done|].
  split; [by rewrite Hcount|]. split; [by rewrite Hstart|].
  split; [by rewrite Hlast|].
  intros other Hne. rewrite Hother by done. by apply lookup_insert_ne.
Qed.

(** X3, witness: three calls of a new user. *)
Lemma X3_interactions_counted_witness :
  ∃ ss' s',
    touch_all 9 [10; 20; 30] (UserStateManager.Build store_two false)
    = Some (UserStateManager.Build ss' false)
    ∧ ss' !! 9 = Some s'
    ∧ UserSession.total_interactions s' = 2.
Proof.
  destruct (X3_interactions_counted 9 10 [20; 30] store_two eq_refl)
    as (ss' & s' & Hrun & Hs' & Hcount & _).
  exists ss', s'. repeat split; assumption.
Defined.

(** X4. A session that [get_or_create_session] returned at time [t] is
    kept, unchanged, by every idle sweep that runs no later than one hour
    after [t]; it is removed by a sweep that runs later than that, when
    nothing touched it in between. *)
Theorem X4_touched_session_survives_sweep
    (user_id t now : Z) (ss : gmap Z UserSession.t) :
  ∃ s ss1 n ss2,
    UserStateManager.get_or_create_session
      user_id t (UserStateManager.Build ss false)
    = UserStateManager.Returns s (UserStateManager.Build ss1 false)
    ∧ UserStateManager._cleanup_old_sessions now
        (UserStateManager.Build ss1 false)
      = UserStateManager.Returns n (UserStateManager.Build ss2 false)
    ∧ (now - t <= 3600000000 → ss2 !! user_id = Some s)
    ∧ (3600000000 < now - t → ss2 !! user_id = None).
Proof.
  destruct (get_or_create_shape user_id t ss)
    as (s & Hcall & Hlast).
  exists s, (<[user_id := s]> ss). rewrite Hcall, cleanup_sessions_free.
  eexists _, _. split; [done|]. split; [done|].
  unfold UserStateManager.inactive, timedelta_hours. split.
  - intros Hsoon. apply map_lookup_filter_Some.
    split; [apply lookup_insert_eq|]. simpl. lia.
  - intros Hlate. apply map_lookup_filter_None. right.
    intros s' Hs'. rewrite lookup_insert_eq in Hs'.
    injection Hs' as <-. simpl. lia.
Qed.

(** X4, witness: Ana is fetched at time 1000 and the sweep runs at 2000. *)
Lemma X4_touched_session_survives_sweep_witness :
  ∃ s ss1 n ss2,
    UserStateManager.get_or_create_session
      7 1000 (UserStateManager.Build store_two false)
    = UserStateManager.Returns s (UserStateManager.Build ss1 false)
    ∧ UserStateManager._cleanup_old_sessions 2000
        (UserStateManager.Build ss1 false)
      = UserStateManager.Returns n (UserStateManager.Build ss2 false)
    ∧ ss2 !! 7 = Some s.
Proof.
  destruct (X4_touched_session_survives_sweep 7 1000 2000 store_two)
    as (s & ss1 & n & ss2 & Hcall & Hsweep & Hkept & _).
  exists s, ss1, n, ss2. split; [exact Hcall|]. split; [exact Hsweep|].
  apply Hkept. lia.
Defined.

(** X5. A call of [is_rate_limited] lengthens the list of time stamps by
    at most one. It answers false whenever the session holds fewer time
    stamps than the threshold, and it answers true only if at least
    [max_messages] of the earlier time stamps are younger than 60 seconds. *)
Theorem X5_rate_limit_needs_recent_calls
    (s : UserSession.t) (now max_messages : Z) :
  let out := UserSession.is_rate_limited now max_messages s in
  (length (UserSession.message_timestamps out.2)
   ≤ S (length (UserSession.message_timestamps s)))%nat
  ∧ (Z.of_nat (length (UserSession.message_timestamps s)) < max_messages →
     out.1 = false)
  ∧ (out.1 = true →
     max_messages
     <= Z.of_nat (length (recent now (UserSession.message_timestamps s)))).
Proof.
  intros out. subst out.
  rewrite answer_of_call, stamps_after_call, length_app. simpl.
  assert (length (recent now (UserSession.message_timestamps s))
          ≤ length (UserSession.message_timestamps s))%nat as Hle.
  { unfold recent. apply List.filter_length_le. }
  split; [lia|]. split.
  - intros Hfew. apply Z.ltb_ge. lia.
  - intros Hlim. apply Z.ltb_lt in Hlim. lia.
Qed.

(** X5, witness: a new session and the threshold 10. *)
Lemma X5_rate_limit_needs_recent_calls_witness :
  (UserSession.is_rate_limited 1000 10 (UserSession.__init__ 7 0)).1 = false.
Proof.
  destruct (X5_rate_limit_needs_recent_calls (UserSession.__init__ 7 0) 1000 10)
    as (_ & Hfew & _).
  apply Hfew. simpl. lia.
Defined.

(** ** [user_state.py]: [StateValidator] *)

Section Validator.

Import StateValidator.

Lemma truthy_true s : truthy s = true ↔ s ≠ "".
Proof. destruct s; simpl; split; congruence. Qed.

Lemma replace_char_out old new s :
  old ≠ new →
  ¬ In old (list_ascii_of_string (pystr.replace_char old new s)).
Proof.
  intros Hne. unfold pystr.replace_char.
  rewrite list_ascii_of_string_of_list_ascii.
  induction (list_ascii_of_string s) as [|c l IH]; [by intros []|].
  cbn [fmap list_fmap]. intros [Hc|Hin]; [|by apply IH].
  destruct (Ascii.eqb c old) eqn:Heq; [congruence|].
  apply Ascii.eqb_neq in Heq. congruence.
Qed.

Lemma replace_char_keeps_out old new c s :
  c ≠ new →
  ¬ In c (list_ascii_of_string s) →
  ¬ In c (list_ascii_of_string (pystr.replace_char old new s)).
Proof.
  intros Hne. unfold pystr.replace_char.
  rewrite list_ascii_of_string_of_list_ascii.
  induction (list_ascii_of_string s) as [|a l IH]; [done|].
  cbn [fmap list_fmap]. intros Hout [Hc|Hin].
  - destruct (Ascii.eqb a old); [congruence|].
    apply Hout. by left.
  - apply IH; [|done]. intros ?. apply Hout. by right.
Qed.

Lemma take_chars_in n : ∀ l c, In c (pystr.take_chars n l) → In c l.
Proof.
  intros l. revert n. induction l as [|a l IH]; intros n c; [done|].
  cbn [pystr.take_chars]. destruct (pystr.is_continuation a).
  - intros [->|Hin]; [by left|]. right. by apply (IH n).
  - destruct n as [|n]; [done|].
    intros [->|Hin]; [by left|]. right. by apply (IH n).
Qed.

Lemma take_chars_len l : ∀ n,
  (length (List.filter (fun c => negb (pystr.is_continuation c))
                       (pystr.take_chars n l)) ≤ n)%nat.
Proof.
  induction l as [|a l IH]; intros n; [simpl; lia|].
  cbn [pystr.take_chars]. destruct (pystr.is_continuation a) eqn:Ha.
  - cbn [List.filter]. rewrite Ha. simpl. apply IH.
  - destruct n as [|n]; [simpl; lia|].
    cbn [List.filter]. rewrite Ha. simpl. specialize (IH n). lia.
Qed.

Lemma slice_to_len n s : (pystr.len (pystr.slice_to n s) ≤ n)%nat.
Proof.
  unfold pystr.len, pystr.slice_to.
  rewrite list_ascii_of_string_of_list_ascii. apply take_chars_len.
Qed.

Lemma slice_to_in n s c :
  In c (list_ascii_of_string (pystr.slice_to n s)) →
  In c (list_ascii_of_string s).
Proof.
  unfold pystr.slice_to. rewrite list_ascii_of_string_of_list_ascii.
  apply take_chars_in.
Qed.

End Validator.

(** X6. [validate_session] accepts a session exactly when its user id is
    positive and, if onboarding is complete, name, position and level are
    all non-empty. An accepted session leaves with a lesson id of at least
    1 (a smaller one is set to 1) and is otherwise unchanged; a rejected
    session is left as it was, lesson id included. Validating the result
    again changes nothing. *)
Theorem X6_validate_session (s : UserSession.t) :
  let out := StateValidator.validate_session (Some s) in
  (out.1 = true
   ↔ 0 < UserSession.user_id s
     ∧ (UserSession.onboarding_complete s = true →
        UserSession.name s ≠ "" ∧ UserSession.position s ≠ ""
        ∧ UserSession.english_level s ≠ ""))
  ∧ (out.1 = true →
     ∃ s', out.2 = Some s'
           ∧ UserSession.current_lesson_id s'
             = Z.max 1 (UserSession.current_lesson_id s)
           ∧ s' = UserSession.setattr s "current_lesson_id"
                    (VInt (Z.max 1 (UserSession.current_lesson_id s))))
  ∧ (out.1 = false → out.2 = Some s)
  ∧ StateValidator.validate_session out.2 = out.
Proof.
  intros out. subst out. unfold StateValidator.validate_session.
  destruct s as [uid nm pos lvl step lesson audio last done total start
                 wname wpos wlvl complete stamps].
  cbv [UserSession.setattr].
  cbn [UserSession.user_id UserSession.onboarding_complete UserSession.name
       UserSession.position UserSession.english_level
       UserSession.current_lesson_id].
  destruct (uid <=? 0) eqn:Huid.
  { cbn [fst snd UserSession.user_id]. rewrite Huid.
    apply Z.leb_le in Huid.
    repeat split; try done. intros [? _]. lia. }
  destruct (complete && _) eqn:Hbad.
  { cbn [fst snd UserSession.user_id UserSession.onboarding_complete
         UserSession.name UserSession.position UserSession.english_level].
    rewrite Huid, Hbad. apply Z.leb_gt in Huid.
    repeat split; try done.
    intros [_ Hfull]. apply andb_true_iff in Hbad as [-> Hbad].
    destruct (Hfull eq_refl) as (Hn & Hp & Hl).
    apply truthy_true in Hn, Hp, Hl. rewrite Hn, Hp, Hl in Hbad. done. }
  assert (complete = true → nm ≠ "" ∧ pos ≠ "" ∧ lvl ≠ "") as Hfull.
  { intros ->. simpl in Hbad. rewrite !orb_false_iff in Hbad.
    destruct Hbad as [[Hn Hp] Hl].
    apply negb_false_iff in Hn, Hp, Hl.
    by rewrite <- !truthy_true. }
  destruct (lesson <? 1) eqn:Hlesson.
  - cbn [String.eqb Ascii.eqb Bool.eqb fst snd
         UserSession.user_id UserSession.onboarding_complete
         UserSession.name UserSession.position UserSession.english_level
         UserSession.current_lesson_id].
    rewrite Huid, Hbad. apply Z.leb_gt in Huid. apply Z.ltb_lt in Hlesson.
    replace (Z.max 1 lesson) with 1 by lia.
    change (1 <? 1) with false. cbn iota.
    split; [split; [intros _; split; [lia | exact Hfull] | done]|].
    split; [intros _; eexists; split; [reflexivity | split; reflexivity]|].
    split; [done | reflexivity].
  - cbn [String.eqb Ascii.eqb Bool.eqb fst snd
         UserSession.user_id UserSession.onboarding_complete
         UserSession.name UserSession.position UserSession.english_level
         UserSession.current_lesson_id].
    rewrite Huid, Hbad, Hlesson. apply Z.leb_gt in Huid.
    apply Z.ltb_ge in Hlesson.
    replace (Z.max 1 lesson) with lesson by lia.
    split; [split; [intros _; split; [lia | exact Hfull] | done]|].
    split; [intros _; eexists; split; [reflexivity | split; reflexivity]|].
    split; [done | reflexivity].
Qed.

(** X6, witness: Ana's session with the lesson id set to 0. *)
Lemma X6_validate_session_witness :
  ∃ s',
    (StateValidator.validate_session
       (Some (UserSession.setattr session_ana "current_lesson_id" (VInt 0)))).2
    = Some s'
    ∧ UserSession.current_lesson_id s' = 1.
Proof.
  destruct (X6_validate_session
              (UserSession.setattr session_ana "current_lesson_id" (VInt 0)))
    as (_ & Hok & _).
  destruct Hok as (s' & Hs' & Hlesson & _); [reflexivity|].
  exists s'. split; [exact Hs' | exact Hlesson].
Defined.

(** X7. The result of [sanitize_user_input] contains no line feed and no
    carriage return and has at most 500 characters; it is empty for a text
    that is empty or blank. *)
Theorem X7_sanitize_user_input (text : string) :
  let out := StateValidator.sanitize_user_input text in
  ¬ In pystr.LF (list_ascii_of_string out)
  ∧ ¬ In pystr.CR (list_ascii_of_string out)
  ∧ (pystr.len out ≤ 500)%nat
  ∧ (pystr.strip text = "" → out = "").
Proof.
  intros out. subst out. unfold StateValidator.sanitize_user_input.
  destruct (truthy text); cbn [negb];
    [|split; [intros []|]; split; [intros []|];
      split; [unfold pystr.len; simpl; lia | done]].
  set (clean := pystr.replace_char pystr.CR " "
                  (pystr.replace_char pystr.LF " " (pystr.strip text))).
  assert (¬ In pystr.LF (list_ascii_of_string clean)) as Hlf.
  { apply replace_char_keeps_out; [done|]. by apply replace_char_out. }
  assert (¬ In pystr.CR (list_ascii_of_string clean)) as Hcr.
  { by apply replace_char_out. }
  destruct (500 <? pystr.len clean)%nat eqn:Hlong.
  - split; [|split; [|split]].
    + intros Hin. by apply Hlf, (slice_to_in 500).
    + intros Hin. by apply Hcr, (slice_to_in 500).
    + apply slice_to_len.
    + intros Hblank. subst clean. rewrite Hblank in Hlong. done.
  - apply Nat.ltb_ge in Hlong. split; [done|]. split; [done|].
    split; [done|]. intros Hblank. subst clean. by rewrite Hblank.
Qed.

(** X7, witness: a text of spaces and line breaks only. *)
Lemma X7_sanitize_user_input_witness :
  StateValidator.sanitize_user_input (String pystr.LF (String pystr.CR "  "))
  = "".
Proof.
  destruct (X7_sanitize_user_input (String pystr.LF (String pystr.CR "  ")))
    as (_ & _ & _ & Hblank).
  apply Hblank. reflexivity.
Defined.

Example sanitize_replaces_inner_breaks :
  StateValidator.sanitize_user_input
    (" gol" ++ String pystr.LF "de placa" ++ String pystr.CR "")
  = "gol de placa".
Proof. vm_compute. reflexivity. Qed.

(** ** [user_state.py]: [OnboardingFlow] *)

Section Onboarding.

Import UserStateManager.

Lemma update_session_free_blocks user_id kwargs now
    (ss : gmap Z UserSession.t) :
  update_session user_id kwargs now (Build ss false) = Blocks (Build ss true).
Proof.
  unfold update_session, with_lock. cbn [lock_held sessions].
  by rewrite get_or_create_held.
Qed.

Lemma by_number_in py options input p :
  OnboardingFlow.by_number py options input = Some p → p ∈ options.
Proof.
  unfold OnboardingFlow.by_number.
  destruct (py_int py input) as [n|]; [|done].
  cbn zeta. destruct (_ && _); [|done].
  apply list_elem_of_lookup_2.
Qed.

Lemma by_name_in py options input p :
  OnboardingFlow.by_name py options input = Some p → p ∈ options.
Proof.
  unfold OnboardingFlow.by_name. intros H.
  apply List.find_some in H as [H _]. by apply list_elem_of_In.
Qed.

Lemma contains_empty hay : pystr.contains "" hay = true.
Proof. by destruct hay. Qed.

Lemma by_name_blank py options first rest input :
  options = first :: rest →
  py_lower py input = "" →
  OnboardingFlow.by_name py options input = Some first.
Proof.
  intros -> Hlow. unfold OnboardingFlow.by_name. rewrite Hlow.
  cbn [List.find]. by rewrite contains_empty, orb_true_r.
Qed.

Lemma positions_truthy p : p ∈ FutEnglishBot.positions → truthy p = true.
Proof.
  intros H. apply list_elem_of_In in H. simpl in H.
  repeat (destruct H as [<-|H]; [done|]). done.
Qed.

Lemma levels_truthy l : l ∈ FutEnglishBot.levels → truthy l = true.
Proof.
  intros H. apply list_elem_of_In in H. simpl in H.
  repeat (destruct H as [<-|H]; [done|]). done.
Qed.

Lemma parse_position_in py input p :
  FutEnglishBot._parse_position py input = Some p →
  p ∈ FutEnglishBot.positions.
Proof.
  unfold FutEnglishBot._parse_position.
  destruct (OnboardingFlow.by_number _ _ _) as [q|] eqn:Hn.
  - intros [= <-]. by eapply by_number_in.
  - apply by_name_in.
Qed.

Lemma parse_level_in py input l :
  FutEnglishBot._parse_level py input = Some l → l ∈ FutEnglishBot.levels.
Proof.
  unfold FutEnglishBot._parse_level.
  destruct (OnboardingFlow.by_number _ _ _) as [q|] eqn:Hn.
  - intros [= <-]. by eapply by_number_in.
  - apply by_name_in.
Qed.

End Onboarding.

(** X8. On a store whose lock is free, [process_onboarding_input] never
    reports a completed onboarding and never changes a session: either it
    waits for ever inside [update_session], with the lock taken and the
    sessions as they were, or it returns one of its four refusals with the
    flag false and the store untouched. For a user without a session it
    always waits. *)
Theorem X8_onboarding_never_advances
    (py : Builtins) (user_id now : Z) (message : string)
    (ss : gmap Z UserSession.t) :
  let m := UserStateManager.Build ss false in
  let out := OnboardingFlow.process_onboarding_input py user_id message now m in
  (out = UserStateManager.Blocks (UserStateManager.Build ss true)
   ∨ ∃ text,
       out = UserStateManager.Returns (text, false) m
       ∧ (text = "Por favor, digite um nome válido:"
          ∨ text = OnboardingFlow.position_retry
          ∨ text = OnboardingFlow.level_retry
          ∨ text = "Algo deu errado no onboarding. Vamos recomeçar!"))
  ∧ (ss !! user_id = None →
     out = UserStateManager.Blocks (UserStateManager.Build ss true)).
Proof.
  intros m out. subst m out.
  unfold OnboardingFlow.process_onboarding_input.
  rewrite get_session_free.
  destruct (ss !! user_id) as [s|].
  - split; [|done].
    destruct (UserSession.waiting_for_name s).
    { unfold OnboardingFlow._handle_name_input. cbn zeta.
      destruct (_ <? _)%nat.
      - right. eexists. split; [done|]. by left.
      - left. by rewrite update_session_free_blocks. }
    destruct (UserSession.waiting_for_position s).
    { unfold OnboardingFlow._handle_position_input. cbn zeta.
      destruct (negb _).
      - right. eexists. split; [done|]. right. by left.
      - left. by rewrite update_session_free_blocks. }
    destruct (UserSession.waiting_for_level s).
    { unfold OnboardingFlow._handle_level_input. cbn zeta.
      destruct (negb _).
      - right. eexists. split; [done|]. right. right. by left.
      - left. by rewrite update_session_free_blocks. }
    right. eexists. split; [done|]. by repeat right.
  - assert (OnboardingFlow.start_onboarding user_id now
              (UserStateManager.Build ss false)
            = UserStateManager.Blocks (UserStateManager.Build ss true)) as ->.
    { unfold OnboardingFlow.start_onboarding.
      by rewrite update_session_free_blocks. }
    split; [by left | done].
Qed.

(** X8, witness: the first message of user 42 on the new store. *)
Lemma X8_onboarding_never_advances_witness :
  OnboardingFlow.process_onboarding_input builtins_ascii 42 "Ana" 1000
    (UserStateManager.Build ∅ false)
  = UserStateManager.Blocks (UserStateManager.Build ∅ true).
Proof.
  destruct (X8_onboarding_never_advances builtins_ascii 42 1000 "Ana" ∅)
    as [_ Hnew].
  apply Hnew. reflexivity.
Defined.

(** ** [bot_final.py]: onboarding of the bot *)

(** X9. Whatever [int] and [lower] do, [_parse_position] and
    [_parse_level] answer only with an entry of the bot's own lists, which
    is never the empty string; so the test [if not position] of
    [_handle_onboarding] fails exactly when the parser returned [None]. *)
Theorem X9_parsed_option_is_listed (py : Builtins) (input : string) :
  (∀ p, FutEnglishBot._parse_position py input = Some p →
        p ∈ FutEnglishBot.positions ∧ truthy p = true)
  ∧ (∀ l, FutEnglishBot._parse_level py input = Some l →
          l ∈ FutEnglishBot.levels ∧ truthy l = true).
Proof.
  split.
  - intros p Hp. apply parse_position_in in Hp.
    split; [done | by apply positions_truthy].
  - intros l Hl. apply parse_level_in in Hl.
    split; [done | by apply levels_truthy].
Qed.

(** X9, witness: the numeral 2 with blanks around it. *)
Lemma X9_parsed_option_is_listed_witness :
  "Zagueiro" ∈ FutEnglishBot.positions ∧ truthy "Zagueiro" = true.
Proof.
  destruct (X9_parsed_option_is_listed builtins_ascii " 2 ") as [Hpos _].
  apply Hpos. reflexivity.
Defined.

(** X10. A blank input is not refused: when [int] rejects the empty string
    and [lower] keeps it, as Python's do, the empty string is contained in
    the first name tried, so [_parse_position] answers "Goleiro" and
    [_parse_level] answers "Iniciante"; a blank message in the step
    [ask_position] moves the session on to [ask_level] as a goalkeeper. *)
Theorem X10_blank_input_selects_first
    (py : Builtins) (input : string) (s : FutEnglishBot.simple_session) :
  pystr.strip input = "" →
  py_int py "" = None →
  py_lower py "" = "" →
  FutEnglishBot._parse_position py input = Some "Goleiro"
  ∧ FutEnglishBot._parse_level py input = Some "Iniciante"
  ∧ (FutEnglishBot.step s = "ask_position" →
     (FutEnglishBot._handle_onboarding py s input).1
     = FutEnglishBot.with_step
         (FutEnglishBot.with_position s "Goleiro") "ask_level").
Proof.
  intros Hblank Hint Hlow.
  assert (FutEnglishBot._parse_position py input = Some "Goleiro") as Hpos.
  { unfold FutEnglishBot._parse_position, OnboardingFlow.by_number.
    rewrite Hblank, Hint. by eapply by_name_blank. }
  assert (FutEnglishBot._parse_position py "" = Some "Goleiro") as Hpos'.
  { unfold FutEnglishBot._parse_position, OnboardingFlow.by_number.
    change (pystr.strip "") with "". rewrite Hint. by eapply by_name_blank. }
  split; [done|]. split.
  - unfold FutEnglishBot._parse_level, OnboardingFlow.by_number.
    rewrite Hblank, Hint. by eapply by_name_blank.
  - intros Hstep. unfold FutEnglishBot._handle_onboarding.
    rewrite Hstep, Hblank. cbn [String.eqb Ascii.eqb Bool.eqb].
    cbn zeta. by rewrite Hpos'.
Qed.

(** X10, witness: a message of two spaces. *)
Lemma X10_blank_input_selects_first_witness :
  FutEnglishBot._parse_position builtins_ascii "  " = Some "Goleiro"
  ∧ FutEnglishBot._parse_level builtins_ascii "  " = Some "Iniciante".
Proof.
  destruct (X10_blank_input_selects_first builtins_ascii "  "
              (FutEnglishBot.new_session 7 "Ana"))
    as (Hpos & Hlvl & _); try reflexivity.
  split; [exact Hpos | exact Hlvl].
Defined.

Section BotOnboarding.

Import FutEnglishBot.

Variable py : Builtins.

Lemma onboarding_inv_mono n n' s :
  (n ≤ n')%nat → onboarding_inv py n s → onboarding_inv py n' s.
Proof.
  intros Hle [H|[H|[H|H]]].
  - by left.
  - right. left. destruct H as (? & ? & ? & ?). split_and!; try done; lia.
  - right. right. left. destruct H as (? & ? & ? & ? & ?).
    split_and!; try done; lia.
  - right. right. right. destruct H as (? & ? & ? & ? & ? & ?).
    split_and!; try done; lia.
Qed.

Lemma handle_onboarding_inv n s message :
  onboarding_complete s = false →
  onboarding_inv py n s →
  onboarding_inv py (S n) (_handle_onboarding py s message).1.
Proof.
  intros Hopen Hinv. unfold _handle_onboarding. cbn zeta.
  destruct Hinv as [[Hstep _]|[(Hstep & _ & Hname & Hn)
                              |[(Hstep & _ & Hname & Hpos & Hn)
                               |(_ & Hdone & _)]]];
    [| | |congruence]; rewrite Hstep; cbn [String.eqb Ascii.eqb Bool.eqb].
  - destruct (pystr.len (pystr.strip message) <? 2)%nat eqn:Hlen;
      [by left|].
    case_bool_decide as Hgreet; [by left|].
    right. left. cbn. apply Nat.ltb_ge in Hlen.
    split_and!; try done; lia.
  - destruct (_parse_position py (pystr.strip message)) as [p|] eqn:Hp;
      cbn [truthy_opt negb].
    + pose proof (parse_position_in _ _ _ Hp) as Hin.
      rewrite (positions_truthy _ Hin). cbn.
      right. right. left. split_and!; try done; lia.
    + right. left. split_and!; try done; lia.
  - destruct (_parse_level py (pystr.strip message)) as [l|] eqn:Hl;
      cbn [truthy_opt negb].
    + pose proof (parse_level_in _ _ _ Hl) as Hin.
      rewrite (levels_truthy _ Hin). cbn.
      right. right. right. split_and!; try done; lia.
    + right. right. left. split_and!; try done; lia.
Qed.

Lemma chat_cons m rest s :
  chat py (m :: rest) s
  = chat py rest
      (if onboarding_complete s then s else (_handle_onboarding py s m).1).
Proof. done. Qed.

Lemma chat_inv messages : ∀ n s,
  onboarding_inv py n s →
  onboarding_inv py (n + length messages) (chat py messages s).
Proof.
  induction messages as [|m rest IH]; intros n s Hinv.
  - simpl. by rewrite Nat.add_0_r.
  - rewrite chat_cons. cbn [length]. replace (n + S (length rest))%nat
      with (S n + length rest)%nat by lia.
    apply IH. destruct (onboarding_complete s) eqn:Hc.
    + by apply (onboarding_inv_mono n); [lia|].
    + by apply handle_onboarding_inv.
Qed.

Lemma handle_onboarding_keeps s message :
  user_id (_handle_onboarding py s message).1 = user_id s
  ∧ lesson_id (_handle_onboarding py s message).1 = lesson_id s.
Proof.
  unfold _handle_onboarding. cbn zeta.
  repeat (case_match; try done).
Qed.

Lemma chat_keeps messages : ∀ s,
  user_id (chat py messages s) = user_id s
  ∧ lesson_id (chat py messages s) = lesson_id s.
Proof.
  induction messages as [|m rest IH]; intros s; [done|].
  rewrite chat_cons.
  destruct (onboarding_complete s); [apply IH|].
  destruct (IH (_handle_onboarding py s m).1) as [-> ->].
  apply handle_onboarding_keeps.
Qed.

Lemma handle_name_accepts s m :
  step s = "ask_name" →
  (2 ≤ pystr.len (pystr.strip m))%nat →
  py_lower py (pystr.strip m) ∉ greetings →
  (_handle_onboarding py s m).1
  = with_step (with_name s (pystr.strip m)) "ask_position".
Proof.
  intros Hstep Hlen Hgreet. unfold _handle_onboarding. cbn zeta.
  rewrite Hstep. cbn [String.eqb Ascii.eqb Bool.eqb].
  rewrite (proj2 (Nat.ltb_ge _ _) Hlen).
  by rewrite bool_decide_eq_false_2.
Qed.

Lemma handle_position_accepts s m p :
  step s = "ask_position" →
  _parse_position py (pystr.strip m) = Some p →
  (_handle_onboarding py s m).1 = with_step (with_position s p) "ask_level".
Proof.
  intros Hstep Hp. unfold _handle_onboarding. cbn zeta.
  rewrite Hstep. cbn [String.eqb Ascii.eqb Bool.eqb].
  rewrite Hp. cbn [truthy_opt].
  by rewrite (positions_truthy _ (parse_position_in _ _ _ Hp)).
Qed.

Lemma handle_level_accepts s m l :
  step s = "ask_level" →
  _parse_level py (pystr.strip m) = Some l →
  (_handle_onboarding py s m).1
  = with_onboarding_complete (with_level s l) true.
Proof.
  intros Hstep Hl. unfold _handle_onboarding. cbn zeta.
  rewrite Hstep. cbn [String.eqb Ascii.eqb Bool.eqb].
  rewrite Hl. cbn [truthy_opt].
  by rewrite (levels_truthy _ (parse_level_in _ _ _ Hl)).
Qed.

End BotOnboarding.

(** X11. However a chat goes, a bot session whose onboarding is complete
    has a name of at least two characters that is not one of the
    greetings, a position and a level from the bot's lists, and took at
    least three messages; the user id and the lesson id are those of the
    new session. *)
Theorem X11_completed_profile
    (py : Builtins) (user_id : Z) (first_name : string)
    (messages : list string) :
  let s := chat py messages (FutEnglishBot.new_session user_id first_name) in
  FutEnglishBot.onboarding_complete s = true →
  (2 ≤ pystr.len (FutEnglishBot.name s))%nat
  ∧ (py_lower py (FutEnglishBot.name s) ∉ FutEnglishBot.greetings)
  ∧ FutEnglishBot.position s ∈ FutEnglishBot.positions
  ∧ FutEnglishBot.level s ∈ FutEnglishBot.levels
  ∧ (3 ≤ length messages)%nat
  ∧ FutEnglishBot.user_id s = user_id
  ∧ FutEnglishBot.lesson_id s = 1.
Proof.
  intros s Hdone.
  pose proof (chat_inv py messages 0
                (FutEnglishBot.new_session user_id first_name)) as Hinv.
  pose proof (chat_keeps py messages
                (FutEnglishBot.new_session user_id first_name)) as [Hu Hl].
  fold s in Hinv, Hu, Hl.
  destruct Hinv as [[_ H]|[(_ & H & _)|[(_ & H & _)|H]]];
    [by left|congruence..|].
  destruct H as (_ & _ & [Hlen Hgreet] & Hpos & Hlvl & Hn).
  repeat split; try done.
Qed.

(** X11, witness: Ana, position 2, level 3. *)
Lemma X11_completed_profile_witness :
  (FutEnglishBot.position
     (chat builtins_ascii ["Ana"; "2"; "3"] (FutEnglishBot.new_session 7 "")))
  ∈ FutEnglishBot.positions.
Proof.
  destruct (X11_completed_profile builtins_ascii 7 "" ["Ana"; "2"; "3"])
    as (_ & _ & Hpos & _); [reflexivity|].
  exact Hpos.
Defined.

(** X12. Three messages complete the onboarding of a new bot session: a
    name of at least two characters that is not a greeting, then an input
    that [_parse_position] resolves, then one that [_parse_level]
    resolves. The session then holds the trimmed name and the resolved
    entries; its step stays [ask_level]. *)
Theorem X12_three_messages_complete
    (py : Builtins) (user_id : Z) (first_name m1 m2 m3 p l : string) :
  (2 ≤ pystr.len (pystr.strip m1))%nat →
  py_lower py (pystr.strip m1) ∉ FutEnglishBot.greetings →
  FutEnglishBot._parse_position py (pystr.strip m2) = Some p →
  FutEnglishBot._parse_level py (pystr.strip m3) = Some l →
  chat py [m1; m2; m3] (FutEnglishBot.new_session user_id first_name)
  = FutEnglishBot.MkSession user_id (pystr.strip m1) p l "ask_level" 1 true.
Proof.
  intros Hlen Hgreet Hp Hl.
  rewrite !chat_cons.
  cbn [FutEnglishBot.onboarding_complete FutEnglishBot.new_session].
  rewrite (handle_name_accepts py _ m1) by done.
  cbn [FutEnglishBot.onboarding_complete FutEnglishBot.with_step
       FutEnglishBot.with_name FutEnglishBot.new_session].
  rewrite (handle_position_accepts py _ m2 p) by done.
  cbn [FutEnglishBot.onboarding_complete FutEnglishBot.with_step
       FutEnglishBot.with_position FutEnglishBot.with_name
       FutEnglishBot.new_session].
  by rewrite (handle_level_accepts py _ m3 l).
Qed.

(** X12, witness: Ana, a defender by number, advanced by number. *)
Lemma X12_three_messages_complete_witness :
  chat builtins_ascii [" Ana "; "2"; "3"] (FutEnglishBot.new_session 7 "")
  = FutEnglishBot.MkSession 7 "Ana" "Zagueiro" "Avançado" "ask_level" 1 true.
Proof.
  apply (X12_three_messages_complete builtins_ascii 7 "" " Ana " "2" "3").
  - vm_compute. lia.
  - intros Hin. apply list_elem_of_In in Hin. vm_compute in Hin.
    repeat (destruct Hin as [Hin|Hin]; [discriminate Hin|]). exact Hin.
  - reflexivity.
  - reflexivity.
Defined.

(** ** [content.py]: [LessonManager] *)

Section Lessons.

Import FootballContent LessonManager.

Implicit Types (l : list lesson) (n : Z) (a : nat).

Lemma consecutive_lookup l a i x :
  consecutive a l → l !! i = Some x → id x = Some (Z.of_nat (a + i)).
Proof.
  unfold consecutive. intros Hids Hx.
  assert ((id <$> l) !! i = Some (id x)) as Hi
    by (by rewrite list_lookup_fmap, Hx).
  rewrite Hids, list_lookup_fmap in Hi.
  rewrite lookup_seq_lt in Hi by (by eapply lookup_lt_Some).
  by injection Hi as <-.
Qed.

Lemma consecutive_tail x l a :
  consecutive a (x :: l) → id x = Some (Z.of_nat a) ∧ consecutive (S a) l.
Proof.
  unfold consecutive. cbn [length seq]. rewrite !fmap_cons.
  intros Hids. by injection Hids as Hx Hrest.
Qed.

Lemma index_of_consecutive l : ∀ a n,
  consecutive a l →
  index_of n l
  = if bool_decide (Z.of_nat a <= n < Z.of_nat (a + length l))
    then Some (Z.to_nat n - a)%nat else None.
Proof.
  induction l as [|x l IH]; intros a n Hids.
  - simpl. by rewrite bool_decide_eq_false_2 by lia.
  - apply consecutive_tail in Hids as [Hx Hrest].
    cbn [index_of]. rewrite Hx. case_bool_decide as Heq.
    + injection Heq as <-.
      rewrite bool_decide_eq_true_2 by (simpl; lia). f_equal. lia.
    + assert (n ≠ Z.of_nat a) by congruence.
      rewrite (IH (S a) n Hrest).
      case_bool_decide as Hin.
      * rewrite bool_decide_eq_true_2 by (simpl in *; lia).
        simpl. f_equal. lia.
      * by rewrite bool_decide_eq_false_2 by (simpl in *; lia).
Qed.

Lemma find_consecutive l : ∀ a n,
  consecutive a l →
  match List.find (fun item => bool_decide (id item = Some n)) l with
  | Some x => Z.of_nat a <= n < Z.of_nat (a + length l) ∧ id x = Some n ∧ x ∈ l
  | None => ¬ (Z.of_nat a <= n < Z.of_nat (a + length l))
  end.
Proof.
  induction l as [|x l IH]; intros a n Hids.
  - simpl. lia.
  - apply consecutive_tail in Hids as [Hx Hrest].
    cbn [List.find]. case_bool_decide as Heq.
    + split; [|split; [done | by left]].
      rewrite Hx in Heq. injection Heq as <-. simpl. lia.
    + specialize (IH (S a) n Hrest).
      assert (n ≠ Z.of_nat a) by congruence.
      destruct (List.find _ l) as [y|].
      * destruct IH as (Hin & Hy & Hmem).
        split; [simpl in *; lia|]. split; [done | by right].
      * simpl in *. lia.
Qed.

Lemma all_content_consecutive :
  consecutive 1%nat (VOCABULARY_BASIC ++ VOCABULARY_PHRASES)%list.
Proof. vm_compute. reflexivity. Qed.

Lemma all_content_words :
  forallb
    (fun item =>
       bool_decide (is_Some (get "pt" item) ∧ is_Some (get "en" item)))
    (VOCABULARY_BASIC ++ VOCABULARY_PHRASES)%list
  = true.
Proof. vm_compute. reflexivity. Qed.

Lemma get_lesson_by_id_spec n :
  match get_lesson_by_id n with
  | Some x =>
      1 <= n <= 15 ∧ id x = Some n
      ∧ is_Some (get "pt" x) ∧ is_Some (get "en" x)
  | None => ¬ (1 <= n <= 15)
  end.
Proof.
  unfold get_lesson_by_id. cbn zeta.
  pose proof (find_consecutive _ 1%nat n all_content_consecutive) as Hfind.
  change (length (VOCABULARY_BASIC ++ VOCABULARY_PHRASES)%list) with 15%nat
    in Hfind.
  destruct (List.find _ _) as [x|].
  - destruct Hfind as (Hin & Hx & Hmem).
    split; [lia|]. split; [done|].
    pose proof all_content_words as Hwords.
    rewrite List.forallb_forall in Hwords.
    apply list_elem_of_In, Hwords in Hmem.
    by apply bool_decide_eq_true in Hmem.
  - lia.
Qed.

Lemma lessons_by_level_spec level :
  let k := if String.eqb "Intermediário" level then 10%nat
           else if String.eqb "Avançado" level then 15%nat else 5%nat in
  get_lessons_by_level level
  = take k (VOCABULARY_BASIC ++ VOCABULARY_PHRASES)%list
  ∧ consecutive 1%nat (get_lessons_by_level level)
  ∧ length (get_lessons_by_level level) = k.
Proof.
  unfold get_lessons_by_level, level_config, DIFFICULTY_LEVELS.
  cbn [List.find fst snd].
  destruct (String.eqb_spec "Iniciante" level) as [<-|_];
    [vm_compute; done|].
  destruct (String.eqb_spec "Intermediário" level) as [<-|_];
    [vm_compute; done|].
  destruct (String.eqb_spec "Avançado" level) as [<-|_];
    vm_compute; done.
Qed.

Lemma random_choice_in {A} pick (l : list A) :
  l ≠ [] → ∃ x, random_choice pick l = Some x ∧ x ∈ l.
Proof.
  intros Hne. unfold random_choice.
  destruct (lookup_lt_is_Some_2 l (pick mod length l)) as [x Hx].
  { apply Nat.mod_upper_bound. by destruct l. }
  exists x. split; [done | by eapply list_elem_of_lookup_2].
Qed.

End Lessons.

(** X13. [get_lesson_by_id] finds a lesson exactly for the ids 1 to 15;
    the lesson found has the id asked for and has both a Portuguese and an
    English word. *)
Theorem X13_get_lesson_by_id (lesson_id : Z) :
  (is_Some (LessonManager.get_lesson_by_id lesson_id)
   ↔ 1 <= lesson_id <= 15)
  ∧ ∀ lesson,
      LessonManager.get_lesson_by_id lesson_id = Some lesson →
      FootballContent.id lesson = Some lesson_id
      ∧ is_Some (FootballContent.get "pt" lesson)
      ∧ is_Some (FootballContent.get "en" lesson).
Proof.
  pose proof (get_lesson_by_id_spec lesson_id) as Hspec.
  destruct (LessonManager.get_lesson_by_id lesson_id) as [x|].
  - destruct Hspec as (Hin & Hid & Hpt & Hen). split.
    + split; [done | by eexists].
    + by intros lesson [= <-].
  - split; [|done]. split; [by intros [? ?] | done].
Qed.

(** X13, witness: lesson 15, the last phrase. *)
Lemma X13_get_lesson_by_id_witness :
  is_Some (LessonManager.get_lesson_by_id 15).
Proof.
  destruct (X13_get_lesson_by_id 15) as [[_ Hfound] _].
  apply Hfound. lia.
Defined.

(** X14. The lessons of a level are the first 10 entries of the two
    vocabularies for "Intermediário", all 15 for "Avançado", and the first
    5 for every other string, known or not; their ids are 1, 2, ... in
    this order. *)
Theorem X14_lessons_by_level (level : string) :
  let k := if String.eqb "Intermediário" level then 10%nat
           else if String.eqb "Avançado" level then 15%nat else 5%nat in
  LessonManager.get_lessons_by_level level
  = take k (FootballContent.VOCABULARY_BASIC
            ++ FootballContent.VOCABULARY_PHRASES)%list
  ∧ FootballContent.id <$> LessonManager.get_lessons_by_level level
    = (fun i : nat => Some (Z.of_nat i)) <$> seq 1 k.
Proof.
  intros k. destruct (lessons_by_level_spec level) as (Htake & Hids & Hlen).
  fold k in Htake, Hlen. split; [done|].
  unfold consecutive in Hids. by rewrite Hids, Hlen.
Qed.

(** X15. [get_next_lesson] always answers with a lesson of the level, for
    every current id and every level: the lesson with the next id when the
    current id is one of the level's and not its last, and lesson 1
    otherwise. The random choice of its last line is never reached. *)
Theorem X15_get_next_lesson (pick : nat) (current_id : Z) (level : string) :
  let lessons := LessonManager.get_lessons_by_level level in
  ∃ lesson,
    LessonManager.get_next_lesson pick current_id level = Some lesson
    ∧ lesson ∈ lessons
    ∧ FootballContent.id lesson
      = Some (if bool_decide (1 <= current_id < Z.of_nat (length lessons))
              then current_id + 1 else 1).
Proof.
  intros lessons.
  destruct (lessons_by_level_spec level) as (_ & Hids & Hlen).
  fold lessons in Hids, Hlen.
  assert (0 < length lessons)%nat as Hpos
    by (rewrite Hlen; repeat case_match; lia).
  unfold LessonManager.get_next_lesson. fold lessons. cbn zeta.
  assert (∃ first,
            match lessons with
            | first :: _ => Some first
            | [] => LessonManager.get_random_lesson pick level
            end = Some first
            ∧ first ∈ lessons
            ∧ FootballContent.id first = Some 1) as (first & -> & Hfin & Hfid).
  { destruct lessons as [|first rest] eqn:Hl; [simpl in Hpos; lia|].
    exists first. split; [done|]. split; [by left|].
    by apply (consecutive_lookup _ 1 0 first Hids). }
  rewrite (index_of_consecutive _ 1 current_id Hids).
  case_bool_decide as Hin.
  - destruct (Nat.ltb_spec (Z.to_nat current_id - 1 + 1) (length lessons))
      as [Hlt|Hge].
    + destruct (lookup_lt_is_Some_2 lessons _ Hlt) as [x Hx].
      exists x. split; [done|]. split; [by eapply list_elem_of_lookup_2|].
      rewrite (consecutive_lookup _ _ _ _ Hids Hx).
      rewrite bool_decide_eq_true_2 by lia. f_equal. lia.
    + exists first. split; [done|]. split; [done|].
      by rewrite bool_decide_eq_false_2 by lia.
  - exists first. split; [done|]. split; [done|].
    by rewrite bool_decide_eq_false_2 by lia.
Qed.

(** X16. [get_random_lesson] answers with a lesson of the level whatever
    number is drawn, so its id is at least 1 and at most the number of
    lessons of the level. *)
Theorem X16_get_random_lesson (pick : nat) (level : string) :
  let lessons := LessonManager.get_lessons_by_level level in
  ∃ lesson n,
    LessonManager.get_random_lesson pick level = Some lesson
    ∧ lesson ∈ lessons
    ∧ FootballContent.id lesson = Some n
    ∧ 1 <= n <= Z.of_nat (length lessons).
Proof.
  intros lessons.
  destruct (lessons_by_level_spec level) as (_ & Hids & Hlen).
  fold lessons in Hids, Hlen.
  assert (0 < length lessons)%nat as Hpos
    by (rewrite Hlen; repeat case_match; lia).
  assert (lessons ≠ []) as Hne.
  { intros Hnil. rewrite Hnil in Hpos. simpl in Hpos. lia. }
  destruct (random_choice_in pick lessons Hne) as (x & Hx & Hmem).
  unfold LessonManager.get_random_lesson. fold lessons. cbn zeta.
  apply list_elem_of_lookup_1 in Hmem as [i Hi].
  pose proof (lookup_lt_Some _ _ _ Hi) as Hlt.
  exists x, (Z.of_nat (1 + i)).
  split; [by destruct lessons|].
  split; [by eapply list_elem_of_lookup_2|].
  split; [by apply (consecutive_lookup _ _ _ _ Hids Hi) | lia].
Qed.

(** ** [bot_final.py]: the command [/proxima] *)

Section Proxima.

Import FootballContent FutEnglishBot.

Implicit Types (ss : gmap Z simple_session) (s : simple_session).

Lemma format_lesson_ok lesson s :
  is_Some (get "pt" lesson) → is_Some (get "en" lesson) →
  ∃ text, _format_lesson lesson s = Ok text.
Proof.
  intros [pt Hpt] [en Hen]. unfold _format_lesson. rewrite Hpt, Hen.
  by eexists.
Qed.

Lemma fallback_words :
  forallb
    (fun item =>
       bool_decide (is_Some (get "pt" item) ∧ is_Some (get "en" item)))
    fallback_lessons
  = true.
Proof. vm_compute. reflexivity. Qed.

Lemma send_fallback_ok s :
  ∃ lesson text,
    fallback_lessons !! Z.to_nat ((lesson_id s - 1) mod 5) = Some lesson
    ∧ _format_lesson lesson s = Ok text
    ∧ _send_fallback_lesson s
      = Ok (with_lesson_id s (lesson_id s + 1), [text]).
Proof.
  unfold _send_fallback_lesson. cbn zeta.
  change (Z.of_nat (length fallback_lessons)) with 5.
  destruct (lookup_lt_is_Some_2 fallback_lessons
              (Z.to_nat ((lesson_id s - 1) mod 5))) as [lesson Hlesson].
  { change (length fallback_lessons) with 5%nat.
    pose proof (Z.mod_pos_bound (lesson_id s - 1) 5). lia. }
  pose proof fallback_words as Hwords.
  rewrite List.forallb_forall in Hwords.
  pose proof (list_elem_of_lookup_2 _ _ _ Hlesson) as Hmem.
  apply list_elem_of_In, Hwords, bool_decide_eq_true in Hmem as [Hpt Hen].
  destruct (format_lesson_ok lesson s Hpt Hen) as [text Htext].
  exists lesson, text. by rewrite Hlesson, Htext.
Qed.

Lemma get_or_create_simple_spec user_id name ss :
  get_or_create_simple_session user_id name ss
  = (default (new_session user_id name) (ss !! user_id),
     <[user_id := default (new_session user_id name) (ss !! user_id)]> ss).
Proof.
  unfold get_or_create_simple_session.
  destruct (ss !! user_id) as [s|] eqn:Hs; [|done].
  by rewrite insert_id.
Qed.

Lemma with_lesson_id_twice s a b :
  with_lesson_id (with_lesson_id s a) b = with_lesson_id s b.
Proof. done. Qed.

End Proxima.

(** X17. [proxima_command] never raises and sends exactly one reply. It
    leaves the sessions of the other users alone, and of the caller's
    session (created with an empty name if there was none) it changes at
    most the lesson id. Before the onboarding is complete it changes
    nothing else and answers with the request to use /start. *)
Theorem X17_proxima_never_raises
    (full_features : bool) (user_id : Z)
    (ss : gmap Z FutEnglishBot.simple_session) :
  let s := default (FutEnglishBot.new_session user_id "") (ss !! user_id) in
  ∃ ss' s' reply,
    FutEnglishBot.proxima_command full_features user_id ss
    = Ok (ss', [reply])
    ∧ (∀ other, other ≠ user_id → ss' !! other = ss !! other)
    ∧ ss' !! user_id = Some s'
    ∧ s' = FutEnglishBot.with_lesson_id s (FutEnglishBot.lesson_id s')
    ∧ (FutEnglishBot.onboarding_complete s = false →
       s' = s ∧ reply = "Use /start primeiro para nos conhecermos! 😊").
Proof.
  intros s. unfold FutEnglishBot.proxima_command.
  rewrite get_or_create_simple_spec. fold s.
  destruct (send_fallback_ok s) as (fl & ftext & _ & _ & Hfallback).
  rewrite Hfallback.
  assert (∀ v other, other ≠ user_id →
            <[user_id := v]> (<[user_id := s]> ss) !! other = ss !! other)
    as Hframe2 by (intros; by rewrite !lookup_insert_ne).
  assert (∀ other, other ≠ user_id →
            <[user_id := s]> ss !! other = ss !! other)
    as Hframe1 by (intros; by rewrite lookup_insert_ne).
  assert (s = FutEnglishBot.with_lesson_id s (FutEnglishBot.lesson_id s))
    as Hsame by (by destruct s).
  destruct (FutEnglishBot.onboarding_complete s) eqn:Hdone; cbn [negb].
  2:{ eexists _, s, _. split; [done|]. split; [done|].
      split; [by rewrite lookup_insert_eq|]. by split. }
  destruct full_features.
  2:{ eexists _, _, _. split; [done|]. split; [by apply Hframe2|].
      split; [by rewrite lookup_insert_eq|]. by split. }
  pose proof (get_lesson_by_id_spec (FutEnglishBot.lesson_id s)) as Hfound.
  destruct (LessonManager.get_lesson_by_id _) as [lesson|].
  2:{ eexists _, s, _. split; [done|]. split; [done|].
      split; [by rewrite lookup_insert_eq|]. by split. }
  destruct Hfound as (_ & _ & Hpt & Hen).
  destruct (format_lesson_ok lesson s Hpt Hen) as [text ->].
  eexists _, _, _. split; [done|]. split; [by apply Hframe2|].
  split; [by rewrite lookup_insert_eq|]. split; [|done].
  by destruct (10 <? _).
Qed.

(** X17, witness: [/proxima] of a user the bot has not seen. *)
Lemma X17_proxima_never_raises_witness :
  FutEnglishBot.proxima_command true 9 bot_store
  = Ok (<[9 := FutEnglishBot.new_session 9 ""]> bot_store,
        ["Use /start primeiro para nos conhecermos! 😊"]).
Proof.
  destruct (X17_proxima_never_raises true 9 bot_store)
    as (ss' & s' & reply & Hcall & _ & _ & _ & Hrefused).
  destruct Hrefused as [_ ->]; [reflexivity|].
  rewrite Hcall. vm_compute in Hcall. by injection Hcall as <-.
Defined.

(** X18. With all features, [/proxima] of a user whose onboarding is
    complete and whose lesson id is between 1 and 10 replies with the
    lesson of that id and moves to the next id, from 10 back to 1: the
    lesson id stays between 1 and 10, so the phrases with the ids 11 to 15
    are never served this way. *)
Theorem X18_proxima_cycles
    (user_id : Z) (ss : gmap Z FutEnglishBot.simple_session)
    (s : FutEnglishBot.simple_session) :
  ss !! user_id = Some s →
  FutEnglishBot.onboarding_complete s = true →
  1 <= FutEnglishBot.lesson_id s <= 10 →
  ∃ lesson text,
    LessonManager.get_lesson_by_id (FutEnglishBot.lesson_id s) = Some lesson
    ∧ FutEnglishBot._format_lesson lesson s = Ok text
    ∧ FutEnglishBot.proxima_command true user_id ss
      = Ok (<[user_id :=
               FutEnglishBot.with_lesson_id s
                 (FutEnglishBot.lesson_id s mod 10 + 1)]> ss,
            [text])
    ∧ 1 <= FutEnglishBot.lesson_id s mod 10 + 1 <= 10.
Proof.
  intros Hs Hdone Hrange.
  pose proof (get_lesson_by_id_spec (FutEnglishBot.lesson_id s)) as Hfound.
  destruct (LessonManager.get_lesson_by_id _) as [lesson|] eqn:Hlesson;
    [|lia].
  destruct Hfound as (_ & _ & Hpt & Hen).
  destruct (format_lesson_ok lesson s Hpt Hen) as [text Htext].
  exists lesson, text. split; [done|]. split; [done|].
  split; [|pose proof (Z.mod_pos_bound (FutEnglishBot.lesson_id s) 10); lia].
  unfold FutEnglishBot.proxima_command.
  rewrite get_or_create_simple_spec, Hs.
  change (default (FutEnglishBot.new_session user_id "") (Some s)) with s.
  cbv beta iota zeta.
  rewrite Hdone, Hlesson, Htext. cbn [negb].
  rewrite insert_insert_eq. do 2 f_equal.
  cbn [FutEnglishBot.lesson_id FutEnglishBot.with_lesson_id].
  destruct (Z.ltb_spec 10 (FutEnglishBot.lesson_id s + 1)) as [Hwrap|Hnext].
  - rewrite with_lesson_id_twice. f_equal.
    replace (FutEnglishBot.lesson_id s) with 10 by lia. done.
  - f_equal. rewrite Z.mod_small by lia. done.
Qed.

(** X18, witness: Ana at lesson 10 goes back to lesson 1. *)
Lemma X18_proxima_cycles_witness :
  ∃ text,
    FutEnglishBot.proxima_command true 7 bot_store
    = Ok (<[7 := FutEnglishBot.with_lesson_id bot_session_ana 1]> bot_store,
          [text]).
Proof.
  destruct (X18_proxima_cycles 7 bot_store bot_session_ana)
    as (lesson & text & _ & _ & Hcall & _);
    [reflexivity | reflexivity | simpl; lia |].
  exists text. exact Hcall.
Defined.

(** X19. Without the features, [/proxima] of a user whose onboarding is
    complete replies with one of the five fallback lessons, the one at
    [(lesson_id - 1) mod 5], and adds one to the lesson id without a
    bound. *)
Theorem X19_proxima_fallback
    (user_id : Z) (ss : gmap Z FutEnglishBot.simple_session)
    (s : FutEnglishBot.simple_session) :
  ss !! user_id = Some s →
  FutEnglishBot.onboarding_complete s = true →
  ∃ lesson text,
    FutEnglishBot.fallback_lessons
      !! Z.to_nat ((FutEnglishBot.lesson_id s - 1) mod 5) = Some lesson
    ∧ FutEnglishBot._format_lesson lesson s = Ok text
    ∧ FutEnglishBot.proxima_command false user_id ss
      = Ok (<[user_id :=
               FutEnglishBot.with_lesson_id s
                 (FutEnglishBot.lesson_id s + 1)]> ss,
            [text]).
Proof.
  intros Hs Hdone.
  destruct (send_fallback_ok s) as (lesson & text & Hl & Htext & Hfallback).
  exists lesson, text. split; [done|]. split; [done|].
  unfold FutEnglishBot.proxima_command.
  rewrite get_or_create_simple_spec, Hs.
  change (default (FutEnglishBot.new_session user_id "") (Some s)) with s.
  cbv beta iota zeta.
  rewrite Hdone, Hfallback. cbn [negb].
  by rewrite insert_insert_eq.
Qed.

(** X19, witness: Ana at lesson 10 is moved to lesson 11. *)
Lemma X19_proxima_fallback_witness :
  ∃ text,
    FutEnglishBot.proxima_command false 7 bot_store
    = Ok (<[7 := FutEnglishBot.with_lesson_id bot_session_ana 11]> bot_store,
          [text]).
Proof.
  destruct (X19_proxima_fallback 7 bot_store bot_session_ana)
    as (lesson & text & _ & _ & Hcall); [reflexivity | reflexivity |].
  exists text. exact Hcall.
Defined.

(** ** [ai_handler.py]: [ConversationManager] *)

Section Conversation.

Import ConversationManager.

Lemma py_last_n_snoc {A} n (l : list A) x :
  (0 < n)%nat → (n < length (l ++ [x]))%nat →
  py_last_n n (l ++ [x]) = (drop (length l + 1 - n) l ++ [x])%list.
Proof.
  intros Hpos Hlong. rewrite length_app in Hlong. simpl in Hlong.
  unfold py_last_n. destruct n as [|n]; [lia|].
  rewrite length_app. simpl. by rewrite drop_app_le by lia.
Qed.

Lemma add_interaction_not_empty user_id now user_message ai_response
    (self : t) :
  (0 < max_history_length self)%nat →
  ∃ new,
    conversation_history
      (add_interaction user_id user_message ai_response now self) !! user_id
    = Some new
    ∧ new ≠ [].
Proof.
  intros Hpos. unfold add_interaction.
  cbn [conversation_history max_history_length].
  set (old := default [] (conversation_history self !! user_id)).
  set (x := MkInteraction now user_message ai_response).
  rewrite lookup_insert_eq. eexists. split; [done|].
  destruct (Nat.ltb_spec (max_history_length self)
              (length (old ++ [x])%list)) as [Hlong|Hshort].
  - rewrite (py_last_n_snoc _ old x Hpos Hlong). by destruct (drop _ old).
  - by destruct old.
Qed.

End Conversation.

(** X20. [add_interaction] puts the new interaction last in the user's
    history and keeps, in their order, as many of the most recent
    interactions as the bound allows: the new history is an end piece of
    the old one with the new interaction appended, and its length is the
    smaller of the bound and the old length plus one. The histories of
    the other users and the bound stay as they were. *)
Theorem X20_history_bounded
    (user_id now : Z) (user_message ai_response : string)
    (self : ConversationManager.t) :
  let bound := ConversationManager.max_history_length self in
  let old :=
    default [] (ConversationManager.conversation_history self !! user_id) in
  let x := ConversationManager.MkInteraction now user_message ai_response in
  let self' :=
    ConversationManager.add_interaction user_id user_message ai_response
      now self in
  (0 < bound)%nat →
  ∃ new dropped,
    ConversationManager.conversation_history self' !! user_id = Some new
    ∧ (old ++ [x] = dropped ++ new)%list
    ∧ List.last new x = x
    ∧ new ≠ []
    ∧ length new = (S (length old) `min` bound)%nat
    ∧ (∀ other, other ≠ user_id →
         ConversationManager.conversation_history self' !! other
         = ConversationManager.conversation_history self !! other)
    ∧ ConversationManager.max_history_length self' = bound.
Proof.
  intros bound old x self' Hpos. subst self'.
  unfold ConversationManager.add_interaction. fold bound old x.
  cbn [ConversationManager.conversation_history
       ConversationManager.max_history_length].
  destruct (Nat.ltb_spec bound (length (old ++ [x])%list)) as [Hlong|Hshort].
  - rewrite (py_last_n_snoc bound old x Hpos Hlong).
    rewrite length_app in Hlong. simpl in Hlong.
    exists (drop (length old + 1 - bound) old ++ [x])%list,
           (take (length old + 1 - bound) old).
    split; [by rewrite lookup_insert_eq|].
    split; [by rewrite app_assoc, take_drop|].
    split; [by rewrite List.last_last|].
    split; [by destruct (drop _ old)|].
    split; [rewrite length_app, length_drop; cbn [length]; lia|].
    split; [intros; by rewrite lookup_insert_ne | done].
  - rewrite length_app in Hshort. simpl in Hshort.
    exists (old ++ [x])%list, [].
    split; [by rewrite lookup_insert_eq|]. split; [done|].
    split; [by rewrite List.last_last|].
    split; [by destruct old|].
    split; [rewrite length_app; cbn [length]; lia|].
    split; [intros; by rewrite lookup_insert_ne | done].
Qed.

(** X20, witness: the first interaction of user 7. *)
Lemma X20_history_bounded_witness :
  ∃ new,
    ConversationManager.conversation_history
      (ConversationManager.add_interaction 7 "gol?" "Goal!" 1000
         ConversationManager.__init__) !! 7 = Some new
    ∧ length new = 1%nat.
Proof.
  destruct (X20_history_bounded 7 1000 "gol?" "Goal!"
              ConversationManager.__init__)
    as (new & dropped & Hnew & _ & _ & _ & Hlen & _); [simpl; lia|].
  exists new. split; [exact Hnew | exact Hlen].
Defined.

(** X21. The context summary of a user is empty exactly when the user has
    no history or an empty one. It is empty after [clear_history] and not
    empty after [add_interaction], whatever was said; clearing the history
    of one user leaves the summary of every other user as it was. *)
Theorem X21_context_summary
    (user_id other now : Z) (user_message ai_response : string)
    (self : ConversationManager.t) :
  (ConversationManager.get_context_summary user_id self = ""
   ↔ default [] (ConversationManager.conversation_history self !! user_id)
     = [])
  ∧ ConversationManager.get_context_summary user_id
      (ConversationManager.clear_history user_id self) = ""
  ∧ ((0 < ConversationManager.max_history_length self)%nat →
     ConversationManager.get_context_summary user_id
       (ConversationManager.add_interaction user_id user_message
          ai_response now self) ≠ "")
  ∧ (other ≠ user_id →
     ConversationManager.get_context_summary other
       (ConversationManager.clear_history user_id self)
     = ConversationManager.get_context_summary other self).
Proof.
  assert (∀ m : ConversationManager.t,
            ConversationManager.get_context_summary user_id m = ""
            ↔ default []
                (ConversationManager.conversation_history m !! user_id) = [])
    as Hempty.
  { intros m. unfold ConversationManager.get_context_summary.
    destruct (ConversationManager.conversation_history m !! user_id)
      as [history|]; [|done].
    cbn [default]. unfold py_last_n.
    destruct history as [|a history]; [done|].
    destruct (drop _ _) as [|b rest] eqn:Hdrop; [|done].
    apply (f_equal length) in Hdrop. rewrite length_drop in Hdrop.
    simpl in Hdrop. lia. }
  split; [apply Hempty|]. split; [|split].
  - apply Hempty. unfold ConversationManager.clear_history.
    cbn [ConversationManager.conversation_history].
    by rewrite lookup_delete_eq.
  - intros Hpos Hsummary. apply Hempty in Hsummary.
    destruct (add_interaction_not_empty user_id now user_message ai_response
                self Hpos) as (new & Hnew & Hne).
    rewrite Hnew in Hsummary. done.
  - intros Hne. unfold ConversationManager.get_context_summary,
      ConversationManager.clear_history.
    cbn [ConversationManager.conversation_history].
    by rewrite lookup_delete_ne.
Qed.

(** X21, witness: a summary after the first interaction. *)
Lemma X21_context_summary_witness :
  ConversationManager.get_context_summary 7
    (ConversationManager.add_interaction 7 "gol?" "Goal!" 1000
       ConversationManager.__init__) ≠ "".
Proof.
  destruct (X21_context_summary 7 8 1000 "gol?" "Goal!"
              ConversationManager.__init__) as (_ & _ & Hadd & _).
  apply Hadd. simpl. lia.
Defined.

(** ** [audio_manager.py]: further properties *)

Section AudioFurther.

Variable sv : Services.

Lemma string_app_assoc (a b c : string) :
  ((a ++ b) ++ c)%string = (a ++ b ++ c)%string.
Proof.
  induction a as [|x a IH]; [done|].
  change (String x ((a ++ b) ++ c) = String x (a ++ b ++ c))%string.
  by rewrite IH.
Qed.

Lemma with_cache_same (self : TTSEngine.t) :
  TTSEngine.with_cache (TTSEngine.cache self) self = self.
Proof. by destruct self. Qed.

Lemma try_synthesis_returns text language (self self2 : TTSEngine.t)
    (w w2 : World) p :
  TTSEngine.try_synthesis sv text language self w
  = (Ok (Some p), self2, w2) →
  truthy p = true
  ∧ ∃ w0,
      self2
      = TTSEngine.with_cache
          (AudioCache.set text language p w0 (TTSEngine.cache self)).1 self
      ∧ w2 = (AudioCache.set text language p w0 (TTSEngine.cache self)).2.
Proof.
  unfold TTSEngine.try_synthesis.
  destruct (TTSEngine._get_voice_config language) as [vc|e]; [|done].
  cbn zeta.
  destruct (synthesize_speech sv _ _) as [audio|e]; [|done].
  destruct (TTSEngine._save_audio_file _ _ _ _) as [file_path w0].
  destruct file_path as [path|]; cbn [truthy_opt]; [|done].
  change (default "" (Some path)) with path.
  destruct (truthy path) eqn:Hpath; [|done].
  destruct (AudioCache.set text language path w0 (TTSEngine.cache self))
    as [c2 w3] eqn:Hset.
  intros [= <- <- <-]. split; [done|]. exists w0. by rewrite Hset.
Qed.

(** What a call of [generate_audio] that returns a path leaves behind:
    the client is there, the text is not blank, and the cache holds a
    fresh entry for the pair that names the path returned. *)
Lemma generate_audio_returns text language (self self1 : TTSEngine.t)
    (w w1 : World) p :
  0 < AudioCache.ttl (TTSEngine.cache self) →
  TTSEngine.generate_audio sv text language self w
  = (Ok (Some p), self1, w1) →
  TTSEngine.client self1 = true
  ∧ truthy (pystr.strip text) = true
  ∧ truthy p = true
  ∧ ∃ e,
      AudioCache.cache (TTSEngine.cache self1)
        !! AudioCache._generate_key text language = Some e
      ∧ AudioCache.file_path e = p
      ∧ now w1 - AudioCache.timestamp e
        < AudioCache.ttl (TTSEngine.cache self1).
Proof.
  intros Httl Hcall.
  destruct (TTSEngine.client self) eqn:Hclient;
    [|by rewrite generate_audio_no_client in Hcall].
  destruct (truthy (pystr.strip text)) eqn:Htext;
    [|by rewrite generate_audio_blank in Hcall].
  pose proof (get_params text language w (TTSEngine.cache self))
    as [_ Hgttl].
  destruct (truthy_opt (AudioCache.get text language w
                          (TTSEngine.cache self)).1) eqn:Ho.
  - destruct ((AudioCache.get text language w (TTSEngine.cache self)).1)
      as [q|] eqn:Hhit; [|done]. cbn [truthy_opt] in Ho.
    rewrite (generate_audio_hit sv text language self w q) in Hcall by done.
    rewrite (get_hit_keeps _ _ _ _ _ Hhit), with_cache_same in Hcall.
    injection Hcall as -> <- <-.
    apply get_Some in Hhit as (e & He & Hp & Hfresh & _).
    split; [done|]. split; [done|]. split; [done|]. by exists e.
  - rewrite generate_audio_miss in Hcall by done. cbn zeta in Hcall.
    destruct (TTSEngine.try_synthesis _ _ _ _ _) as [[[r|e] self2] w2]
      eqn:Htry; [|done].
    injection Hcall as -> -> ->.
    apply try_synthesis_returns in Htry as (Hp & w0 & -> & ->).
    cbn [TTSEngine.cache TTSEngine.with_cache TTSEngine.client].
    pose proof (set_lookup_key text language p w0
                  (AudioCache.get text language w (TTSEngine.cache self)).2)
      as Hkey.
    pose proof (set_now_same text language p w0
                  (AudioCache.get text language w (TTSEngine.cache self)).2)
      as Hnow.
    pose proof (set_params text language p w0
                  (AudioCache.get text language w (TTSEngine.cache self)).2)
      as [_ Hsttl].
    split; [done|]. split; [done|]. split; [done|].
    eexists. split; [exact Hkey|]. split; [done|].
    cbn [AudioCache.timestamp]. rewrite Hsttl, Hgttl, Hnow. lia.
Qed.

End AudioFurther.

(** X22. Two pairs whose strings [text_language] coincide share one cache
    entry: what is stored for [(text ++ "_" ++ a, b)] is what a lookup of
    [(text, a ++ "_" ++ b)] returns within the TTL while the file
    exists. *)
Theorem X22_pairs_share_cache_entry
    (text a b file_path : string) (w1 w2 : World) (self : AudioCache.t) :
  let stored := AudioCache.set (text ++ "_" ++ a) b file_path w1 self in
  now w2 - now w1 < AudioCache.ttl self →
  os_path_exists file_path w2 = true →
  AudioCache._generate_key (text ++ "_" ++ a) b
  = AudioCache._generate_key text (a ++ "_" ++ b)
  ∧ AudioCache.get text (a ++ "_" ++ b) w2 stored.1
    = (Some file_path, stored.1).
Proof.
  intros stored Hfresh Hfile.
  assert (AudioCache._generate_key (text ++ "_" ++ a) b
          = AudioCache._generate_key text (a ++ "_" ++ b)) as Hkey.
  { unfold AudioCache._generate_key. f_equal.
    by rewrite !string_app_assoc. }
  split; [done|]. subst stored.
  pose proof (set_lookup_key (text ++ "_" ++ a) b file_path w1 self) as Hk.
  pose proof (set_params (text ++ "_" ++ a) b file_path w1 self) as [_ Httl].
  rewrite Hkey in Hk.
  assert ((AudioCache.get text (a ++ "_" ++ b) w2
             (AudioCache.set (text ++ "_" ++ a) b file_path w1 self).1).1
          = Some file_path) as Hhit.
  { apply get_Some. eexists. split; [exact Hk|]. simpl. by rewrite Httl. }
  pose proof (get_hit_keeps _ _ _ _ _ Hhit) as Hkeep.
  destruct (AudioCache.get _ _ _ _) as [r c]. simpl in *. congruence.
Qed.

(** X22, witness: stored for ("hello_xx", "pt-BR"), found for
    ("hello", "xx_pt-BR"). *)
Lemma X22_pairs_share_cache_entry_witness :
  (AudioCache.get "hello" "xx_pt-BR" (world_at 10 {["/tmp/a.ogg"]})
     (AudioCache.set "hello_xx" "pt-BR" "/tmp/a.ogg"
        (world_at 5 {["/tmp/a.ogg"]}) (AudioCache.__init__ 100 1)).1).1
  = Some "/tmp/a.ogg".
Proof.
  destruct (X22_pairs_share_cache_entry "hello" "xx" "pt-BR" "/tmp/a.ogg"
              (world_at 5 {["/tmp/a.ogg"]}) (world_at 10 {["/tmp/a.ogg"]})
              (AudioCache.__init__ 100 1)) as [_ Hget];
    [vm_compute; reflexivity | vm_compute; reflexivity |].
  change ("hello" ++ "_" ++ "xx")%string with "hello_xx" in Hget.
  change ("xx" ++ "_" ++ "pt-BR")%string with "xx_pt-BR" in Hget.
  by rewrite Hget.
Defined.

(** X23. A request that [generate_audio] has answered with a path is
    answered from the cache when it is repeated at once, while the file
    exists: the same path, no remote call, and no change of the engine or
    of the world, whatever the remote service and the disk would do. *)
Theorem X23_repeated_request_is_cached
    (sv sv' : Services) (text language p : string)
    (self self1 : TTSEngine.t) (w w1 : World) :
  0 < AudioCache.ttl (TTSEngine.cache self) →
  TTSEngine.generate_audio sv text language self w
  = (Ok (Some p), self1, w1) →
  os_path_exists p w1 = true →
  TTSEngine.generate_audio sv' text language self1 w1
  = (Ok (Some p), self1, w1).
Proof.
  intros Httl Hcall Hfile.
  destruct (generate_audio_returns sv text language self self1 w w1 p
              Httl Hcall)
    as (Hclient & Htext & Hp & e & He & Hpath & Hfresh).
  assert ((AudioCache.get text language w1 (TTSEngine.cache self1)).1
          = Some p) as Hhit.
  { apply get_Some. exists e. by rewrite Hpath. }
  rewrite (generate_audio_hit sv' text language self1 w1 p) by done.
  by rewrite (get_hit_keeps _ _ _ _ _ Hhit), with_cache_same.
Qed.

(** X23, witness: "Goal" synthesised once, then asked again while the
    remote service is down. *)
Lemma X23_repeated_request_is_cached_witness :
  TTSEngine.generate_audio services_down "Goal" "en-US" engine_warm world_warm
  = (Ok (Some "./temp_audio/tmp0_en-US.ogg"), engine_warm, world_warm).
Proof.
  apply (X23_repeated_request_is_cached services_up services_down
           "Goal" "en-US" "./temp_audio/tmp0_en-US.ogg"
           (TTSEngine.__init__ true) engine_warm (world_at 0 ∅) world_warm).
  - vm_compute. reflexivity.
  - vm_compute. reflexivity.
  - vm_compute. reflexivity.
Defined.

(** X24. A call of [generate_audio] issues at most one remote request, and
    only for one of the two supported languages; the request carries the
    cleaned text, the voice of the language and the fixed audio
    configuration. The call changes neither the client nor the
    parameters of the cache. *)
Theorem X24_at_most_one_request
    (sv : Services) (text language : string) (self : TTSEngine.t) (w : World) :
  let out := TTSEngine.generate_audio sv text language self w in
  (requests out.2 = requests w
   ∨ ∃ vc,
       requests out.2
       = (requests w
          ++ [Request (clean_text_for_tts sv text) vc Config.AUDIO_CONFIG])%list
       ∧ Config.language_code vc = language
       ∧ (language = "pt-BR" ∧ vc = Config.TTS_PT_CONFIG
          ∨ language = "en-US" ∧ vc = Config.TTS_EN_CONFIG))
  ∧ TTSEngine.client out.1.2 = TTSEngine.client self
  ∧ AudioCache.max_size (TTSEngine.cache out.1.2)
    = AudioCache.max_size (TTSEngine.cache self)
  ∧ AudioCache.ttl (TTSEngine.cache out.1.2)
    = AudioCache.ttl (TTSEngine.cache self).
Proof.
  intros out. subst out. unfold TTSEngine.generate_audio.
  destruct (TTSEngine.client self) eqn:Hclient; cbn [negb];
    [|by split; [left|]].
  destruct (truthy (pystr.strip text)); cbn [negb]; [|by split; [left|]].
  pose proof (get_params text language w (TTSEngine.cache self))
    as [Hgmax Hgttl].
  destruct (AudioCache.get text language w (TTSEngine.cache self))
    as [o c]. cbn [snd] in Hgmax, Hgttl.
  destruct (truthy_opt o); [by split; [left|]|].
  assert (let r := TTSEngine.try_synthesis sv text language
                     (TTSEngine.with_cache c self) w in
          (requests r.2 = requests w
           ∨ ∃ vc,
               requests r.2
               = (requests w
                  ++ [Request (clean_text_for_tts sv text) vc
                              Config.AUDIO_CONFIG])%list
               ∧ Config.language_code vc = language
               ∧ (language = "pt-BR" ∧ vc = Config.TTS_PT_CONFIG
                  ∨ language = "en-US" ∧ vc = Config.TTS_EN_CONFIG))
          ∧ TTSEngine.client r.1.2 = TTSEngine.client self
          ∧ AudioCache.max_size (TTSEngine.cache r.1.2)
            = AudioCache.max_size (TTSEngine.cache self)
          ∧ AudioCache.ttl (TTSEngine.cache r.1.2)
            = AudioCache.ttl (TTSEngine.cache self)) as Htry.
  { cbn zeta. split.
    - destruct (try_synthesis_requests sv text language
                  (TTSEngine.with_cache c self) w) as [Hsame|(vc & Hvc & Hreq)];
        [by left|].
      right. exists vc. split; [done|].
      unfold TTSEngine._get_voice_config in Hvc.
      destruct (String.eqb_spec language "pt-BR") as [->|_].
      { injection Hvc as <-. split; [done|]. by left. }
      destruct (String.eqb_spec language "en-US") as [->|_]; [|done].
      injection Hvc as <-. split; [done|]. by right.
    - unfold TTSEngine.try_synthesis.
      destruct (TTSEngine._get_voice_config language) as [vc|e]; [|done].
      cbn zeta. destruct (synthesize_speech sv _ _) as [audio|e]; [|done].
      destruct (TTSEngine._save_audio_file _ _ _ _) as [file_path w0].
      destruct (truthy_opt file_path); [|done].
      pose proof (set_params text language (default "" file_path) w0 c)
        as [Hsmax Hsttl].
      destruct (AudioCache.set _ _ _ _ _) as [c2 w2].
      cbn [fst snd TTSEngine.cache TTSEngine.with_cache TTSEngine.client]
        in *.
      split; [done|]. split; congruence. }
  cbn zeta in Htry. rewrite Hclient in Htry.
  destruct (TTSEngine.try_synthesis _ _ _ _ _) as [[[[q|]|[]] self2] w2];
    exact Htry.
Qed.


Section Unlink.

Implicit Types (w : World) (p q : string).

Lemma os_unlink_undeletable p w :
  undeletable (os_unlink p w).2 = undeletable w.
Proof. unfold os_unlink. by destruct (_ && _). Qed.

Lemma os_unlink_requests p w : requests (os_unlink p w).2 = requests w.
Proof. unfold os_unlink. by destruct (_ && _). Qed.

Lemma os_path_exists_mono q w w' :
  files w' ⊆ files w →
  os_path_exists q w = false → os_path_exists q w' = false.
Proof.
  unfold os_path_exists. intros Hsub.
  destruct (truthy q); [|done]. cbn [andb].
  rewrite !bool_decide_eq_false. intros Hq Hq'. by apply Hq, Hsub.
Qed.

(** Where [os.unlink] may delete the file, it is gone afterwards. *)
Lemma os_unlink_removes p w :
  p ∉ undeletable w → os_path_exists p (os_unlink p w).2 = false.
Proof.
  intros Hfree. unfold os_unlink.
  destruct (os_path_exists p w) eqn:Hex; cbn [andb]; [|done].
  rewrite bool_decide_eq_false_2 by done. cbn [negb snd].
  unfold os_path_exists, set_files. cbn [files].
  destruct (truthy p); [|done]. cbn [andb].
  apply bool_decide_eq_false. intros Hin.
  apply elem_of_difference in Hin as [_ Hn]. apply Hn.
  by apply elem_of_singleton.
Qed.

(** One step of the two loops that delete files:
    [if os.path.exists(path): os.unlink(path)], [OSError] ignored. *)
Lemma unlink_if_exists_gone p w :
  p ∉ undeletable w →
  os_path_exists p
    (if os_path_exists p w then (os_unlink p w).2 else w) = false.
Proof.
  intros Hfree. destruct (os_path_exists p w) eqn:Hex; [|done].
  by apply os_unlink_removes.
Qed.

Lemma unlink_if_exists_frame p w :
  let w' := if os_path_exists p w then (os_unlink p w).2 else w in
  files w' ⊆ files w
  ∧ undeletable w' = undeletable w
  ∧ now w' = now w
  ∧ requests w' = requests w.
Proof.
  cbn zeta. destruct (os_path_exists p w); [|done].
  split; [apply os_unlink_files|]. split; [apply os_unlink_undeletable|].
  split; [apply os_unlink_now | apply os_unlink_requests].
Qed.

End Unlink.



(** X27. The purge of the cache removes every entry older than the TTL
    and unlinks its file: afterwards the file of an expired entry is gone
    unless the disk refuses to delete it. Every entry that stays was
    there before and has an age of at most the TTL. The purge leaves the
    clock, the requests and the set of protected paths alone. *)
Theorem X27_purge_unlinks_expired (w : World) (self : AudioCache.t) :
  let out := AudioCache._cleanup_old_entries w self in
  (∀ k e,
     AudioCache.cache self !! k = Some e →
     AudioCache.expired self (now w) e →
     AudioCache.cache out.1 !! k = None
     ∧ (AudioCache.file_path e ∉ undeletable w →
        os_path_exists (AudioCache.file_path e) out.2 = false))
  ∧ (∀ k e,
       AudioCache.cache out.1 !! k = Some e →
       AudioCache.cache self !! k = Some e
       ∧ now w - AudioCache.timestamp e <= AudioCache.ttl self)
  ∧ undeletable out.2 = undeletable w
  ∧ now out.2 = now w
  ∧ requests out.2 = requests w.
Proof.
  intros out. subst out.
  assert (undeletable (AudioCache._cleanup_old_entries w self).2
          = undeletable w
          ∧ ∀ k e,
              filter (fun kv : string * AudioCache.entry =>
                        AudioCache.expired self (now w) kv.2)
                     (AudioCache.cache self) !! k = Some e →
              AudioCache.file_path e ∉ undeletable w →
              os_path_exists (AudioCache.file_path e)
                (AudioCache._cleanup_old_entries w self).2 = false)
    as [Hund Hfiles].
  { unfold AudioCache._cleanup_old_entries. cbn [snd].
    apply (map_fold_weak_ind
             (fun w' (m : gmap string AudioCache.entry) =>
                undeletable w' = undeletable w
                ∧ ∀ k e, m !! k = Some e →
                         AudioCache.file_path e ∉ undeletable w →
                         os_path_exists (AudioCache.file_path e) w' = false));
      [done|].
    intros k e m w' Hfresh [Hu IH].
    destruct (unlink_if_exists_frame (AudioCache.file_path e) w')
      as (Hsub & Hu' & _ & _).
    split; [congruence|].
    intros k' e' Hk' Hfree.
    destruct (decide (k' = k)) as [->|Hne].
    - rewrite lookup_insert_eq in Hk'. injection Hk' as <-.
      apply unlink_if_exists_gone. by rewrite Hu.
    - rewrite lookup_insert_ne in Hk' by done.
      eapply os_path_exists_mono; [exact Hsub|]. by eapply IH. }
  split; [|split; [|split; [done|split]]].
  - intros k e Hk Hexp. split.
    + rewrite cleanup_cache. apply map_lookup_filter_None. right.
      intros e' He'. rewrite Hk in He'. injection He' as <-. cbn. tauto.
    + apply (Hfiles k). by apply map_lookup_filter_Some.
  - intros k e. rewrite cleanup_cache.
    intros [Hk Hfresh]%map_lookup_filter_Some. split; [done|].
    unfold AudioCache.expired in Hfresh. cbn in Hfresh. lia.
  - apply cleanup_now.
  - apply cleanup_requests.
Qed.

(** X27, witness: the two-hour-old entry of a cache and its file. *)
Lemma X27_purge_unlinks_expired_witness :
  os_path_exists "/tmp/a.ogg"
    (AudioCache._cleanup_old_entries
       (world_at 7200000000 {["/tmp/a.ogg"; "/tmp/b.ogg"]}) cache_of_one).2
  = false.
Proof.
  destruct (X27_purge_unlinks_expired
              (world_at 7200000000 {["/tmp/a.ogg"; "/tmp/b.ogg"]})
              cache_of_one) as (Hexpired & _).
  destruct (Hexpired (AudioCache._generate_key "Goal" "en-US")
              (AudioCache.Entry "/tmp/a.ogg" 0)) as [_ Hgone].
  - vm_compute. reflexivity.
  - vm_compute. reflexivity.
  - apply Hgone. vm_compute. set_solver.
Defined.

(** X28. An entry whose age is exactly the TTL is in neither class: the
    lookup no longer serves it and leaves it in the cache, and the purge
    does not remove it and does not touch its file. *)
Theorem X28_entry_at_ttl
    (text language : string) (w : World) (self : AudioCache.t)
    (e : AudioCache.entry) :
  let key := AudioCache._generate_key text language in
  AudioCache.cache self !! key = Some e →
  now w - AudioCache.timestamp e = AudioCache.ttl self →
  AudioCache.get text language w self = (None, self)
  ∧ AudioCache.cache (AudioCache._cleanup_old_entries w self).1 !! key
    = Some e
  ∧ ((∀ k e', AudioCache.cache self !! k = Some e' →
              AudioCache.expired self (now w) e' →
              AudioCache.file_path e' ≠ AudioCache.file_path e) →
     os_path_exists (AudioCache.file_path e)
       (AudioCache._cleanup_old_entries w self).2
     = os_path_exists (AudioCache.file_path e) w).
Proof.
  intros key Hk Hage. split; [|split].
  - apply (get_stale text language w self e Hk). lia.
  - rewrite cleanup_cache. apply map_lookup_filter_Some. split; [done|].
    unfold AudioCache.expired. cbn. lia.
  - intros Hother.
    destruct (os_path_exists (AudioCache.file_path e) w) eqn:Hex.
    + apply os_path_exists_spec in Hex as [Hname Hin].
      apply os_path_exists_spec. split; [done|].
      by apply cleanup_keeps_file.
    + eapply os_path_exists_mono; [apply cleanup_files | done].
Qed.

(** X28, witness: the entry stored at time 0, looked up one hour later. *)
Lemma X28_entry_at_ttl_witness :
  AudioCache.get "Goal" "en-US" (world_at 3600000000 {["/tmp/a.ogg"]})
    cache_with_goal
  = (None, cache_with_goal).
Proof.
  destruct (X28_entry_at_ttl "Goal" "en-US"
              (world_at 3600000000 {["/tmp/a.ogg"]}) cache_with_goal
              (AudioCache.Entry "/tmp/a.ogg" 0)) as [Hget _].
  - vm_compute. reflexivity.
  - vm_compute. reflexivity.
  - exact Hget.
Defined.

(** X29. [update_session] on a store whose lock is free leaves the lock
    taken, and from then on no operation of the store returns:
    [get_session], [delete_session], [is_user_rate_limited],
    [get_all_sessions_count], the idle sweep and
    [process_onboarding_input] all wait for ever, and the sessions stay
    as they were before [update_session]. *)
Theorem X29_store_dead_after_update
    (py : Builtins) (user_id other now now' : Z)
    (kwargs : list (string * value)) (message : string)
    (ss : gmap Z UserSession.t) :
  ∃ m,
    UserStateManager.update_session user_id kwargs now
      (UserStateManager.Build ss false)
    = UserStateManager.Blocks m
    ∧ UserStateManager.sessions m = ss
    ∧ UserStateManager.get_session other m = UserStateManager.Blocks m
    ∧ UserStateManager.delete_session other m = UserStateManager.Blocks m
    ∧ UserStateManager.is_user_rate_limited other now' m
      = UserStateManager.Blocks m
    ∧ UserStateManager.get_all_sessions_count m = UserStateManager.Blocks m
    ∧ UserStateManager._cleanup_old_sessions now' m
      = UserStateManager.Blocks m
    ∧ OnboardingFlow.process_onboarding_input py other message now' m
      = UserStateManager.Blocks m.
Proof.
  exists (UserStateManager.Build ss true).
  split; [apply update_session_free_blocks|]. split; [done|].
  split; [by apply with_lock_held|]. split; [by apply with_lock_held|].
  split.
  { unfold UserStateManager.is_user_rate_limited.
    by rewrite get_or_create_held. }
  split; [by apply with_lock_held|]. split; [by apply with_lock_held|].
  reflexivity.
Qed.

(** ** [ai_handler.py]: [CommandDetector] *)

Section Commands.

Lemma string_app_cons c (a b : string) :
  (String c a ++ b)%string = String c (a ++ b)%string.
Proof. done. Qed.

Lemma prefix_app n : ∀ h,
  String.prefix n h = true ↔ ∃ post, h = (n ++ post)%string.
Proof.
  induction n as [|a n IH]; intros h.
  - destruct h; simpl; split; eauto.
  - destruct h as [|b h]; simpl.
    + split; [done|]. intros [post H].
      rewrite string_app_cons in H. done.
    + destruct (ascii_dec a b) as [->|Hne].
      * rewrite IH. split; intros [post H]; exists post;
          rewrite string_app_cons in *; congruence.
      * split; [done|]. intros [post H].
        rewrite string_app_cons in H. congruence.
Qed.

Lemma contains_app needle : ∀ hay,
  pystr.contains needle hay = true
  ↔ ∃ pre post, hay = (pre ++ needle ++ post)%string.
Proof.
  assert (∀ hay, pystr.contains needle hay
                 = String.prefix needle hay
                   || match hay with
                      | EmptyString => false
                      | String _ hay' => pystr.contains needle hay'
                      end) as Hunfold by (by intros []).
  induction hay as [|c hay IH]; rewrite Hunfold, orb_true_iff.
  - split.
    + intros [Hp|]; [|done]. apply prefix_app in Hp as [post ->].
      by exists "", post.
    + intros (pre & post & H). left. apply prefix_app.
      destruct pre as [|c pre]; [by exists post|].
      rewrite string_app_cons in H. done.
  - rewrite IH, prefix_app. split.
    + intros [[post ->]|(pre & post & ->)].
      * by exists "", post.
      * by exists (String c pre), post.
    + intros (pre & post & H). destruct pre as [|c' pre].
      * left. by exists post.
      * right. exists pre, post. rewrite string_app_cons in H. congruence.
Qed.

Lemma contains_trans a b hay :
  pystr.contains a b = true → pystr.contains b hay = true →
  pystr.contains a hay = true.
Proof.
  rewrite !contains_app. intros (pre1 & post1 & ->) (pre2 & post2 & ->).
  exists (pre2 ++ pre1)%string, (post1 ++ post2)%string.
  by rewrite !string_app_assoc.
Qed.

(** Patterns that contain another pattern of the list add nothing. *)
Lemma existsb_contains_reduce (full reduced : list string) text :
  forallb (fun p => existsb (fun q => pystr.contains q p) reduced) full
  = true →
  forallb (fun q => existsb (String.eqb q) full) reduced = true →
  existsb (fun p => pystr.contains p text) full
  = existsb (fun q => pystr.contains q text) reduced.
Proof.
  rewrite !List.forallb_forall. intros Hcover Hsub.
  apply Bool.eq_iff_eq_true. rewrite !List.existsb_exists. split.
  - intros (p & Hin & Hp).
    destruct (proj1 (List.existsb_exists _ _) (Hcover p Hin))
      as (q & Hq & Hqp).
    exists q. split; [done|]. by eapply contains_trans.
  - intros (q & Hin & Hq).
    destruct (proj1 (List.existsb_exists _ _) (Hsub q Hin))
      as (p & Hp & Heq).
    apply String.eqb_eq in Heq as <-. by exists q.
Qed.

End Commands.

(** X30. Seven of the patterns of [COMMAND_PATTERNS] never decide the
    answer of [detect_command], because each contains another pattern of
    its own command ("próxima lição" contains "próxima", "progresso"
    contains "progress", and so on): for every message the command
    detected is the one detected with the remaining patterns. The answer
    is one of the four command names or [None]. *)
Theorem X30_redundant_patterns (py : Builtins) (message : string) :
  CommandDetector.detect_command py message
  = CommandDetector.detect_in effective_patterns
      (pystr.strip (py_lower py message))
  ∧ CommandDetector.detect_command py message
    ∈ [Some "próxima"; Some "áudio"; Some "progresso"; Some "ajuda"; None].
Proof.
  unfold CommandDetector.detect_command. cbn zeta.
  set (text := pystr.strip (py_lower py message)).
  assert (CommandDetector.detect_in CommandDetector.COMMAND_PATTERNS text
          = CommandDetector.detect_in effective_patterns text) as Heq.
  { unfold CommandDetector.detect_in, CommandDetector.COMMAND_PATTERNS,
      effective_patterns.
    cbn [List.find fst snd].
    rewrite (existsb_contains_reduce
               ["próxima"; "proximo"; "próximo"; "next"; "continuar";
                "avançar"; "próxima lição"; "próxima palavra";
                "vamos continuar"]
               ["próxima"; "proximo"; "próximo"; "next"; "continuar";
                "avançar"] text) by (vm_compute; reflexivity).
    rewrite (existsb_contains_reduce
               ["áudio"; "audio"; "som"; "repetir"; "repeat"; "escutar";
                "repetir áudio"; "tocar de novo"; "quero ouvir"]
               ["áudio"; "audio"; "som"; "repetir"; "repeat"; "escutar";
                "tocar de novo"; "quero ouvir"] text)
      by (vm_compute; reflexivity).
    rewrite (existsb_contains_reduce
               ["progresso"; "progress"; "estatísticas"; "stats";
                "como estou"; "meu progresso"; "minhas estatísticas"]
               ["progress"; "estatísticas"; "stats"; "como estou"] text)
      by (vm_compute; reflexivity).
    repeat (destruct (existsb _ _); [reflexivity|]). reflexivity. }
  split; [exact Heq|]. rewrite Heq.
  unfold CommandDetector.detect_in, effective_patterns.
  cbn [List.find fst snd].
  repeat (destruct (existsb _ _);
          [cbn [fmap option_fmap option_map fst];
           apply list_elem_of_In; simpl; tauto|]).
  apply list_elem_of_In. simpl. tauto.
Qed.
